(** * Apollo spreadsheet: the edit-session manager and its navigation helper

    A shallow embedding of
    - [src/gridWrapper/gridWrapperProps.ts] (third unit): the API-driven
      [useEditorManager] hook, which dispatches [CELL_BEGIN_EDITING] and
      [CELL_STOP_EDITING] through the grid API;
    - [src/editorManager/useEditorManager.tsx]: the props-driven
      [useEditorManager] hook, which schedules a deferred key press;
    - the keyboard helper [isIndexOutOfBoundaries].

    Mutable refs ([state], [editorRef]) and the [editorNode] React state are
    threaded explicitly; calls to host callbacks, to the grid API's
    [dispatchEvent] and to [console.warn] are recorded, in order, in the list
    of effects every operation returns, and so is the exception of an
    operation that throws. *)

From Stdlib Require Import ZArith QArith String Ascii List Bool Lia.
From stdpp Require Import base option list gmap strings pretty.

Local Open Scope string_scope.
Local Open Scope list_scope.
Local Open Scope Z_scope.

(** ** JavaScript primitive values

    The cell values, editor values and default keys that flow through the
    manager are JavaScript primitives.  The numbers are [NaN] and the safe
    integers, that is the integer-valued doubles of magnitude at most
    [2^53 - 1]; the two zeros are one value, as none of the operations below
    tells them apart.  Strings are sequences of code units below 256.
    Fractions, the infinities, integers beyond the safe ones, and objects
    are outside this model. *)
Module Js.

(** [Number.MAX_SAFE_INTEGER] *)
Definition MAX_SAFE_INTEGER : Z := 9007199254740991.

(** [Number.isSafeInteger] on an integer. *)
Definition isSafeInteger (n : Z) : bool := Z.abs n <=? MAX_SAFE_INTEGER.

Record SafeInteger : Type := {
  toZ : Z;
  toZ_safe : Is_true (isSafeInteger toZ)
}.

Inductive Value : Type :=
| Undefined
| Null
| Bool (b : bool)
| NaN
| Number (n : SafeInteger)
| String (s : string).

(** The number written as the integer literal [n]. *)
Abbreviation int n := (Number {| toZ := n; toZ_safe := I |}).

(** [ToBoolean]: the test performed by [if (v)], [v ? a : b] and [!v]. *)
Definition ToBoolean (v : Value) : bool :=
  match v with
  | Undefined | Null | NaN => false
  | Bool b => b
  | Number n => negb (toZ n =? 0)
  | String s => negb (String.eqb s "")
  end.

(** [v === undefined || v === null] *)
Definition isNullish (v : Value) : bool :=
  match v with
  | Undefined | Null => true
  | _ => false
  end.

(** [a ?? b] *)
Definition nullish (a b : Value) : Value :=
  if isNullish a then b else a.

(** [ToString] on primitives; a safe integer prints as its decimal digits
    (the exponent form starts at [10^21], beyond the safe integers). *)
Definition ToString (v : Value) : string :=
  match v with
  | Undefined => "undefined"
  | Null => "null"
  | Bool true => "true"
  | Bool false => "false"
  | NaN => "NaN"
  | Number n => pretty (toZ n)
  | String s => s
  end.

(** [v + s] where [s] is a string: the addition operator concatenates as soon
    as one operand is a string. *)
Definition add_string (v : Value) (s : string) : Value :=
  String (ToString v +:+ s).

(** *** [StringToNumber] (ECMA-262, 7.1.4.1.1)

    The mathematical value of a [StringNumericLiteral] is kept exact, as
    [(-1)^neg * m * 10^e]; rounding to a double happens where it is compared
    with a number. *)
Inductive StrNumber : Type :=
| SNaN
| SInfinity (neg : bool)
| SFinite (neg : bool) (m : Z) (e : Z).

Definition isStrWhiteSpaceChar (c : ascii) : bool :=
  let n := nat_of_ascii c in
  (Nat.eqb n 9 || Nat.eqb n 10 || Nat.eqb n 11 || Nat.eqb n 12 ||
   Nat.eqb n 13 || Nat.eqb n 32 || Nat.eqb n 160)%bool.

Fixpoint dropWhiteSpace (cs : list ascii) : list ascii :=
  match cs with
  | c :: cs' => if isStrWhiteSpaceChar c then dropWhiteSpace cs' else cs
  | [] => []
  end.

Definition trim (cs : list ascii) : list ascii :=
  rev (dropWhiteSpace (rev (dropWhiteSpace cs))).

(** The value of a digit in the given radix, when it is one. *)
Definition digitValue (radix : Z) (c : ascii) : option Z :=
  let n := Z.of_nat (nat_of_ascii c) in
  let d := if (48 <=? n) && (n <=? 57) then Some (n - 48)
           else if (97 <=? n) && (n <=? 102) then Some (n - 87)
           else if (65 <=? n) && (n <=? 70) then Some (n - 55)
           else None in
  match d with
  | Some v => if v <? radix then Some v else None
  | None => None
  end.

(** Reads the longest prefix of digits: the accumulated value, the number of
    digits read and the rest of the input. *)
Fixpoint readDigits (radix : Z) (cs : list ascii) (acc count : Z)
  : Z * Z * list ascii :=
  match cs with
  | c :: cs' =>
      match digitValue radix c with
      | Some d => readDigits radix cs' (acc * radix + d) (count + 1)
      | None => (acc, count, cs)
      end
  | [] => (acc, count, [])
  end.

Definition readSign (cs : list ascii) : bool * list ascii :=
  match cs with
  | "+"%char :: cs' => (false, cs')
  | "-"%char :: cs' => (true, cs')
  | _ => (false, cs)
  end.

(** [ExponentPart] opt, up to the end of the input. *)
Definition readExponent (cs : list ascii) : option Z :=
  match cs with
  | [] => Some 0
  | c :: cs' =>
      if (Ascii.eqb c "e" || Ascii.eqb c "E")%bool then
        let '(neg, ds) := readSign cs' in
        match readDigits 10 ds 0 0 with
        | (v, count, []) =>
            if 0 <? count then Some (if neg then - v else v) else None
        | _ => None
        end
      else None
  end.

(** [StrUnsignedDecimalLiteral] *)
Definition readUnsignedDecimal (neg : bool) (cs : list ascii) : StrNumber :=
  if String.eqb (string_of_list_ascii cs) "Infinity" then SInfinity neg
  else
    let '(ip, nip, r1) := readDigits 10 cs 0 0 in
    let '(m, nfp, r2) :=
      match r1 with
      | "."%char :: r1' => readDigits 10 r1' ip 0
      | _ => (ip, 0, r1)
      end in
    if 0 <? nip + nfp then
      match readExponent r2 with
      | Some e => SFinite neg m (e - nfp)
      | None => SNaN
      end
    else SNaN.

(** [NonDecimalIntegerLiteral]: [0x], [0o] and [0b] prefixes, unsigned. *)
Definition readNonDecimal (cs : list ascii) : option StrNumber :=
  match cs with
  | "0"%char :: p :: ds =>
      let radix :=
        if (Ascii.eqb p "x" || Ascii.eqb p "X")%bool then Some 16
        else if (Ascii.eqb p "o" || Ascii.eqb p "O")%bool then Some 8
        else if (Ascii.eqb p "b" || Ascii.eqb p "B")%bool then Some 2
        else None in
      match radix with
      | Some r =>
          match readDigits r ds 0 0 with
          | (v, count, []) => Some (if 0 <? count then SFinite false v 0 else SNaN)
          | _ => Some SNaN
          end
      | None => None
      end
  | _ => None
  end.

Definition StringToNumber (s : string) : StrNumber :=
  match trim (list_ascii_of_string s) with
  | [] => SFinite false 0 0
  | cs =>
      match readNonDecimal cs with
      | Some r => r
      | None => let '(neg, ds) := readSign cs in readUnsignedDecimal neg ds
      end
  end.

Definition Qlt_bool (x y : Q) : bool := negb (Qle_bool y x).

(** Whether the non-negative rational [q] rounds (to nearest, ties to even)
    to the double whose value is the integer [a], for [0 <= a <= 2^53]. *)
Definition roundsTo (q : Q) (a : Z) : bool :=
  if a =? 0 then Qle_bool q (Qpower (2 # 1) (-1075))
  else
    let k := Z.log2 a in
    let ulp := Qpower (2 # 1) (k - 52) in
    let below := if a =? 2 ^ k then (ulp / (2 # 1))%Q else ulp in
    let lo := (inject_Z a - below / (2 # 1))%Q in
    let hi := (inject_Z a + ulp / (2 # 1))%Q in
    let even := Z.even (Z.shiftr (Z.shiftl a 52) k) in
    ((Qlt_bool lo q && Qlt_bool q hi) ||
     (even && (Qeq_bool q lo || Qeq_bool q hi)))%bool.

(** [n == ToNumber(s)] for a number [n] and a string [s]. *)
Definition number_eq_string (n : Z) (s : string) : bool :=
  match StringToNumber s with
  | SNaN | SInfinity _ => false
  | SFinite neg m e =>
      (roundsTo (inject_Z m * Qpower (10 # 1) e)%Q (Z.abs n) &&
       ((n =? 0) || Bool.eqb neg (n <? 0)))%bool
  end.

Definition ToNumber_bool (b : bool) : Z := if b then 1 else 0.

(** [x === y]; [NaN] is not equal to itself. *)
Definition strict_eq (x y : Value) : bool :=
  match x, y with
  | Undefined, Undefined | Null, Null => true
  | Bool a, Bool b => Bool.eqb a b
  | Number a, Number b => toZ a =? toZ b
  | String a, String b => String.eqb a b
  | _, _ => false
  end.

(** [x == y] (IsLooselyEqual): [null] and [undefined] equal each other and
    nothing else, [NaN] equals nothing, a boolean is compared as [ToNumber]
    of itself, a string against a number as its [StringToNumber]. *)
Definition loose_eq (x y : Value) : bool :=
  match x, y with
  | (Undefined | Null), (Undefined | Null) => true
  | (Undefined | Null), _ | _, (Undefined | Null) => false
  | NaN, _ | _, NaN => false
  | Bool a, Bool b => Bool.eqb a b
  | Number a, Number b => toZ a =? toZ b
  | String a, String b => String.eqb a b
  | Number a, String s | String s, Number a => number_eq_string (toZ a) s
  | Bool b, Number a | Number a, Bool b => toZ a =? ToNumber_bool b
  | Bool b, String s | String s, Bool b => number_eq_string (ToNumber_bool b) s
  end.

End Js.

(** ** Grid data shared by both managers *)

Record NavigationCoords : Type := { rowIndex : Z; colIndex : Z }.

(** A row is an object read through the column accessors. *)
Abbreviation Row := (gmap string Js.Value).

(** [row[accessor]]: reading a property the object lacks gives [undefined]. *)
Definition prop (row : Row) (accessor : string) : Js.Value :=
  default Js.Undefined (row !! accessor).

(** [rows[index]]: [undefined] (here [None]) outside [0 .. length - 1]. *)
Definition at_index {A : Type} (l : list A) (index : Z) : option A :=
  if index <? 0 then None else l !! Z.to_nat index.

(** A DOM element, known by an identifier. *)
Definition Element : Type := string.

(** Modelled from the spec: the column types, whose enum [ColumnCellType]
    ([columnGrid/types/header.type]) is not among the sources; the spec lists
    Text, Numeric, Calendar and Custom. *)
Inductive ColumnCellType : Type := Text | Numeric | Calendar | Custom.

Definition ColumnCellType_eqb (a b : ColumnCellType) : bool :=
  match a, b with
  | Text, Text | Numeric, Numeric | Calendar, Calendar | Custom, Custom => true
  | _, _ => false
  end.

(** [readOnly]: a boolean, or a predicate of the coordinate. *)
Inductive ReadOnly : Type :=
| ReadOnlyFlag (b : bool)
| ReadOnlyFn (f : NavigationCoords -> bool).

Inductive EditorComponent : Type := TextEditor | NumericEditor | CalendarEditor.

Module EditorProps.
(** The [stopEditing] callback handed to the editor is the manager's own
    operation and is not held as data. *)
Record t : Type := {
  anchorRef : Element;
  value : Js.Value;
  maxLength : Js.Value;
  validatorHook : option (Js.Value -> bool)
}.
End EditorProps.

(** The editor nodes: a built-in component the manager created with its
    props by [React.createElement], or the element a column's own editor
    factory returned, known by a name. *)
Inductive JsxNode : Type :=
| createElement (component : EditorComponent) (props : EditorProps.t)
| customElement (name : string).

Module Header.
Record t : Type := {
  id : string;
  accessor : string;
  type : ColumnCellType;
  readOnly : option ReadOnly;
  validatorHook : option (Js.Value -> bool);
  (** the factory is called with the row (and with the column itself and
      the manager's [onRefMount]); it returns an element of its own *)
  editor : option (Row -> string);
  maxLength : Js.Value
}.
End Header.

Module IEditorState.
Record t : Type := {
  node : JsxNode;
  rowIndex : Z;
  colIndex : Z;
  initialValue : Js.Value;
  targetElement : Element;
  validatorHook : option (Js.Value -> bool);
  isPopup : bool
}.
End IEditorState.

(** [{ rowIndex: editorState.rowIndex, colIndex: editorState.colIndex }] *)
Definition sessionCoords (s : IEditorState.t) : NavigationCoords :=
  {| rowIndex := IEditorState.rowIndex s; colIndex := IEditorState.colIndex s |}.

(** The handle an editor exposes once mounted, as the manager receives it:
    whatever truthy value reaches [onRefMount].  [getValue] is what a call
    of the handle's [getValue()] returns at the time it is read, when the
    handle has such a function; it is [None] for a handle whose [getValue]
    is missing or is not a function. *)
Record EditorRef : Type := { getValue : option Js.Value }.

Record CellChangeParams : Type := {
  coords : NavigationCoords;
  previousValue : Js.Value;
  newValue : Js.Value
}.

Record BeginEditingParams : Type := {
  begin_coords : NavigationCoords;
  begin_targetElement : Element;
  defaultKey : option string
}.

Inductive EventName : Type := CELL_BEGIN_EDITING | CELL_STOP_EDITING.

Inductive Warning : Type :=
| ColumnNotFound (colIndex : Z)
| RowNotFound (rowIndex : Z) (columnId : string)
| KeyPressedToNavigate
| EditorReferenceNotDefined
| GetValueInvalid.

(** An exception an operation lets through to its caller. *)
Inductive Exception : Type :=
| NotAFunction (callee : string).          (* [TypeError: callee is not a function] *)

(** What an operation does to the outside, in program order.  An operation
    that throws ends there: [Throw] is then the last of its effects. *)
Inductive Effect : Type :=
| CellChange (params : CellChangeParams)          (* [onCellChange(params)] *)
| DispatchEvent (name : EventName) (payload : NavigationCoords)
                                                  (* [apiRef.current.dispatchEvent] *)
| ConsoleWarn (w : Warning)
| ConsoleLog (key : string)
| KeyDown (key : string)                          (* [document.dispatchEvent(keydown)] *)
| Throw (e : Exception).

(** [onCellChange?.(params)]: nothing is called when the host gave no sink. *)
Definition callOnCellChange (supplied : bool) (params : CellChangeParams) : list Effect :=
  if supplied then [CellChange params] else [].

Fixpoint cellChanges (effects : list Effect) : list CellChangeParams :=
  match effects with
  | CellChange p :: rest => p :: cellChanges rest
  | _ :: rest => cellChanges rest
  | [] => []
  end.

Fixpoint dispatched (name : EventName) (effects : list Effect) : list NavigationCoords :=
  match effects with
  | DispatchEvent n c :: rest =>
      match name, n with
      | CELL_BEGIN_EDITING, CELL_BEGIN_EDITING
      | CELL_STOP_EDITING, CELL_STOP_EDITING => c :: dispatched name rest
      | _, _ => dispatched name rest
      end
  | _ :: rest => dispatched name rest
  | [] => []
  end.

Fixpoint keyDowns (effects : list Effect) : list string :=
  match effects with
  | KeyDown k :: rest => k :: keyDowns rest
  | _ :: rest => keyDowns rest
  | [] => []
  end.

(** The exceptions among the effects. *)
Fixpoint thrown (effects : list Effect) : list Exception :=
  match effects with
  | Throw e :: rest => e :: thrown rest
  | _ :: rest => thrown rest
  | [] => []
  end.

(** [column.readOnly ? (typeof column.readOnly === 'function'
      ? column.readOnly(coords) : column.readOnly) : false] *)
Definition isReadOnly (column : Header.t) (coords : NavigationCoords) : bool :=
  match Header.readOnly column with
  | Some (ReadOnlyFn f) => f coords
  | Some (ReadOnlyFlag b) => b
  | None => false
  end.

(** A default key counts when it is a non-empty string ([defaultKey ? .. : ..]). *)
Definition truthyKey (key : option string) : option string :=
  match key with
  | Some k => if String.eqb k "" then None else Some k
  | None => None
  end.

(** The value handed to the editor:
[[
   row[column.accessor]
     ? defaultKey ? row[column.accessor] + defaultKey : row[column.accessor]
     : defaultKey ? defaultKey : ''
]] *)
Definition bufferedValue (cell : Js.Value) (defaultKey : option string) : Js.Value :=
  if Js.ToBoolean cell then
    match truthyKey defaultKey with
    | Some k => Js.add_string cell k
    | None => cell
    end
  else
    match truthyKey defaultKey with
    | Some k => Js.String k
    | None => Js.String ""
    end.

(** [getEditor]: the column's own factory result is returned as it is; a
    built-in component is created with the props. *)
Definition getEditor (row : Row) (column : Header.t) (props : EditorProps.t) : JsxNode :=
  match Header.editor column with
  | Some factory => customElement (factory row)
  | None =>
      let EditorComponent :=
        match Header.type column with
        | Calendar => CalendarEditor
        | Numeric => NumericEditor
        | _ => TextEditor
        end in
      createElement EditorComponent props
  end.

(** [column.editor !== undefined] *)
Definition hasEditor (column : Header.t) : bool :=
  match Header.editor column with
  | Some _ => true
  | None => false
  end.

(** [state.current?.rowIndex === coords.rowIndex &&
     state.current?.colIndex === coords.colIndex] *)
Definition sameCoords (current : option IEditorState.t) (coords : NavigationCoords)
  : bool :=
  match current with
  | Some s => (IEditorState.rowIndex s =? rowIndex coords) &&
              (IEditorState.colIndex s =? colIndex coords)
  | None => false
  end.

(** The [maxLength] the manager instantiated the editor with: the prop of
    the element it created; it passes no props to a column's factory. *)
Definition instantiatedMaxLength (node : JsxNode) : option Js.Value :=
  match node with
  | createElement _ props => Some (EditorProps.maxLength props)
  | customElement _ => None
  end.

(** [validateEditorRef], the same in both hooks: warns about a handle that
    is missing, or whose [getValue] is missing or not a function
    ([isFunctionType], of [helpers/isFunction], is not among the sources and
    is taken to hold of the functions only). *)
Definition validateEditorRef (editorRef : option EditorRef) : bool * list Effect :=
  match editorRef with
  | None => (false, [ConsoleWarn EditorReferenceNotDefined])
  | Some r =>
      match getValue r with
      | None => (false, [ConsoleWarn GetValueInvalid])
      | Some _ => (true, [])
      end
  end.

(** [editorRef.current?.getValue()]: [undefined] without a handle, the
    result of the call with one; calling what is not a function throws, and
    the result is then [None]. *)
Definition callGetValue (current : option EditorRef) : option Js.Value :=
  match current with
  | None => Some Js.Undefined
  | Some r => getValue r
  end.

(** The exception of [editorRef.current?.getValue()] on a handle without
    the function. *)
Definition getValueIsNotAFunction : Exception :=
  NotAFunction "editorRef.current.getValue".

(** [save?: boolean] *)
Definition wantsSave (save : option (option bool)) : bool :=
  match save with
  | None => true                      (* [params === undefined] *)
  | Some (Some b) => b                (* [params.save] *)
  | Some None => false                (* [params.save] is [undefined] *)
  end.

(** ** The API-driven manager ([gridWrapper/gridWrapperProps.ts])

    [state] and [editorRef] are the hook's refs, [editorNode] its React
    state; [setEditorNode] is taken to act at once. *)
Module ApiManager.

Record StopEditingParams : Type := { save : option bool }.

Record EditorManagerProps : Type := {
  getRows : list Row;                      (* [apiRef.current.getRows()] *)
  getColumnAt : Z -> option Header.t;
  onCellChange : bool                      (* whether the host gave the sink *)
}.

Record Manager : Type := {
  editorRef : option EditorRef;
  state : option IEditorState.t;
  editorNode : option JsxNode
}.

(** No session: both refs and the node are [null]. *)
Definition idle : Manager :=
  {| editorRef := None; state := None; editorNode := None |}.

Definition stopNotification (editorState : IEditorState.t) : Effect :=
  DispatchEvent CELL_STOP_EDITING (sessionCoords editorState).

(** [stopEditing].  When it is to save, it first calls the handle's
    [getValue]; on a handle without that function the call throws, before
    anything is cleared or dispatched. *)
Definition stopEditing (props : EditorManagerProps)
    (params : option StopEditingParams) (m : Manager) : Manager * list Effect :=
  match state m with
  | None => (m, [])
  | Some editorState =>
      if wantsSave (save <$> params) then
        match callGetValue (editorRef m) with
        | None => (m, [Throw getValueIsNotAFunction])
        | Some value =>
            (* [editorRef.current?.getValue() ?? undefined] *)
            let newValue := Js.nullish value Js.Undefined in
            if Js.strict_eq newValue Js.Undefined then
              (idle, [stopNotification editorState])
            else
              (* [editorState.validatorHook?.(newValue) ?? true] *)
              let isValid :=
                from_option (fun hook => hook newValue) true
                            (IEditorState.validatorHook editorState) in
              if negb isValid then
                (idle, [stopNotification editorState])
              else
                let change :=
                  if negb (Js.loose_eq newValue (IEditorState.initialValue editorState))
                  then callOnCellChange (onCellChange props)
                         {| coords := sessionCoords editorState;
                            previousValue := IEditorState.initialValue editorState;
                            newValue := newValue |}
                  else [] in
                (idle, change ++ [stopNotification editorState])
        end
      else
        (idle, [stopNotification editorState])
  end.

(** Invoked when the editor mounts: a missing ref is ignored; any other is
    validated, which at most warns, and is stored whatever the validation
    said. *)
Definition onRefMount (ref : option EditorRef) (m : Manager) : Manager * list Effect :=
  match ref with
  | None => (m, [])
  | Some r =>
      let '(_, warnings) := validateEditorRef (Some r) in
      ({| editorRef := Some r; state := state m; editorNode := editorNode m |},
       warnings)
  end.

Section BeginEditing.
(** The identifier of the row-selection pseudo-column, imported from
    [rowSelection/useRowSelection], which is not among the sources. *)
Variable ROW_SELECTION_HEADER_ID : string.

Definition beginEditing (props : EditorManagerProps)
    (params : BeginEditingParams) (m : Manager) : Manager * list Effect :=
  let coords := begin_coords params in
  let targetElement := begin_targetElement params in
  if sameCoords (state m) coords then (m, [])
  else
    match getColumnAt props (colIndex coords) with
    | None => (m, [ConsoleWarn (ColumnNotFound (colIndex coords))])
    | Some column =>
        if String.eqb (Header.id column) ROW_SELECTION_HEADER_ID then (m, [])
        else if isReadOnly column coords then (m, [])
        else
          match at_index (getRows props) (rowIndex coords) with
          | None =>
              (m, [ConsoleWarn (RowNotFound (rowIndex coords) (Header.id column))])
          | Some row =>
              let value := bufferedValue (prop row (Header.accessor column))
                                         (defaultKey params) in
              let initialValue :=
                Js.nullish (prop row (Header.accessor column)) (Js.String "") in
              let editorProps :=
                {| EditorProps.anchorRef := targetElement;
                   EditorProps.value := value;
                   EditorProps.maxLength :=
                     Js.nullish (Header.maxLength column) (Js.int 500);
                   EditorProps.validatorHook := Header.validatorHook column |} in
              let editor := getEditor row column editorProps in
              ({| editorRef := editorRef m;
                  state := Some
                    {| IEditorState.node := editor;
                       IEditorState.rowIndex := rowIndex coords;
                       IEditorState.colIndex := colIndex coords;
                       IEditorState.initialValue := initialValue;
                       IEditorState.targetElement := targetElement;
                       IEditorState.validatorHook := Header.validatorHook column;
                       IEditorState.isPopup :=
                         hasEditor column ||
                         ColumnCellType_eqb (Header.type column) Calendar |};
                  editorNode := Some editor |},
               [DispatchEvent CELL_BEGIN_EDITING coords])
          end
    end.

(** The call passes every guard of [beginEditing]: another coordinate than
    the session's, an editable column, a row. *)
Definition accepted (props : EditorManagerProps) (params : BeginEditingParams)
    (m : Manager) (column : Header.t) (row : Row) : Prop :=
  sameCoords (state m) (begin_coords params) = false /\
  getColumnAt props (colIndex (begin_coords params)) = Some column /\
  String.eqb (Header.id column) ROW_SELECTION_HEADER_ID = false /\
  isReadOnly column (begin_coords params) = false /\
  at_index (getRows props) (rowIndex (begin_coords params)) = Some row.
End BeginEditing.

(** A session is active: [state.current] holds it and its node is the
    editor node. *)
Definition active (m : Manager) (s : IEditorState.t) : Prop :=
  state m = Some s /\ editorNode m = Some (IEditorState.node s).

(** The node is there exactly while a session is. *)
Definition consistent (m : Manager) : Prop :=
  match state m with
  | Some s => editorNode m = Some (IEditorState.node s)
  | None => editorNode m = None
  end.

(** The body of the reconciler effect, which re-resolves the session's row
    and column; [reconcile] is one run of it.  When React runs it is told by
    [rerender] below. *)
Definition reconcile (props : EditorManagerProps) (m : Manager)
  : Manager * list Effect :=
  match editorNode m, state m with
  | Some _, Some editorState =>
      match at_index (getRows props) (IEditorState.rowIndex editorState),
            getColumnAt props (IEditorState.colIndex editorState) with
      | Some target, Some column =>
          if Js.strict_eq (prop target (Header.accessor column)) Js.Undefined
          then stopEditing props (Some {| save := Some false |}) m
          else (m, [])
      | _, _ => stopEditing props (Some {| save := Some false |}) m
      end
  | _, _ => (m, [])
  end.

(** [getEditorState] *)
Definition getEditorState (m : Manager) : option IEditorState.t := state m.

(** A render of the hook: the props it is called with (the rows being those
    the API serves at the time) and, for the props among the dependencies of
    the reconciler effect, a key that names the object passed: two renders
    are given the same [apiRef], or the same [getColumnAt] function, exactly
    when the keys agree. *)
Record Render : Type := {
  rendered : EditorManagerProps;
  apiRefKey : nat;
  getColumnAtKey : nat
}.

(** Whether the dependencies of the reconciler effect,
    [[apiRef, getColumnAt, editorNode]], changed from one render to the
    next, when no call reached the manager in between: [editorNode] is then
    the same element.  The rows are not among the dependencies. *)
Definition reconcilerDependenciesChanged (previous next : Render) : bool :=
  negb (Nat.eqb (apiRefKey previous) (apiRefKey next)) ||
  negb (Nat.eqb (getColumnAtKey previous) (getColumnAtKey next)).

(** The hook is rendered again, no call having reached the manager since
    the render before: React runs the reconciler effect when one of its
    dependencies is another object than before. *)
Definition rerender (previous next : Render) (m : Manager) : Manager * list Effect :=
  if reconcilerDependenciesChanged previous next
  then reconcile (rendered next) m
  else (m, []).

End ApiManager.

(** ** The props-driven manager ([editorManager/useEditorManager.tsx])

    Besides the refs and the editor node, the hook holds the React state
    [scheduleMove] and the timeout its effect installs.  [scheduleEffectKey]
    is the [scheduleMove] the effect last ran with (its dependency),
    [timer] the key the pending timeout's callback will dispatch. *)
Module PropsManager.

(** [keyPress] is a [NavigationKey]; the enum is not among the sources, and a
    key is held as the string that becomes the [key] of the keyboard event. *)
Record StopEditingParams : Type := {
  save : option bool;
  keyPress : option string
}.

Record EditorManagerProps : Type := {
  rows : list Row;
  getColumnAt : Z -> option Header.t;
  onCellChange : bool
}.

Record Manager : Type := {
  editorRef : option EditorRef;
  state : option IEditorState.t;
  editorNode : option JsxNode;
  scheduleMove : option string;
  scheduleEffectKey : option string;
  timer : option string;
  mounted : bool
}.

(** The hook when it mounts. *)
Definition initial : Manager :=
  {| editorRef := None; state := None; editorNode := None;
     scheduleMove := None; scheduleEffectKey := None; timer := None;
     mounted := true |}.

(** [editorRef.current = null; state.current = null; setEditorNode(null)] *)
Definition clearSession (m : Manager) : Manager :=
  {| editorRef := None; state := None; editorNode := None;
     scheduleMove := scheduleMove m; scheduleEffectKey := scheduleEffectKey m;
     timer := timer m; mounted := mounted m |}.

Definition setScheduleMove (v : option string) (m : Manager) : Manager :=
  {| editorRef := editorRef m; state := state m; editorNode := editorNode m;
     scheduleMove := v; scheduleEffectKey := scheduleEffectKey m;
     timer := timer m; mounted := mounted m |}.

(** [stopEditing]; the call of [getValue] throws as in the API-driven
    hook. *)
Definition stopEditing (props : EditorManagerProps)
    (params : option StopEditingParams) (m : Manager) : Manager * list Effect :=
  match state m with
  | None => (m, [])
  | Some editorState =>
      (* the tail of the function, after the save block *)
      let finish (change : list Effect) :=
        match truthyKey (params ≫= keyPress) with
        | Some key =>
            (setScheduleMove (Some key) (clearSession m),
             change ++ [ConsoleWarn KeyPressedToNavigate; ConsoleLog key])
        | None => (clearSession m, change)
        end in
      if wantsSave (save <$> params) then
        match callGetValue (editorRef m) with
        | None => (m, [Throw getValueIsNotAFunction])
        | Some value =>
            (* [editorRef.current?.getValue() ?? undefined] *)
            let newValue := Js.nullish value Js.Undefined in
            if Js.strict_eq newValue Js.Undefined then (clearSession m, [])
            else
              let isValid :=
                from_option (fun hook => hook newValue) true
                            (IEditorState.validatorHook editorState) in
              if negb isValid then (clearSession m, [])
              else
                finish
                  (if negb (Js.loose_eq newValue (IEditorState.initialValue editorState))
                   then callOnCellChange (onCellChange props)
                          {| coords := sessionCoords editorState;
                             previousValue := IEditorState.initialValue editorState;
                             newValue := newValue |}
                   else [])
        end
      else finish []
  end.

(** Invoked when the editor mounts, as in the API-driven hook. *)
Definition onRefMount (ref : option EditorRef) (m : Manager) : Manager * list Effect :=
  match ref with
  | None => (m, [])
  | Some r =>
      let '(_, warnings) := validateEditorRef (Some r) in
      ({| editorRef := Some r; state := state m; editorNode := editorNode m;
          scheduleMove := scheduleMove m; scheduleEffectKey := scheduleEffectKey m;
          timer := timer m; mounted := mounted m |},
       warnings)
  end.

Section BeginEditing.
Variable ROW_SELECTION_HEADER_ID : string.

Definition beginEditing (props : EditorManagerProps)
    (params : BeginEditingParams) (m : Manager) : Manager * list Effect :=
  let coords := begin_coords params in
  let targetElement := begin_targetElement params in
  if sameCoords (state m) coords then (m, [])
  else
    match getColumnAt props (colIndex coords) with
    | None => (m, [ConsoleWarn (ColumnNotFound (colIndex coords))])
    | Some column =>
        if String.eqb (Header.id column) ROW_SELECTION_HEADER_ID then (m, [])
        else if isReadOnly column coords then (m, [])
        else
          match at_index (rows props) (rowIndex coords) with
          | None =>
              (m, [ConsoleWarn (RowNotFound (rowIndex coords) (Header.id column))])
          | Some row =>
              let value := bufferedValue (prop row (Header.accessor column))
                                         (defaultKey params) in
              let editorProps :=
                {| EditorProps.anchorRef := targetElement;
                   EditorProps.value := value;
                   EditorProps.maxLength :=
                     Js.nullish (Header.maxLength column) (Js.int 500);
                   EditorProps.validatorHook := Header.validatorHook column |} in
              let editor := getEditor row column editorProps in
              ({| editorRef := editorRef m;
                  state := Some
                    {| IEditorState.node := editor;
                       IEditorState.rowIndex := rowIndex coords;
                       IEditorState.colIndex := colIndex coords;
                       IEditorState.initialValue := value;
                       IEditorState.targetElement := targetElement;
                       IEditorState.validatorHook := Header.validatorHook column;
                       IEditorState.isPopup :=
                         hasEditor column ||
                         ColumnCellType_eqb (Header.type column) Calendar |};
                  editorNode := Some editor;
                  scheduleMove := scheduleMove m;
                  scheduleEffectKey := scheduleEffectKey m;
                  timer := timer m; mounted := mounted m |},
               [])
          end
    end.
End BeginEditing.

(** The body of the reconciler effect, the effect on [rows], [getColumnAt]
    and [editorNode]; [reconcile] is one run of it. *)
Definition reconcile (props : EditorManagerProps) (m : Manager)
  : Manager * list Effect :=
  match editorNode m, state m with
  | Some _, Some editorState =>
      match at_index (rows props) (IEditorState.rowIndex editorState),
            getColumnAt props (IEditorState.colIndex editorState) with
      | Some target, Some column =>
          if Js.strict_eq (prop target (Header.accessor column)) Js.Undefined
          then stopEditing props (Some {| save := Some false; keyPress := None |}) m
          else (m, [])
      | _, _ => stopEditing props (Some {| save := Some false; keyPress := None |}) m
      end
  | _, _ => (m, [])
  end.

(** A render of the hook: the props it is called with and, for the props
    among the dependencies of the reconciler effect, a key that names the
    object passed: two renders are given the same [rows] array, or the same
    [getColumnAt] function, exactly when the keys agree. *)
Record Render : Type := {
  rendered : EditorManagerProps;
  rowsKey : nat;
  getColumnAtKey : nat
}.

(** Whether the dependencies of the reconciler effect,
    [[rows, getColumnAt, editorNode]], changed from one render to the next,
    when no call reached the manager in between: [editorNode] is then the
    same element. *)
Definition reconcilerDependenciesChanged (previous next : Render) : bool :=
  negb (Nat.eqb (rowsKey previous) (rowsKey next)) ||
  negb (Nat.eqb (getColumnAtKey previous) (getColumnAtKey next)).

(** The hook is rendered again, no call having reached the manager since
    the render before: React runs the reconciler effect when one of its
    dependencies is another object than before. *)
Definition rerender (previous next : Render) (m : Manager) : Manager * list Effect :=
  if reconcilerDependenciesChanged previous next
  then reconcile (rendered next) m
  else (m, []).

(** The effect on [scheduleMove], as React runs it after a render in which
    the dependency changed: the cleanup of the previous run clears its
    timeout, then the body installs a timeout unless [scheduleMove] is
    falsy. *)
Definition scheduleEffect (m : Manager) : Manager :=
  if negb (mounted m) then m
  else if decide (scheduleMove m = scheduleEffectKey m) then m
  else
    {| editorRef := editorRef m; state := state m; editorNode := editorNode m;
       scheduleMove := scheduleMove m;
       scheduleEffectKey := scheduleMove m;
       timer := truthyKey (scheduleMove m);
       mounted := mounted m |}.

(** The timeout's callback: dispatches the key press, then
    [setScheduleMove(null)].  Nothing runs when no timeout is pending. *)
Definition timerFires (m : Manager) : Manager * list Effect :=
  match timer m with
  | Some key =>
      ({| editorRef := editorRef m; state := state m; editorNode := editorNode m;
          scheduleMove := None; scheduleEffectKey := scheduleEffectKey m;
          timer := None; mounted := mounted m |},
       [KeyDown key])
  | None => (m, [])
  end.

(** Teardown: the cleanup of the last effect run clears its timeout. *)
Definition unmount (m : Manager) : Manager :=
  {| editorRef := editorRef m; state := state m; editorNode := editorNode m;
     scheduleMove := scheduleMove m; scheduleEffectKey := scheduleEffectKey m;
     timer := None; mounted := false |}.

(** What can happen to a mounted hook, one event-loop task at a time. *)
Inductive Action : Type :=
| CallBeginEditing (props : EditorManagerProps) (params : BeginEditingParams)
| CallStopEditing (props : EditorManagerProps) (params : option StopEditingParams)
| RefMount (ref : option EditorRef)
| Reconcile (props : EditorManagerProps)
| ScheduleEffect
| TimerFires
| Unmount.

Section Run.
Variable ROW_SELECTION_HEADER_ID : string.

Definition step (a : Action) (m : Manager) : Manager * list Effect :=
  match a with
  | CallBeginEditing props params => beginEditing ROW_SELECTION_HEADER_ID props params m
  | CallStopEditing props params => stopEditing props params m
  | RefMount ref => onRefMount ref m
  | Reconcile props => reconcile props m
  | ScheduleEffect => (scheduleEffect m, [])
  | TimerFires => timerFires m
  | Unmount => (unmount m, [])
  end.

(** Runs the actions in order; the effects are concatenated in order.  A
    call that throws has left the hook as it was when it threw; the run
    goes on with the next action. *)
Fixpoint run (actions : list Action) (m : Manager) : Manager * list Effect :=
  match actions with
  | [] => (m, [])
  | a :: rest =>
      let '(m1, e1) := step a m in
      let '(m2, e2) := run rest m1 in
      (m2, e1 ++ e2)
  end.

(** Among [actions], run from [m0], there is a [stopEditing] call carrying
    the key press [key] that returned with the session closed. *)
Definition scheduledBy (m0 : Manager) (actions : list Action) (key : string)
  : Prop :=
  exists before props params after,
    actions = before ++ CallStopEditing props params :: after /\
    truthyKey (params ≫= keyPress) = Some key /\
    let returned := fst (run (before ++ [CallStopEditing props params]) m0) in
    state returned = None /\ editorRef returned = None /\
    editorNode returned = None /\
    snd (run (actions ++ [TimerFires]) m0) =
      snd (run (before ++ [CallStopEditing props params]) m0) ++
      snd (run (after ++ [TimerFires]) returned).
End Run.

End PropsManager.

(** ** The two managers, one seen as the other *)

(** The part of the props-driven hook that the API-driven one also has. *)
Definition refsOf (m : PropsManager.Manager) : ApiManager.Manager :=
  {| ApiManager.editorRef := PropsManager.editorRef m;
     ApiManager.state := PropsManager.state m;
     ApiManager.editorNode := PropsManager.editorNode m |}.

(** The props of the props-driven hook, with its rows served by the API. *)
Definition servedBy (props : PropsManager.EditorManagerProps)
  : ApiManager.EditorManagerProps :=
  {| ApiManager.getRows := PropsManager.rows props;
     ApiManager.getColumnAt := PropsManager.getColumnAt props;
     ApiManager.onCellChange := PropsManager.onCellChange props |}.

Definition saveOnly (params : PropsManager.StopEditingParams)
  : ApiManager.StopEditingParams :=
  {| ApiManager.save := PropsManager.save params |}.

(** ** Keyboard helper *)

(** Whether an index is out of the given limits. *)
Definition isIndexOutOfBoundaries (index min max : Z) : bool :=
  (index <? min) || (index >? max).

(** ** Navigation state

    The navigation hook is not among the sources; only the bounds test it
    uses is. *)
Module Navigation.

(** Modelled from the spec: the bounds [moveTo] and [moveBy] are given
    (section 4.2); rows run from 0 to [maxRow], columns from 0 to [maxCol]. *)
Record Bounds : Type := { maxRow : Z; maxCol : Z }.

#[global] Instance NavigationCoords_eq_dec : EqDecision NavigationCoords.
Proof. solve_decision. Defined.

#[global] Instance NavigationCoords_countable : Countable NavigationCoords :=
  inj_countable' (fun c => (rowIndex c, colIndex c))
                 (fun p => {| rowIndex := p.1; colIndex := p.2 |})
                 (fun c => match c with Build_NavigationCoords _ _ => eq_refl end).

(** Modelled from the spec: a merge region, an anchor and the set of
    coordinates it spans (section 3). *)
Record MergeRegion : Type := {
  anchor : NavigationCoords;
  spanning : gset NavigationCoords
}.

(** Modelled from the spec: [resolveAnchor] (section 4.1) returns the
    coordinate unchanged when no region holds it, the region's anchor
    otherwise. *)
Definition resolveAnchor (regions : list MergeRegion) (coord : NavigationCoords)
  : NavigationCoords :=
  match List.find (fun r => bool_decide (coord ∈ spanning r)) regions with
  | Some r => anchor r
  | None => coord
  end.

(** The target lies outside [[0, maxRow] x [0, maxCol]]. *)
Definition outside (bounds : Bounds) (target : NavigationCoords) : bool :=
  isIndexOutOfBoundaries (rowIndex target) 0 (maxRow bounds) ||
  isIndexOutOfBoundaries (colIndex target) 0 (maxCol bounds).

(** Modelled from the spec: [moveTo] (section 4.2) rejects a target outside
    the bounds, leaving the state unchanged, and otherwise sets the state to
    the anchor the target resolves to. *)
Definition moveTo (regions : list MergeRegion) (target : NavigationCoords)
    (bounds : Bounds) (current : NavigationCoords) : NavigationCoords :=
  if outside bounds target then current else resolveAnchor regions target.

(** Modelled from the spec: [moveBy] (section 4.2) computes
    [target = current + delta], then behaves as [moveTo]. *)
Definition moveBy (regions : list MergeRegion) (delta : NavigationCoords)
    (bounds : Bounds) (current : NavigationCoords) : NavigationCoords :=
  moveTo regions
         {| rowIndex := rowIndex current + rowIndex delta;
            colIndex := colIndex current + colIndex delta |}
         bounds current.

Inductive Command : Type :=
| MoveTo (target : NavigationCoords)
| MoveBy (delta : NavigationCoords).

Definition execute (regions : list MergeRegion) (bounds : Bounds)
    (current : NavigationCoords) (c : Command) : NavigationCoords :=
  match c with
  | MoveTo target => moveTo regions target bounds current
  | MoveBy delta => moveBy regions delta bounds current
  end.

Definition executeAll (regions : list MergeRegion) (bounds : Bounds)
    (commands : list Command) (start : NavigationCoords) : NavigationCoords :=
  fold_left (execute regions bounds) commands start.

Definition inside (bounds : Bounds) (c : NavigationCoords) : Prop :=
  0 <= rowIndex c <= maxRow bounds /\ 0 <= colIndex c <= maxCol bounds.

End Navigation.

(** ** The keyboard helpers (the unit of [isIndexOutOfBoundaries]) *)
Module Keyboard.

Module KEY_CODES.
Definition MOUSE_LEFT : Z := 1.
Definition MOUSE_RIGHT : Z := 3.
Definition MOUSE_MIDDLE : Z := 2.
Definition BACKSPACE : Z := 8.
Definition COMMA : Z := 188.
Definition INSERT : Z := 45.
Definition DELETE : Z := 46.
Definition END : Z := 35.
Definition ENTER : Z := 13.
Definition ESCAPE : Z := 27.
Definition CONTROL : Z := 17.
Definition COMMAND_LEFT : Z := 91.
Definition COMMAND_RIGHT : Z := 93.
Definition COMMAND_FIREFOX : Z := 224.
Definition ALT : Z := 18.
Definition HOME : Z := 36.
Definition PAGE_DOWN : Z := 34.
Definition PAGE_UP : Z := 33.
Definition PERIOD : Z := 190.
Definition SPACE : Z := 32.
Definition SHIFT : Z := 16.
Definition CAPS_LOCK : Z := 20.
Definition TAB : Z := 9.
Definition ARROW_RIGHT : Z := 39.
Definition ARROW_LEFT : Z := 37.
Definition ARROW_UP : Z := 38.
Definition ARROW_DOWN : Z := 40.
Definition F1 : Z := 112.
Definition F2 : Z := 113.
Definition F3 : Z := 114.
Definition F4 : Z := 115.
Definition F5 : Z := 116.
Definition F6 : Z := 117.
Definition F7 : Z := 118.
Definition F8 : Z := 119.
Definition F9 : Z := 120.
Definition F10 : Z := 121.
Definition F11 : Z := 122.
Definition F12 : Z := 123.
Definition A : Z := 65.
Definition C : Z := 67.
Definition D : Z := 68.
Definition F : Z := 70.
Definition L : Z := 76.
Definition O : Z := 79.
Definition P : Z := 80.
Definition S : Z := 83.
Definition V : Z := 86.
Definition X : Z := 88.
End KEY_CODES.

(** [array.indexOf(x)] on an array of numbers: the first index holding [x],
    or [-1]. *)
Fixpoint indexOfFrom (array : list Z) (x : Z) (from : Z) : Z :=
  match array with
  | [] => -1
  | y :: rest => if y =? x then from else indexOfFrom rest x (from + 1)
  end.

Definition indexOf (array : list Z) (x : Z) : Z := indexOfFrom array x 0.

(** [array.includes(x)] on an array of numbers. *)
Definition includes (array : list Z) (x : Z) : bool := existsb (Z.eqb x) array.

(** [string.includes(searchString)] *)
Definition stringIncludes (s searchString : string) : bool :=
  match String.index 0 searchString s with
  | Some _ => true
  | None => false
  end.

(** Whether a key code is that of a printable character. *)
Definition isPrintableChar (keyCode : Z) : bool :=
  (keyCode =? 32) ||
  ((keyCode >=? 48) && (keyCode <=? 57)) ||
  ((keyCode >=? 96) && (keyCode <=? 111)) ||
  ((keyCode >=? 186) && (keyCode <=? 192)) ||
  ((keyCode >=? 219) && (keyCode <=? 222)) ||
  (keyCode >=? 226) ||
  ((keyCode >=? 65) && (keyCode <=? 90)).

(** The [navigator] global, when it is defined. *)
Record Navigator : Type := { platform : string }.

(** Whether a key code is the ctrl key of the platform (cmd on the Mac).
    [navigator && ...]: a [navigator] that is declared but undefined takes
    the other branch; one that is not declared at all is outside this
    model. *)
Definition isCtrlKey (navigator : option Navigator) (keyCode : Z) : bool :=
  let keys :=
    if from_option (fun n => stringIncludes (platform n) "Mac") false navigator
    then [KEY_CODES.COMMAND_LEFT; KEY_CODES.COMMAND_RIGHT; KEY_CODES.COMMAND_FIREFOX]
    else [KEY_CODES.CONTROL] in
  includes keys keyCode.

(** Whether a key code is a ctrl or cmd key, whatever the platform. *)
Definition isCtrlMetaKey (keyCode : Z) : bool :=
  includes [ KEY_CODES.CONTROL; KEY_CODES.COMMAND_LEFT; KEY_CODES.COMMAND_RIGHT;
             KEY_CODES.COMMAND_FIREFOX ] keyCode.

Definition metaKeys : list Z :=
  [ KEY_CODES.ARROW_DOWN; KEY_CODES.ARROW_UP; KEY_CODES.ARROW_LEFT;
    KEY_CODES.ARROW_RIGHT; KEY_CODES.HOME; KEY_CODES.END; KEY_CODES.DELETE;
    KEY_CODES.BACKSPACE; KEY_CODES.F1; KEY_CODES.F2; KEY_CODES.F3; KEY_CODES.F4;
    KEY_CODES.F5; KEY_CODES.F6; KEY_CODES.F7; KEY_CODES.F8; KEY_CODES.F9;
    KEY_CODES.F10; KEY_CODES.F11; KEY_CODES.F12; KEY_CODES.TAB;
    KEY_CODES.PAGE_DOWN; KEY_CODES.PAGE_UP; KEY_CODES.ENTER; KEY_CODES.ESCAPE;
    KEY_CODES.SHIFT; KEY_CODES.CAPS_LOCK; KEY_CODES.ALT ].

(** [metaKeys.indexOf(keyCode) !== -1] *)
Definition isMetaKey (keyCode : Z) : bool :=
  negb (indexOf metaKeys keyCode =? -1).

End Keyboard.

(** ** The grid wrapper ([gridWrapper/gridWrapperProps.ts], second unit)

    The parts of [GridWrapper] that decide on coordinates: the active row
    path and the check of the editing cell against the rendered section. *)
Module GridWrapper.

(** [SectionRenderedParams] of the virtualized grid: the rendered rows and
    columns, bounds included. *)
Record SectionRenderedParams : Type := {
  rowStartIndex : Z;
  rowStopIndex : Z;
  columnStartIndex : Z;
  columnStopIndex : Z
}.

(** [onSectionRendered]: an editor whose cell left the rendered section is
    closed without saving.  [apiRef.current.getEditorState] and
    [apiRef.current.stopEditing] are the manager's, which registers them on
    the API. *)
Definition onSectionRendered (props : ApiManager.EditorManagerProps)
    (params : SectionRenderedParams) (m : ApiManager.Manager)
  : ApiManager.Manager * list Effect :=
  match ApiManager.getEditorState m with
  | Some editorState =>
      if (IEditorState.rowIndex editorState <? rowStartIndex params) ||
         (IEditorState.rowIndex editorState >? rowStopIndex params)
      then ApiManager.stopEditing props (Some {| ApiManager.save := Some false |}) m
      else if (IEditorState.colIndex editorState <? columnStartIndex params) ||
              (IEditorState.colIndex editorState >? columnStopIndex params)
      then ApiManager.stopEditing props (Some {| ApiManager.save := Some false |}) m
      else (m, [])
  | None => (m, [])
  end.

(** [logger.warn(`Parent not found for coordinates: ${e}`)] *)
Inductive LoggerWarn : Type := ParentNotFound (e : NavigationCoords).

(** [columns.map((_, colIndex) => ({ rowIndex, colIndex }))] *)
Definition temporaryRowCoordinates {A : Type} (columns : list A) (rowIndex : Z)
  : list NavigationCoords :=
  imap (fun colIndex _ =>
          {| rowIndex := rowIndex; colIndex := Z.of_nat colIndex |}) columns.

(** The [forEach] of [activeRowPathCoordinates]: a merged cell gives its
    parent, or a warning when it has none; any other cell gives itself.
    [isMerged] is an optional prop, [getMergeParentCoords] comes from the
    API and returns [undefined] when it finds no parent. *)
Fixpoint pushRowPath (isMerged : option (NavigationCoords -> bool))
    (getMergeParentCoords : NavigationCoords -> option NavigationCoords)
    (temporary : list NavigationCoords)
  : list NavigationCoords * list LoggerWarn :=
  match temporary with
  | [] => ([], [])
  | e :: rest =>
      let '(coordinates, warnings) :=
        pushRowPath isMerged getMergeParentCoords rest in
      if from_option (fun merged => merged e) false isMerged then
        match getMergeParentCoords e with
        | None => (coordinates, ParentNotFound e :: warnings)
        | Some parent => (parent :: coordinates, warnings)
        end
      else (e :: coordinates, warnings)
  end.

Definition activeRowPathCoordinates {A : Type} (columns : list A)
    (coords : NavigationCoords)
    (isMerged : option (NavigationCoords -> bool))
    (getMergeParentCoords : NavigationCoords -> option NavigationCoords)
  : list NavigationCoords * list LoggerWarn :=
  pushRowPath isMerged getMergeParentCoords
    (temporaryRowCoordinates columns (rowIndex coords)).

(** [activeRowPathCoordinates.some(e => e.rowIndex === rowIndex &&
      e.colIndex === colIndex)] *)
Definition isCellRowActive (activeRowPath : list NavigationCoords)
    (cell : NavigationCoords) : bool :=
  existsb (fun e => (rowIndex e =? rowIndex cell) && (colIndex e =? colIndex cell))
          activeRowPath.

End GridWrapper.

(** ** Runs of the API-driven manager

    What can reach the manager through the grid API and the rendering, one
    call at a time, and the effects of a sequence of calls.  [Reconcile] is
    a run of the reconciler effect, as after a render that followed a call
    of [setEditorNode].  A call that throws has left the refs and the state
    as they were when it threw; the run goes on with the next call. *)
Module ApiTrace.

Inductive Action : Type :=
| CallBeginEditing (props : ApiManager.EditorManagerProps) (params : BeginEditingParams)
| CallStopEditing (props : ApiManager.EditorManagerProps)
                  (params : option ApiManager.StopEditingParams)
| RefMount (ref : option EditorRef)
| Reconcile (props : ApiManager.EditorManagerProps)
| SectionRendered (props : ApiManager.EditorManagerProps)
                  (params : GridWrapper.SectionRenderedParams).

Section Run.
Variable ROW_SELECTION_HEADER_ID : string.

Definition step (a : Action) (m : ApiManager.Manager)
  : ApiManager.Manager * list Effect :=
  match a with
  | CallBeginEditing props params =>
      ApiManager.beginEditing ROW_SELECTION_HEADER_ID props params m
  | CallStopEditing props params => ApiManager.stopEditing props params m
  | RefMount ref => ApiManager.onRefMount ref m
  | Reconcile props => ApiManager.reconcile props m
  | SectionRendered props params => GridWrapper.onSectionRendered props params m
  end.

Fixpoint run (actions : list Action) (m : ApiManager.Manager)
  : ApiManager.Manager * list Effect :=
  match actions with
  | [] => (m, [])
  | a :: rest =>
      let '(m1, e1) := step a m in
      let '(m2, e2) := run rest m1 in
      (m2, e1 ++ e2)
  end.
End Run.

(** The coordinate of the latest begin notification among the effects, or
    [latest] when they hold none. *)
Definition latestBegin (latest : option NavigationCoords) (effects : list Effect)
  : option NavigationCoords :=
  match last (dispatched CELL_BEGIN_EDITING effects) with
  | Some c => Some c
  | None => latest
  end.

(** Every stop notification and every cell change carries the coordinate of
    the begin notification that precedes it most closely ([latest] before
    any). *)
Fixpoint wellPaired (latest : option NavigationCoords) (effects : list Effect)
  : Prop :=
  match effects with
  | [] => True
  | DispatchEvent CELL_BEGIN_EDITING c :: rest => wellPaired (Some c) rest
  | DispatchEvent CELL_STOP_EDITING c :: rest =>
      latest = Some c /\ wellPaired latest rest
  | CellChange p :: rest => latest = Some (coords p) /\ wellPaired latest rest
  | _ :: rest => wellPaired latest rest
  end.

End ApiTrace.

(** The [stopEditing] calls of a run of the props-driven hook that carry a
    key press. *)
Fixpoint callsWithKeyPress (actions : list PropsManager.Action) : nat :=
  match actions with
  | PropsManager.CallStopEditing _ params :: rest =>
      match truthyKey (params ≫= PropsManager.keyPress) with
      | Some _ => S (callsWithKeyPress rest)
      | None => callsWithKeyPress rest
      end
  | _ :: rest => callsWithKeyPress rest
  | [] => O
  end.

(** Whether a key press is on its way: scheduled, or behind a timeout. *)
Definition keyPressPending (m : PropsManager.Manager) : nat :=
  match PropsManager.timer m, truthyKey (PropsManager.scheduleMove m) with
  | None, None => O
  | _, _ => S O
  end.

(** ** A small grid used to run the operations

    Five rows and three columns: a text column, a numeric column and a
    read-only calendar column.  A second column set has a column with its
    own editor. *)
Module Fixture.

Definition ROW_SELECTION_HEADER_ID : string := "__selection__".

Definition column (id : string) (type : ColumnCellType)
    (readOnly : option ReadOnly) (maxLength : Js.Value) : Header.t :=
  {| Header.id := id; Header.accessor := id; Header.type := type;
     Header.readOnly := readOnly; Header.validatorHook := None;
     Header.editor := None; Header.maxLength := maxLength |}.

(** Accepts the strings and nothing else. *)
Definition onlyStrings (v : Js.Value) : bool :=
  match v with
  | Js.String _ => true
  | _ => false
  end.

Definition nameColumn : Header.t :=
  {| Header.id := "name"; Header.accessor := "name"; Header.type := Text;
     Header.readOnly := None; Header.validatorHook := Some onlyStrings;
     Header.editor := None; Header.maxLength := Js.int 20 |}.

Definition pickerColumn : Header.t :=
  {| Header.id := "colour"; Header.accessor := "colour"; Header.type := Custom;
     Header.readOnly := None; Header.validatorHook := None;
     Header.editor := Some (fun _ => "ColourPicker");
     Header.maxLength := Js.Undefined |}.

Definition qtyColumn : Header.t := column "qty" Numeric None Js.Undefined.

Definition dateColumn : Header.t :=
  column "date" Calendar (Some (ReadOnlyFlag true)) Js.Undefined.

Definition columns : list Header.t := [nameColumn; qtyColumn; dateColumn].

Definition getColumnAt (colIndex : Z) : option Header.t := at_index columns colIndex.

Definition row (name : string) (qty : Js.Value) : Row :=
  {[ "name" := Js.String name; "qty" := qty;
     "date" := Js.String "2020-05-01"; "colour" := Js.String "red" ]}.

Definition rows : list Row :=
  [ row "ada" (Js.int 5);
    row "bob" (Js.int 0);
    row "cy" (Js.String "");
    row "dee" (Js.String "7");
    row "eve" Js.Null ].

Definition props : ApiManager.EditorManagerProps :=
  {| ApiManager.getRows := rows;
     ApiManager.getColumnAt := getColumnAt;
     ApiManager.onCellChange := true |}.

Definition pickerProps : ApiManager.EditorManagerProps :=
  {| ApiManager.getRows := rows;
     ApiManager.getColumnAt := at_index [pickerColumn];
     ApiManager.onCellChange := true |}.

(** A grid whose one row has [NaN] as its quantity. *)
Definition notANumberProps : ApiManager.EditorManagerProps :=
  {| ApiManager.getRows := [row "nan" Js.NaN];
     ApiManager.getColumnAt := getColumnAt;
     ApiManager.onCellChange := true |}.

(** The grid after its rows were deleted. *)
Definition emptiedProps : ApiManager.EditorManagerProps :=
  {| ApiManager.getRows := [];
     ApiManager.getColumnAt := getColumnAt;
     ApiManager.onCellChange := true |}.

Definition propsOfHost : PropsManager.EditorManagerProps :=
  {| PropsManager.rows := rows;
     PropsManager.getColumnAt := getColumnAt;
     PropsManager.onCellChange := true |}.

Definition at_cell (rowIndex colIndex : Z) (key : option string) : BeginEditingParams :=
  {| begin_coords := {| rowIndex := rowIndex; colIndex := colIndex |};
     begin_targetElement := "cell";
     defaultKey := key |}.

(** Begins editing a cell from Idle, then lets the editor mount with the
    given value behind its [getValue]. *)
Definition editing (rowIndex colIndex : Z) (key : option string)
    (candidate : Js.Value) : ApiManager.Manager :=
  fst (ApiManager.onRefMount (Some {| getValue := Some candidate |})
         (fst (ApiManager.beginEditing ROW_SELECTION_HEADER_ID props
                 (at_cell rowIndex colIndex key) ApiManager.idle))).

(** The props-driven hook edits the cell at row 3, column 1, the editor
    returns ["8"], and the editor is closed with a key press to replay. *)
Definition editThenMove : list PropsManager.Action :=
  [ PropsManager.CallBeginEditing propsOfHost (at_cell 3 1 None);
    PropsManager.RefMount (Some {| getValue := Some (Js.String "8") |});
    PropsManager.CallStopEditing propsOfHost
      (Some {| PropsManager.save := Some true;
               PropsManager.keyPress := Some "ArrowDown" |});
    PropsManager.ScheduleEffect ].

(** The cells (0,0) and (0,1) merged under the anchor (0,0), on the five by
    three grid. *)
Definition merged : list Navigation.MergeRegion :=
  [ {| Navigation.anchor := {| rowIndex := 0; colIndex := 0 |};
       Navigation.spanning :=
         {[ {| rowIndex := 0; colIndex := 0 |}; {| rowIndex := 0; colIndex := 1 |} ]} |} ].

Definition gridBounds : Navigation.Bounds :=
  {| Navigation.maxRow := 4; Navigation.maxCol := 2 |}.

(** A region that spans the cell (0,0) and whose anchor, (9,9), is off the
    five by three grid. *)
Definition strayRegion : list Navigation.MergeRegion :=
  [ {| Navigation.anchor := {| rowIndex := 9; colIndex := 9 |};
       Navigation.spanning := {[ {| rowIndex := 0; colIndex := 0 |} ]} |} ].

(** The API-driven hook rendered with the five rows, and rendered again
    after the rows were deleted, with the same [apiRef] and the same
    [getColumnAt] function. *)
Definition renderedWithRows : ApiManager.Render :=
  {| ApiManager.rendered := props;
     ApiManager.apiRefKey := 0; ApiManager.getColumnAtKey := 0 |}.

Definition renderedWithoutRows : ApiManager.Render :=
  {| ApiManager.rendered := emptiedProps;
     ApiManager.apiRefKey := 0; ApiManager.getColumnAtKey := 0 |}.

(** The same two renders of the props-driven hook: the second is given
    another array, an empty one, as its [rows]. *)
Definition hostRenderedWithRows : PropsManager.Render :=
  {| PropsManager.rendered := propsOfHost;
     PropsManager.rowsKey := 0; PropsManager.getColumnAtKey := 0 |}.

Definition hostRenderedWithoutRows : PropsManager.Render :=
  {| PropsManager.rendered :=
       {| PropsManager.rows := [];
          PropsManager.getColumnAt := getColumnAt;
          PropsManager.onCellChange := true |};
     PropsManager.rowsKey := 1; PropsManager.getColumnAtKey := 0 |}.

Definition moves : list Navigation.Command :=
  [ Navigation.MoveTo {| rowIndex := 3; colIndex := 2 |};
    Navigation.MoveBy {| rowIndex := 2; colIndex := 0 |};
    Navigation.MoveTo {| rowIndex := 0; colIndex := 1 |};
    Navigation.MoveBy {| rowIndex := 0; colIndex := -1 |} ].

End Fixture.

(** * Properties of the API-driven manager *)

Lemma cellChanges_app (e1 e2 : list Effect) :
  cellChanges (e1 ++ e2) = cellChanges e1 ++ cellChanges e2.
Proof.
  induction e1 as [|e e1 IH]; [reflexivity|].
  destruct e; cbn; rewrite ?IH; reflexivity.
Qed.

Lemma dispatched_app (name : EventName) (e1 e2 : list Effect) :
  dispatched name (e1 ++ e2) = dispatched name e1 ++ dispatched name e2.
Proof.
  induction e1 as [|e e1 IH]; [reflexivity|].
  destruct e as [| n c | | | |]; cbn; rewrite ?IH; try reflexivity.
  destruct name, n; reflexivity.
Qed.

Lemma keyDowns_app (e1 e2 : list Effect) :
  keyDowns (e1 ++ e2) = keyDowns e1 ++ keyDowns e2.
Proof.
  induction e1 as [|e e1 IH]; [reflexivity|].
  destruct e; cbn; rewrite ?IH; reflexivity.
Qed.

Lemma thrown_app (e1 e2 : list Effect) :
  thrown (e1 ++ e2) = thrown e1 ++ thrown e2.
Proof.
  induction e1 as [|e e1 IH]; [reflexivity|].
  destruct e; cbn; rewrite ?IH; reflexivity.
Qed.

Lemma callOnCellChange_dispatches_nothing (name : EventName) (b : bool)
    (p : CellChangeParams) :
  dispatched name (callOnCellChange b p) = [].
Proof. destruct b; reflexivity. Qed.

Lemma strict_eq_undefined (v : Js.Value) :
  Js.strict_eq v Js.Undefined = true <-> v = Js.Undefined.
Proof. destruct v; cbn; split; congruence. Qed.

Lemma nullish_undefined (v : Js.Value) :
  Js.strict_eq (Js.nullish v Js.Undefined) Js.Undefined = Js.isNullish v.
Proof. destruct v; reflexivity. Qed.

Section ApiManagerProperties.

Variable ROW_SELECTION_HEADER_ID : string.

Implicit Types (props : ApiManager.EditorManagerProps)
               (m : ApiManager.Manager) (s : IEditorState.t).

(** ** Committing and discarding *)

(** The commit path of [stopEditing]: the session closes, and the change is
    reported when the candidate and the initial value are not loosely equal. *)
Lemma stopEditing_saves props (params : option ApiManager.StopEditingParams)
    m s (r : EditorRef) (v : Js.Value) :
  ApiManager.state m = Some s ->
  ApiManager.editorRef m = Some r ->
  getValue r = Some v ->
  wantsSave (ApiManager.save <$> params) = true ->
  Js.isNullish v = false ->
  from_option (fun hook => hook v) true (IEditorState.validatorHook s) = true ->
  ApiManager.stopEditing props params m =
    (ApiManager.idle,
     (if negb (Js.loose_eq v (IEditorState.initialValue s))
      then callOnCellChange (ApiManager.onCellChange props)
             {| coords := sessionCoords s;
                previousValue := IEditorState.initialValue s;
                newValue := v |}
      else []) ++ [ApiManager.stopNotification s]).
Proof.
  intros Hs Hr Hv Hsave Hdef Hvalid.
  unfold ApiManager.stopEditing, callGetValue.
  rewrite Hs, Hsave, Hr, Hv.
  rewrite nullish_undefined, Hdef.
  unfold Js.nullish. rewrite Hdef, Hvalid. reflexivity.
Qed.

(** A call throws exactly when it is to save on an open session whose
    editor handle has no [getValue] function; it then leaves the manager as
    it was, the session open, and nothing else leaves it. *)
Lemma stopEditing_throws props (params : option ApiManager.StopEditingParams) m :
  (thrown (snd (ApiManager.stopEditing props params m)) <> [] <->
   is_Some (ApiManager.state m) /\ wantsSave (ApiManager.save <$> params) = true /\
   callGetValue (ApiManager.editorRef m) = None) /\
  (thrown (snd (ApiManager.stopEditing props params m)) <> [] ->
   ApiManager.stopEditing props params m = (m, [Throw getValueIsNotAFunction])).
Proof.
  unfold ApiManager.stopEditing.
  destruct (ApiManager.state m) as [s|];
    [|split; [split; [done | by intros [[? [=]] _]] | done]].
  destruct (wantsSave _);
    [|split; [split; [done | by intros (_ & ? & _)] | done]].
  destruct (callGetValue _) as [value|];
    [|split; [split; [by eauto | done] | done]].
  assert (thrown
            (snd (if Js.strict_eq (Js.nullish value Js.Undefined) Js.Undefined
                  then (ApiManager.idle, [ApiManager.stopNotification s])
                  else
                    if negb (from_option (fun hook => hook (Js.nullish value Js.Undefined))
                                         true (IEditorState.validatorHook s))
                    then (ApiManager.idle, [ApiManager.stopNotification s])
                    else
                      (ApiManager.idle,
                       (if negb (Js.loose_eq (Js.nullish value Js.Undefined)
                                             (IEditorState.initialValue s))
                        then callOnCellChange (ApiManager.onCellChange props)
                               {| coords := sessionCoords s;
                                  previousValue := IEditorState.initialValue s;
                                  newValue := Js.nullish value Js.Undefined |}
                        else []) ++ [ApiManager.stopNotification s]))) = []) as ->.
  { destruct (Js.strict_eq _ _); [done|].
    destruct (negb (from_option _ _ _)); [done|].
    cbn [snd]. rewrite thrown_app.
    destruct (negb (Js.loose_eq _ _)); [|done].
    by destruct (ApiManager.onCellChange props). }
  split; [split; [done | by intros (_ & _ & ?)] | done].
Qed.

(** Whatever the path, a call on an open session that does not throw closes
    the session and dispatches the stop notification once, with the
    session's coordinate. *)
Lemma stopEditing_closes props (params : option ApiManager.StopEditingParams) m s :
  ApiManager.state m = Some s ->
  thrown (snd (ApiManager.stopEditing props params m)) = [] ->
  fst (ApiManager.stopEditing props params m) = ApiManager.idle /\
  dispatched CELL_STOP_EDITING (snd (ApiManager.stopEditing props params m))
    = [sessionCoords s] /\
  dispatched CELL_BEGIN_EDITING (snd (ApiManager.stopEditing props params m)) = [].
Proof.
  intros Hs. unfold ApiManager.stopEditing. rewrite Hs.
  destruct (wantsSave _); [|done].
  destruct (callGetValue _); [|done].
  destruct (Js.strict_eq _ _); [done|].
  destruct (negb (from_option _ _ _)); [done|].
  cbn [fst snd]. rewrite !dispatched_app.
  destruct (negb (Js.loose_eq _ _));
    rewrite ?callOnCellChange_dispatches_nothing; done.
Qed.

(** Without saving, nothing but the stop notification leaves the manager. *)
Lemma stopEditing_without_saving props m s :
  ApiManager.state m = Some s ->
  ApiManager.stopEditing props (Some {| ApiManager.save := Some false |}) m
    = (ApiManager.idle, [ApiManager.stopNotification s]).
Proof. intros Hs. unfold ApiManager.stopEditing. rewrite Hs. reflexivity. Qed.

(** C1, as amended: on an active session, [stopEditing] asked to save, with a
    candidate that is neither [undefined] nor [null] and that the validator
    accepts, calls the host's [onCellChange] exactly once when the candidate
    and the session's initial value are not loosely equal (the source's
    [newValue != initialValue]), with [previousValue] the initial value and
    [newValue] the candidate, and not at all when they are loosely equal. *)
Theorem stopEditing_emits_iff_loosely_different props
    (params : option ApiManager.StopEditingParams) m s (r : EditorRef)
    (candidate : Js.Value) :
  ApiManager.state m = Some s ->
  ApiManager.editorRef m = Some r ->
  getValue r = Some candidate ->
  wantsSave (ApiManager.save <$> params) = true ->
  Js.isNullish candidate = false ->
  from_option (fun hook => hook candidate) true (IEditorState.validatorHook s) = true ->
  ApiManager.onCellChange props = true ->
  (Js.loose_eq candidate (IEditorState.initialValue s) = false ->
   cellChanges (snd (ApiManager.stopEditing props params m)) =
     [{| coords := sessionCoords s;
         previousValue := IEditorState.initialValue s;
         newValue := candidate |}]) /\
  (Js.loose_eq candidate (IEditorState.initialValue s) = true ->
   cellChanges (snd (ApiManager.stopEditing props params m)) = []).
Proof.
  intros Hs Hr Hv Hsave Hdef Hvalid Hsink.
  rewrite (stopEditing_saves props params m s r candidate Hs Hr Hv Hsave Hdef Hvalid).
  cbn [snd]. rewrite cellChanges_app, Hsink.
  split; intros ->; reflexivity.
Qed.

(** The theorem at work: the cell holds ["7"], the editor returns ["8"]. *)
Lemma stopEditing_emits_iff_loosely_different_witness :
  cellChanges
    (snd (ApiManager.stopEditing Fixture.props None
            (Fixture.editing 3 1 None (Js.String "8"))))
  = [{| coords := {| rowIndex := 3; colIndex := 1 |};
        previousValue := Js.String "7";
        newValue := Js.String "8" |}].
Proof.
  refine (proj1 (stopEditing_emits_iff_loosely_different Fixture.props None
                   (Fixture.editing 3 1 None (Js.String "8"))
                   _ {| getValue := Some (Js.String "8") |} (Js.String "8")
                   eq_refl _ _ _ _ _ _) _); vm_compute; reflexivity.
Defined.

(** C1 as the spec words it fails: the cell holds the number [5], the editor
    returns the string ["5"]; the two are strictly different
    (["5" !== 5]), yet [stopEditing] reports no change, because it compares
    with [!=]. *)
Lemma stopEditing_strict_inequality_counterexample :
  ~ (forall props (params : option ApiManager.StopEditingParams) m s (r : EditorRef)
            (candidate : Js.Value),
        ApiManager.state m = Some s ->
        ApiManager.editorRef m = Some r ->
        getValue r = Some candidate ->
        wantsSave (ApiManager.save <$> params) = true ->
        Js.isNullish candidate = false ->
        from_option (fun hook => hook candidate) true
                    (IEditorState.validatorHook s) = true ->
        ApiManager.onCellChange props = true ->
        Js.strict_eq candidate (IEditorState.initialValue s) = false ->
        cellChanges (snd (ApiManager.stopEditing props params m)) =
          [{| coords := sessionCoords s;
              previousValue := IEditorState.initialValue s;
              newValue := candidate |}]).
Proof.
  intros claim.
  specialize (claim Fixture.props None (Fixture.editing 0 1 None (Js.String "5"))
                _ {| getValue := Some (Js.String "5") |} (Js.String "5")
                eq_refl eq_refl eq_refl eq_refl eq_refl eq_refl eq_refl eq_refl).
  vm_compute in claim. discriminate claim.
Qed.

(** C2, where the code departs from it: an editor handle without a
    [getValue] function is reported by [validateEditorRef] and stored all
    the same by [onRefMount]; on an active session with such a handle, a
    [stopEditing] that is to save throws at the call of [getValue], before
    anything is cleared or dispatched: this exit leaves the session open and
    the manager as it was, and emits no stop notification. *)
Theorem stopEditing_throws_on_handle_without_getValue props
    (params : option ApiManager.StopEditingParams) m s (r : EditorRef) :
  ApiManager.state m = Some s ->
  getValue r = None ->
  wantsSave (ApiManager.save <$> params) = true ->
  let mounted := fst (ApiManager.onRefMount (Some r) m) in
  ApiManager.onRefMount (Some r) m
    = ({| ApiManager.editorRef := Some r;
          ApiManager.state := Some s;
          ApiManager.editorNode := ApiManager.editorNode m |},
       [ConsoleWarn GetValueInvalid]) /\
  ApiManager.stopEditing props params mounted
    = (mounted, [Throw getValueIsNotAFunction]) /\
  ApiManager.state (fst (ApiManager.stopEditing props params mounted)) = Some s /\
  dispatched CELL_STOP_EDITING (snd (ApiManager.stopEditing props params mounted)) = [].
Proof.
  intros Hs Hr Hsave mounted.
  assert (ApiManager.onRefMount (Some r) m
          = ({| ApiManager.editorRef := Some r;
                ApiManager.state := Some s;
                ApiManager.editorNode := ApiManager.editorNode m |},
             [ConsoleWarn GetValueInvalid])) as Hmount.
  { unfold ApiManager.onRefMount, validateEditorRef. by rewrite Hr, Hs. }
  split; [exact Hmount|].
  assert (ApiManager.stopEditing props params mounted
          = (mounted, [Throw getValueIsNotAFunction])) as Hthrow.
  { subst mounted. rewrite Hmount. cbn [fst].
    unfold ApiManager.stopEditing, callGetValue.
    cbn [ApiManager.state ApiManager.editorRef]. by rewrite Hsave, Hr. }
  rewrite Hthrow. cbn [fst snd]. split; [reflexivity|].
  split; [|reflexivity].
  subst mounted. by rewrite Hmount.
Qed.

(** The theorem at work: the editor of the name cell mounts with a handle
    that has no [getValue], and [stopEditing()] is called. *)
Lemma stopEditing_throws_on_handle_without_getValue_witness :
  let mounted :=
    fst (ApiManager.onRefMount (Some {| getValue := None |})
           (fst (ApiManager.beginEditing Fixture.ROW_SELECTION_HEADER_ID Fixture.props
                   (Fixture.at_cell 0 0 None) ApiManager.idle))) in
  ApiManager.stopEditing Fixture.props None mounted
  = (mounted, [Throw getValueIsNotAFunction]).
Proof.
  refine (proj1 (proj2 (stopEditing_throws_on_handle_without_getValue Fixture.props
                          None
                          (fst (ApiManager.beginEditing Fixture.ROW_SELECTION_HEADER_ID
                                  Fixture.props (Fixture.at_cell 0 0 None)
                                  ApiManager.idle))
                          _ {| getValue := None |} eq_refl _ _)));
    reflexivity.
Defined.

(** X20: on an active session, [stopEditing] asked to save discards when the
    candidate is [undefined] (no editor handle, or a handle whose value is
    [undefined] or [null]) or when the validator hook returns [false]: the
    manager goes to Idle and only the stop notification leaves it, so no
    cell change is reported.  On every path on which the call returns,
    saving or not, it closes the session and dispatches the stop
    notification once, with the session's coordinate; the call throws
    exactly when it is to save and the handle has no [getValue] function. *)
Theorem stopEditing_discards_and_notifies_unless_it_throws props
    (params : option ApiManager.StopEditingParams) m s :
  ApiManager.state m = Some s ->
  (wantsSave (ApiManager.save <$> params) = true ->
   forall value, callGetValue (ApiManager.editorRef m) = Some value ->
   let candidate := Js.nullish value Js.Undefined in
   candidate = Js.Undefined \/
   (exists hook, IEditorState.validatorHook s = Some hook /\ hook candidate = false) ->
   ApiManager.stopEditing props params m
     = (ApiManager.idle, [DispatchEvent CELL_STOP_EDITING (sessionCoords s)])) /\
  (thrown (snd (ApiManager.stopEditing props params m)) = [] ->
   fst (ApiManager.stopEditing props params m) = ApiManager.idle /\
   dispatched CELL_STOP_EDITING (snd (ApiManager.stopEditing props params m))
     = [sessionCoords s]) /\
  (thrown (snd (ApiManager.stopEditing props params m)) <> [] <->
   wantsSave (ApiManager.save <$> params) = true /\
   exists r, ApiManager.editorRef m = Some r /\ getValue r = None).
Proof.
  intros Hs. split; [|split].
  - intros Hsave value Hvalue candidate Hbad.
    unfold ApiManager.stopEditing. rewrite Hs, Hsave, Hvalue.
    fold candidate.
    destruct (Js.strict_eq candidate Js.Undefined) eqn:Hundef; [reflexivity|].
    destruct Hbad as [Hbad | (hook & Hhook & Hfalse)].
    + apply strict_eq_undefined in Hbad. congruence.
    + rewrite Hhook. cbn [from_option]. rewrite Hfalse. reflexivity.
  - intros Hreturns.
    destruct (stopEditing_closes props params m s Hs Hreturns) as (? & ? & _). done.
  - destruct (stopEditing_throws props params m) as [-> _].
    rewrite Hs. unfold callGetValue. split.
    + intros (_ & Hsave & Hcall). split; [done|].
      destruct (ApiManager.editorRef m) as [r|]; [by exists r | done].
    + intros (Hsave & r & -> & Hr). by eauto.
Qed.

(** The theorem at work: the name column only accepts strings, and the
    editor returns a number. *)
Lemma stopEditing_discards_and_notifies_unless_it_throws_witness :
  ApiManager.stopEditing Fixture.props None
    (Fixture.editing 0 0 None (Js.int 3))
  = (ApiManager.idle,
     [DispatchEvent CELL_STOP_EDITING {| rowIndex := 0; colIndex := 0 |}]).
Proof.
  refine (proj1 (stopEditing_discards_and_notifies_unless_it_throws Fixture.props None
                   (Fixture.editing 0 0 None (Js.int 3)) _ eq_refl) _
                (Js.int 3) _ _).
  - reflexivity.
  - reflexivity.
  - right. exists Fixture.onlyStrings. split; vm_compute; reflexivity.
Defined.

(** ** Beginning *)

(** C3: while a session is active at a coordinate, [beginEditing] at that
    same coordinate returns at once: session, editor handle and editor node
    are what they were, and nothing is dispatched or logged. *)
Theorem beginEditing_same_coordinate_is_noop props (params : BeginEditingParams) m s :
  ApiManager.state m = Some s ->
  rowIndex (begin_coords params) = IEditorState.rowIndex s ->
  colIndex (begin_coords params) = IEditorState.colIndex s ->
  ApiManager.beginEditing ROW_SELECTION_HEADER_ID props params m = (m, []).
Proof.
  intros Hs Hrow Hcol. unfold ApiManager.beginEditing, sameCoords.
  rewrite Hs, Hrow, Hcol, !Z.eqb_refl. reflexivity.
Qed.

(** A call that passes the guards opens the session and dispatches the begin
    notification. *)
Lemma beginEditing_accepted props (params : BeginEditingParams) m
    (column : Header.t) (row : Row) :
  ApiManager.accepted ROW_SELECTION_HEADER_ID props params m column row ->
  let cell := prop row (Header.accessor column) in
  let editor :=
    getEditor row column
      {| EditorProps.anchorRef := begin_targetElement params;
         EditorProps.value := bufferedValue cell (defaultKey params);
         EditorProps.maxLength := Js.nullish (Header.maxLength column) (Js.int 500);
         EditorProps.validatorHook := Header.validatorHook column |} in
  ApiManager.beginEditing ROW_SELECTION_HEADER_ID props params m =
    ({| ApiManager.editorRef := ApiManager.editorRef m;
        ApiManager.state := Some
          {| IEditorState.node := editor;
             IEditorState.rowIndex := rowIndex (begin_coords params);
             IEditorState.colIndex := colIndex (begin_coords params);
             IEditorState.initialValue := Js.nullish cell (Js.String "");
             IEditorState.targetElement := begin_targetElement params;
             IEditorState.validatorHook := Header.validatorHook column;
             IEditorState.isPopup :=
               hasEditor column || ColumnCellType_eqb (Header.type column) Calendar |};
        ApiManager.editorNode := Some editor |},
     [DispatchEvent CELL_BEGIN_EDITING (begin_coords params)]).
Proof.
  intros (Hsame & Hcol & Hid & Hro & Hrow). unfold ApiManager.beginEditing.
  rewrite Hsame, Hcol, Hid, Hro, Hrow. reflexivity.
Qed.

(** A column is read-only for a coordinate when its [readOnly] is a predicate
    that holds of the coordinate, or the boolean [true]. *)
Lemma isReadOnly_true (column : Header.t) (coords : NavigationCoords) :
  isReadOnly column coords = true <->
  (exists f, Header.readOnly column = Some (ReadOnlyFn f) /\ f coords = true) \/
  Header.readOnly column = Some (ReadOnlyFlag true).
Proof.
  unfold isReadOnly. destruct (Header.readOnly column) as [[b|f]|].
  - split; [intros ->; by right | intros [(f & Hf & _) | Hb]; congruence].
  - split; [intros Hf; left; by exists f |].
    intros [(g & Hg & Htrue) | Hb]; congruence.
  - split; [done | intros [(f & Hf & _) | Hb]; congruence].
Qed.

(** C5: when the column lookup yields no column, or the column is the
    row-selection pseudo-column, or it is read-only for the coordinate (its
    [readOnly] is a predicate that holds of the coordinate, or is [true]),
    or there is no row at the row index, [beginEditing] returns with the
    manager state as it was, and its effects are console warnings at most:
    it dispatches no notification, reports no change and throws nothing. *)
Theorem beginEditing_rejects_silently props (params : BeginEditingParams) m :
  let coords := begin_coords params in
  ApiManager.getColumnAt props (colIndex coords) = None \/
  (exists column,
      ApiManager.getColumnAt props (colIndex coords) = Some column /\
      (Header.id column = ROW_SELECTION_HEADER_ID \/
       (exists f, Header.readOnly column = Some (ReadOnlyFn f) /\ f coords = true) \/
       Header.readOnly column = Some (ReadOnlyFlag true))) \/
  at_index (ApiManager.getRows props) (rowIndex coords) = None ->
  exists log,
    ApiManager.beginEditing ROW_SELECTION_HEADER_ID props params m = (m, log) /\
    Forall (fun e => exists w, e = ConsoleWarn w) log.
Proof.
  intros coords Hreject.
  assert (ApiManager.getColumnAt props (colIndex coords) = None \/
          (exists column,
              ApiManager.getColumnAt props (colIndex coords) = Some column /\
              (Header.id column = ROW_SELECTION_HEADER_ID \/
               isReadOnly column coords = true)) \/
          at_index (ApiManager.getRows props) (rowIndex coords) = None) as Hreject'.
  { destruct Hreject as [? | [(c & Hc & [? | Hro]) | ?]]; auto.
    - right; left. exists c. auto.
    - right; left. exists c. split; [done|]. right. by apply isReadOnly_true. }
  clear Hreject. rename Hreject' into Hreject.
  unfold ApiManager.beginEditing. fold coords.
  destruct (sameCoords _ _); [by exists []|].
  destruct (ApiManager.getColumnAt props (colIndex coords)) as [column|] eqn:Hcol;
    [|eexists; split; [reflexivity|]; repeat constructor; eauto].
  destruct (String.eqb_spec (Header.id column) ROW_SELECTION_HEADER_ID) as [Hid|Hid];
    [by exists []|].
  destruct (isReadOnly column coords) eqn:Hro; [by exists []|].
  destruct (at_index _ _) as [row|] eqn:Hrow;
    [|eexists; split; [reflexivity|]; repeat constructor; eauto].
  exfalso. destruct Hreject as [? | [(c & Hc & [? | ?]) | ?]]; congruence.
Qed.

(** C6: a [beginEditing] call that passes the guards opens a session whose
    editor is the result of the column's own factory when the column has
    one; otherwise the Calendar editor for a Calendar column, the Numeric
    editor for a Numeric column, and the Text editor for any other type. *)
Theorem beginEditing_selects_editor props (params : BeginEditingParams) m
    (column : Header.t) (row : Row) :
  ApiManager.accepted ROW_SELECTION_HEADER_ID props params m column row ->
  exists s,
    ApiManager.state
      (fst (ApiManager.beginEditing ROW_SELECTION_HEADER_ID props params m)) = Some s /\
    ApiManager.editorNode
      (fst (ApiManager.beginEditing ROW_SELECTION_HEADER_ID props params m))
      = Some (IEditorState.node s) /\
    match Header.editor column with
    | Some factory => IEditorState.node s = customElement (factory row)
    | None =>
        exists editorProps,
          IEditorState.node s =
            createElement
              match Header.type column with
              | Calendar => CalendarEditor
              | Numeric => NumericEditor
              | Text | Custom => TextEditor
              end
              editorProps
    end.
Proof.
  intros Hacc. rewrite (beginEditing_accepted _ _ _ _ _ Hacc). cbn [fst].
  eexists. split; [reflexivity|]. split; [reflexivity|].
  cbn [IEditorState.node]. unfold getEditor.
  destruct (Header.editor column); [reflexivity|].
  eexists. destruct (Header.type column); reflexivity.
Qed.

(** C10, as amended: a [beginEditing] call that passes the guards on a column
    without an editor factory creates the editor element with [maxLength]
    equal to the column's [maxLength] when that is neither [undefined] nor
    [null], and to 500 otherwise. *)
Theorem beginEditing_builtin_maxLength props (params : BeginEditingParams) m
    (column : Header.t) (row : Row) :
  ApiManager.accepted ROW_SELECTION_HEADER_ID props params m column row ->
  Header.editor column = None ->
  exists s,
    ApiManager.state
      (fst (ApiManager.beginEditing ROW_SELECTION_HEADER_ID props params m)) = Some s /\
    (Js.isNullish (Header.maxLength column) = false ->
     instantiatedMaxLength (IEditorState.node s) = Some (Header.maxLength column)) /\
    (Js.isNullish (Header.maxLength column) = true ->
     instantiatedMaxLength (IEditorState.node s) = Some (Js.int 500)).
Proof.
  intros Hacc Hnone. rewrite (beginEditing_accepted _ _ _ _ _ Hacc). cbn [fst].
  eexists. split; [reflexivity|].
  cbn [IEditorState.node]. unfold getEditor, Js.nullish. rewrite Hnone.
  split; intros ->; reflexivity.
Qed.


(** ** The editor node follows the session *)

Lemma idle_consistent : ApiManager.consistent ApiManager.idle.
Proof. reflexivity. Qed.

Lemma stopEditing_consistent props (params : option ApiManager.StopEditingParams) m :
  ApiManager.consistent m ->
  ApiManager.consistent (fst (ApiManager.stopEditing props params m)).
Proof.
  intros Hm. unfold ApiManager.stopEditing.
  destruct (ApiManager.state m) as [s|] eqn:Hs; [|done].
  destruct (wantsSave _); [|done].
  destruct (callGetValue _); [|done].
  destruct (Js.strict_eq _ _); [done|].
  by destruct (negb (from_option _ _ _)).
Qed.

Lemma beginEditing_consistent props (params : BeginEditingParams) m :
  ApiManager.consistent m ->
  ApiManager.consistent
    (fst (ApiManager.beginEditing ROW_SELECTION_HEADER_ID props params m)).
Proof.
  intros Hm. unfold ApiManager.beginEditing.
  destruct (sameCoords _ _); [done|].
  destruct (ApiManager.getColumnAt _ _); [|done].
  destruct (String.eqb _ _); [done|].
  destruct (isReadOnly _ _); [done|].
  by destruct (at_index _ _).
Qed.

Lemma onRefMount_consistent (ref : option EditorRef) m :
  ApiManager.consistent m ->
  ApiManager.consistent (fst (ApiManager.onRefMount ref m)).
Proof.
  unfold ApiManager.onRefMount, validateEditorRef.
  destruct ref as [r|]; [|done]. by destruct (getValue r).
Qed.

Lemma reconcile_consistent props m :
  ApiManager.consistent m ->
  ApiManager.consistent (fst (ApiManager.reconcile props m)).
Proof.
  intros Hm. unfold ApiManager.reconcile.
  destruct (ApiManager.editorNode m); [|done].
  destruct (ApiManager.state m); [|done].
  destruct (at_index _ _); [|by apply stopEditing_consistent].
  destruct (ApiManager.getColumnAt _ _); [|by apply stopEditing_consistent].
  destruct (Js.strict_eq _ _); [by apply stopEditing_consistent|done].
Qed.

(** In a consistent manager, a session in [state] is an active session. *)
Lemma consistent_active m s :
  ApiManager.consistent m -> ApiManager.state m = Some s -> ApiManager.active m s.
Proof. unfold ApiManager.consistent. intros Hm Hs. rewrite Hs in Hm. by split. Qed.

(** ** Reconciling *)

(** X18: with a session active, a run of the reconciler effect forces
    [stopEditing({ save: false })] when the session's row is absent, or its
    column is absent, or the column's accessor yields [undefined] on the
    row: the manager goes to Idle and no change is reported.  When the
    accessor yields anything but [undefined], the run leaves the manager as
    it is.  The effect runs when the hook is rendered again with another
    [apiRef] or another [getColumnAt]. *)
Theorem reconciler_run_invalidates_session props m s :
  ApiManager.active m s ->
  let row := at_index (ApiManager.getRows props) (IEditorState.rowIndex s) in
  let column := ApiManager.getColumnAt props (IEditorState.colIndex s) in
  (row = None \/ column = None \/
   (exists target c, row = Some target /\ column = Some c /\
                     prop target (Header.accessor c) = Js.Undefined) ->
   ApiManager.reconcile props m
     = ApiManager.stopEditing props (Some {| ApiManager.save := Some false |}) m /\
   fst (ApiManager.reconcile props m) = ApiManager.idle /\
   cellChanges (snd (ApiManager.reconcile props m)) = []) /\
  (forall target c,
      row = Some target -> column = Some c ->
      prop target (Header.accessor c) <> Js.Undefined ->
      ApiManager.reconcile props m = (m, [])) /\
  (forall previous next : ApiManager.Render,
      ApiManager.rendered next = props ->
      ApiManager.apiRefKey previous <> ApiManager.apiRefKey next \/
      ApiManager.getColumnAtKey previous <> ApiManager.getColumnAtKey next ->
      ApiManager.rerender previous next m = ApiManager.reconcile props m).
Proof.
  intros [Hs Hnode] row column.
  assert (forall previous next : ApiManager.Render,
            ApiManager.rendered next = props ->
            ApiManager.apiRefKey previous <> ApiManager.apiRefKey next \/
            ApiManager.getColumnAtKey previous <> ApiManager.getColumnAtKey next ->
            ApiManager.rerender previous next m = ApiManager.reconcile props m)
    as Hruns.
  { intros previous next <- Hchanged.
    unfold ApiManager.rerender, ApiManager.reconcilerDependenciesChanged.
    destruct (Nat.eqb_spec (ApiManager.apiRefKey previous) (ApiManager.apiRefKey next));
      destruct (Nat.eqb_spec (ApiManager.getColumnAtKey previous)
                             (ApiManager.getColumnAtKey next));
      try reflexivity.
    destruct Hchanged; contradiction. }
  assert (forall target c, row = Some target -> column = Some c ->
            ApiManager.reconcile props m =
              if Js.strict_eq (prop target (Header.accessor c)) Js.Undefined
              then ApiManager.stopEditing props
                     (Some {| ApiManager.save := Some false |}) m
              else (m, [])) as Hboth.
  { intros target c Hrow Hcol. unfold ApiManager.reconcile.
    rewrite Hnode, Hs. fold row column. rewrite Hrow, Hcol. reflexivity. }
  split.
  - intros Hgone.
    assert (ApiManager.reconcile props m =
              ApiManager.stopEditing props
                (Some {| ApiManager.save := Some false |}) m) as Hstop.
    { destruct Hgone as [Hrow | [Hcol | (target & c & Hrow & Hcol & Hundef)]].
      - unfold ApiManager.reconcile. rewrite Hnode, Hs. fold row. by rewrite Hrow.
      - unfold ApiManager.reconcile. rewrite Hnode, Hs. fold row column.
        rewrite Hcol. by destruct row.
      - rewrite (Hboth _ _ Hrow Hcol), Hundef. reflexivity. }
    rewrite Hstop, (stopEditing_without_saving props m s Hs). done.
  - split; [|exact Hruns].
    intros target c Hrow Hcol Hdefined. rewrite (Hboth _ _ Hrow Hcol).
    destruct (Js.strict_eq _ _) eqn:Heq; [|reflexivity].
    apply strict_eq_undefined in Heq. contradiction.
Qed.

(** C7, where the code departs from it: in the API-driven hook the
    reconciler effect depends on [apiRef], [getColumnAt] and [editorNode],
    not on the rows.  When the hook is rendered again after the row of an
    active session was deleted, with the same [apiRef] and the same
    [getColumnAt], the effect does not run: the manager is as it was, the
    session still open on a row that is gone (a run of the effect would have
    closed it), and a [stopEditing] that saves then reports a change at the
    coordinate of the deleted row. *)
Theorem row_deletion_alone_does_not_reconcile (previous next : ApiManager.Render)
    m s :
  ApiManager.active m s ->
  ApiManager.apiRefKey previous = ApiManager.apiRefKey next ->
  ApiManager.getColumnAtKey previous = ApiManager.getColumnAtKey next ->
  at_index (ApiManager.getRows (ApiManager.rendered next)) (IEditorState.rowIndex s)
    = None ->
  ApiManager.rerender previous next m = (m, []) /\
  ApiManager.state (fst (ApiManager.rerender previous next m)) = Some s /\
  ApiManager.reconcile (ApiManager.rendered next) m
    = (ApiManager.idle, [DispatchEvent CELL_STOP_EDITING (sessionCoords s)]) /\
  (forall (r : EditorRef) (candidate : Js.Value)
          (stop : option ApiManager.StopEditingParams),
      ApiManager.editorRef m = Some r ->
      getValue r = Some candidate ->
      wantsSave (ApiManager.save <$> stop) = true ->
      Js.isNullish candidate = false ->
      from_option (fun hook => hook candidate) true (IEditorState.validatorHook s)
        = true ->
      ApiManager.onCellChange (ApiManager.rendered next) = true ->
      Js.loose_eq candidate (IEditorState.initialValue s) = false ->
      cellChanges
        (snd (ApiManager.stopEditing (ApiManager.rendered next) stop
                (fst (ApiManager.rerender previous next m))))
      = [{| coords := sessionCoords s;
            previousValue := IEditorState.initialValue s;
            newValue := candidate |}]).
Proof.
  intros [Hs Hnode] HapiRef HgetColumnAt Hrow.
  assert (ApiManager.rerender previous next m = (m, [])) as Hsame.
  { unfold ApiManager.rerender, ApiManager.reconcilerDependenciesChanged.
    by rewrite HapiRef, HgetColumnAt, !Nat.eqb_refl. }
  rewrite Hsame. cbn [fst snd]. split; [reflexivity|]. split; [exact Hs|]. split.
  - unfold ApiManager.reconcile. rewrite Hnode, Hs, Hrow.
    apply (stopEditing_without_saving _ m s Hs).
  - intros r candidate stop Hr Hcandidate Hsave Hdefined Hvalid Hsink Hdiff.
    rewrite (stopEditing_saves _ stop m s r candidate Hs Hr Hcandidate Hsave
               Hdefined Hvalid).
    cbn [snd]. by rewrite cellChanges_app, Hdiff, Hsink.
Qed.

End ApiManagerProperties.

(** The theorem at work: a second [beginEditing] on the cell being edited. *)
Lemma beginEditing_same_coordinate_is_noop_witness :
  ApiManager.beginEditing Fixture.ROW_SELECTION_HEADER_ID Fixture.props
    (Fixture.at_cell 3 1 (Some "x")) (Fixture.editing 3 1 None (Js.String "8"))
  = (Fixture.editing 3 1 None (Js.String "8"), []).
Proof.
  refine (beginEditing_same_coordinate_is_noop Fixture.ROW_SELECTION_HEADER_ID
            Fixture.props (Fixture.at_cell 3 1 (Some "x"))
            (Fixture.editing 3 1 None (Js.String "8")) _ eq_refl _ _);
    reflexivity.
Defined.

(** The theorem at work: the spec's scenario, a read-only column at index 2. *)
Lemma beginEditing_rejects_silently_witness :
  exists log,
    ApiManager.beginEditing Fixture.ROW_SELECTION_HEADER_ID Fixture.props
      (Fixture.at_cell 0 2 None) ApiManager.idle = (ApiManager.idle, log) /\
    Forall (fun e => exists w, e = ConsoleWarn w) log.
Proof.
  apply (beginEditing_rejects_silently Fixture.ROW_SELECTION_HEADER_ID
           Fixture.props (Fixture.at_cell 0 2 None)).
  right; left.
  exists Fixture.dateColumn.
  split; [reflexivity | right; right; reflexivity].
Defined.

(** The theorem at work: the numeric column gets the Numeric editor. *)
Lemma beginEditing_selects_editor_witness :
  exists s,
    ApiManager.state
      (fst (ApiManager.beginEditing Fixture.ROW_SELECTION_HEADER_ID Fixture.props
              (Fixture.at_cell 3 1 None) ApiManager.idle)) = Some s /\
    ApiManager.editorNode
      (fst (ApiManager.beginEditing Fixture.ROW_SELECTION_HEADER_ID Fixture.props
              (Fixture.at_cell 3 1 None) ApiManager.idle))
      = Some (IEditorState.node s) /\
    exists editorProps,
      IEditorState.node s = createElement NumericEditor editorProps.
Proof.
  refine (beginEditing_selects_editor Fixture.ROW_SELECTION_HEADER_ID Fixture.props
            (Fixture.at_cell 3 1 None) ApiManager.idle Fixture.qtyColumn
            (Fixture.row "dee" (Js.String "7")) _).
  repeat split; reflexivity.
Defined.

(** The theorem at work: the name column limits the length to 20. *)
Lemma beginEditing_builtin_maxLength_witness :
  exists s,
    ApiManager.state
      (fst (ApiManager.beginEditing Fixture.ROW_SELECTION_HEADER_ID Fixture.props
              (Fixture.at_cell 0 0 None) ApiManager.idle)) = Some s /\
    instantiatedMaxLength (IEditorState.node s) = Some (Js.int 20).
Proof.
  destruct (beginEditing_builtin_maxLength Fixture.ROW_SELECTION_HEADER_ID
              Fixture.props (Fixture.at_cell 0 0 None) ApiManager.idle
              Fixture.nameColumn (Fixture.row "ada" (Js.int 5)))
    as (s & Hs & Hdefined & _).
  - repeat split; reflexivity.
  - reflexivity.
  - exists s. split; [exact Hs | exact (Hdefined eq_refl)].
Defined.

(** C10 as the spec words it fails: a column with its own editor factory and
    no [maxLength]; the session's editor is what the factory returned, and
    the 500 of the editor props never reaches it. *)
Lemma beginEditing_maxLength_counterexample :
  ~ (forall (ROW_SELECTION_HEADER_ID : string)
            (props : ApiManager.EditorManagerProps) (params : BeginEditingParams)
            (m : ApiManager.Manager) (column : Header.t) (row : Row),
        ApiManager.accepted ROW_SELECTION_HEADER_ID props params m column row ->
        exists s,
          ApiManager.state
            (fst (ApiManager.beginEditing ROW_SELECTION_HEADER_ID props params m))
            = Some s /\
          instantiatedMaxLength (IEditorState.node s)
            = Some (Js.nullish (Header.maxLength column) (Js.int 500))).
Proof.
  intros claim.
  destruct (claim Fixture.ROW_SELECTION_HEADER_ID Fixture.pickerProps
              (Fixture.at_cell 0 0 None) ApiManager.idle Fixture.pickerColumn
              (Fixture.row "ada" (Js.int 5)))
    as (s & Hs & Hmax).
  - repeat split; reflexivity.
  - vm_compute in Hs. injection Hs as <-. discriminate Hmax.
Qed.



(** The theorem at work: the rows are deleted under an open session, and
    the effect runs. *)
Lemma reconciler_run_invalidates_session_witness :
  fst (ApiManager.reconcile Fixture.emptiedProps
         (Fixture.editing 3 1 None (Js.String "8"))) = ApiManager.idle /\
  cellChanges
    (snd (ApiManager.reconcile Fixture.emptiedProps
            (Fixture.editing 3 1 None (Js.String "8")))) = [].
Proof.
  refine (proj2 (proj1 (reconciler_run_invalidates_session Fixture.emptiedProps
                          (Fixture.editing 3 1 None (Js.String "8")) _ _)
                       _)).
  - split; reflexivity.
  - left. reflexivity.
Defined.

(** The theorem at work: the quantity of row 3 is being edited when the rows
    are deleted and the hook is rendered again with the same [getColumnAt]:
    nothing happens. *)
Lemma row_deletion_alone_does_not_reconcile_witness :
  ApiManager.rerender Fixture.renderedWithRows Fixture.renderedWithoutRows
    (Fixture.editing 3 1 None (Js.String "8"))
  = (Fixture.editing 3 1 None (Js.String "8"), []).
Proof.
  refine (proj1 (row_deletion_alone_does_not_reconcile Fixture.renderedWithRows
                   Fixture.renderedWithoutRows
                   (Fixture.editing 3 1 None (Js.String "8")) _ _ _ _ _)).
  - split; reflexivity.
  - reflexivity.
  - reflexivity.
  - reflexivity.
Defined.

(** The session that outlived its row is then saved: the change is reported
    for row 3 of a grid that has no rows. *)
Example stopEditing_after_row_deletion :
  ApiManager.getRows (ApiManager.rendered Fixture.renderedWithoutRows) = [] /\
  ApiManager.stopEditing (ApiManager.rendered Fixture.renderedWithoutRows) None
    (fst (ApiManager.rerender Fixture.renderedWithRows Fixture.renderedWithoutRows
            (Fixture.editing 3 1 None (Js.String "8"))))
  = (ApiManager.idle,
     [ CellChange {| coords := {| rowIndex := 3; colIndex := 1 |};
                     previousValue := Js.String "7";
                     newValue := Js.String "8" |};
       DispatchEvent CELL_STOP_EDITING {| rowIndex := 3; colIndex := 1 |} ]).
Proof. vm_compute. auto. Qed.

(** * Properties of the props-driven manager: the deferred key press *)

Section PropsManagerProperties.

Variable ROW_SELECTION_HEADER_ID : string.

Implicit Types (m : PropsManager.Manager) (actions : list PropsManager.Action).

Local Abbreviation run := (PropsManager.run ROW_SELECTION_HEADER_ID).
Local Abbreviation step := (PropsManager.step ROW_SELECTION_HEADER_ID).
Local Abbreviation scheduledBy := (PropsManager.scheduledBy ROW_SELECTION_HEADER_ID).

Lemma run_app actions1 actions2 m :
  run (actions1 ++ actions2) m =
    (fst (run actions2 (fst (run actions1 m))),
     snd (run actions1 m) ++ snd (run actions2 (fst (run actions1 m)))).
Proof.
  revert m. induction actions1 as [|a actions1 IH]; intros m.
  - cbn. by destruct (run actions2 m).
  - cbn [app PropsManager.run]. destruct (step a m) as [m1 e1]. rewrite IH.
    destruct (run actions1 m1) as [m2 e2]. cbn [fst snd].
    by rewrite app_assoc.
Qed.

Lemma run_snoc actions a m :
  run (actions ++ [a]) m =
    (fst (step a (fst (run actions m))),
     snd (run actions m) ++ snd (step a (fst (run actions m)))).
Proof.
  rewrite run_app. cbn [PropsManager.run].
  destruct (step a _) as [m1 e1]. cbn [fst snd]. by rewrite app_nil_r.
Qed.

(** [stopEditing] touches neither the timeout nor the mount flag; it either
    leaves [scheduleMove] alone or sets it to the key press it was given,
    and then the session is closed. *)
Lemma stopEditing_schedules (props : PropsManager.EditorManagerProps)
    (params : option PropsManager.StopEditingParams) m :
  let m' := fst (PropsManager.stopEditing props params m) in
  PropsManager.timer m' = PropsManager.timer m /\
  PropsManager.mounted m' = PropsManager.mounted m /\
  PropsManager.scheduleEffectKey m' = PropsManager.scheduleEffectKey m /\
  (PropsManager.scheduleMove m' = PropsManager.scheduleMove m \/
   exists key,
     truthyKey (params ≫= PropsManager.keyPress) = Some key /\
     PropsManager.scheduleMove m' = Some key /\
     PropsManager.state m' = None /\ PropsManager.editorRef m' = None /\
     PropsManager.editorNode m' = None).
Proof.
  unfold PropsManager.stopEditing.
  destruct (PropsManager.state m); [|by auto].
  destruct (wantsSave _).
  - destruct (callGetValue _); [|cbn; by auto].
    destruct (Js.strict_eq _ _); [cbn; by auto|].
    destruct (negb (from_option _ _ _)); [cbn; by auto|].
    destruct (truthyKey _) as [key|]; cbn; [|by auto].
    repeat split; try done. right. by exists key.
  - destruct (truthyKey _) as [key|]; cbn; [|by auto].
    repeat split; try done. right. by exists key.
Qed.

(** A call never dispatches the key press itself. *)
Lemma stopEditing_no_keyDown (props : PropsManager.EditorManagerProps)
    (params : option PropsManager.StopEditingParams) m :
  keyDowns (snd (PropsManager.stopEditing props params m)) = [].
Proof.
  unfold PropsManager.stopEditing.
  destruct (PropsManager.state m); [|done].
  destruct (wantsSave _).
  - destruct (callGetValue _); [|done].
    destruct (Js.strict_eq _ _); [done|].
    destruct (negb (from_option _ _ _)); [done|].
    destruct (truthyKey _); cbn [snd]; rewrite ?keyDowns_app;
      destruct (negb (Js.loose_eq _ _)); try done;
      by destruct (PropsManager.onCellChange props).
  - by destruct (truthyKey _).
Qed.

(** Mounting an editor touches nothing of the scheduling. *)
Lemma onRefMount_keeps_schedule (ref : option EditorRef) m :
  let m' := fst (PropsManager.onRefMount ref m) in
  PropsManager.timer m' = PropsManager.timer m /\
  PropsManager.mounted m' = PropsManager.mounted m /\
  PropsManager.scheduleMove m' = PropsManager.scheduleMove m /\
  PropsManager.scheduleEffectKey m' = PropsManager.scheduleEffectKey m /\
  keyDowns (snd (PropsManager.onRefMount ref m)) = [].
Proof.
  unfold PropsManager.onRefMount, validateEditorRef.
  destruct ref as [r|]; [|done]. by destruct (getValue r).
Qed.

Lemma beginEditing_keeps_schedule (props : PropsManager.EditorManagerProps)
    (params : BeginEditingParams) m :
  let m' := fst (PropsManager.beginEditing ROW_SELECTION_HEADER_ID props params m) in
  PropsManager.timer m' = PropsManager.timer m /\
  PropsManager.mounted m' = PropsManager.mounted m /\
  PropsManager.scheduleMove m' = PropsManager.scheduleMove m /\
  keyDowns (snd (PropsManager.beginEditing ROW_SELECTION_HEADER_ID props params m)) = [].
Proof.
  unfold PropsManager.beginEditing.
  destruct (sameCoords _ _); [done|].
  destruct (PropsManager.getColumnAt _ _); [|done].
  destruct (String.eqb _ _); [done|].
  destruct (isReadOnly _ _); [done|].
  by destruct (at_index _ _).
Qed.

Lemma reconcile_keeps_schedule (props : PropsManager.EditorManagerProps) m :
  let m' := fst (PropsManager.reconcile props m) in
  PropsManager.timer m' = PropsManager.timer m /\
  PropsManager.mounted m' = PropsManager.mounted m /\
  PropsManager.scheduleMove m' = PropsManager.scheduleMove m /\
  keyDowns (snd (PropsManager.reconcile props m)) = [].
Proof.
  assert (forall m0,
    let r := PropsManager.stopEditing props
               (Some {| PropsManager.save := Some false;
                        PropsManager.keyPress := None |}) m0 in
    PropsManager.timer (fst r) = PropsManager.timer m0 /\
    PropsManager.mounted (fst r) = PropsManager.mounted m0 /\
    PropsManager.scheduleMove (fst r) = PropsManager.scheduleMove m0 /\
    keyDowns (snd r) = []) as Hstop.
  { intros m0. unfold PropsManager.stopEditing.
    by destruct (PropsManager.state m0). }
  unfold PropsManager.reconcile.
  destruct (PropsManager.editorNode m); [|done].
  destruct (PropsManager.state m) eqn:Hs; [|done].
  destruct (at_index _ _); [|by apply Hstop].
  destruct (PropsManager.getColumnAt _ _); [|by apply Hstop].
  destruct (Js.strict_eq _ _); [by apply Hstop|done].
Qed.

Lemma scheduledBy_snoc m0 actions a key :
  scheduledBy m0 actions key -> scheduledBy m0 (actions ++ [a]) key.
Proof.
  intros (before & props & params & after & -> & Hkey & Hs & Hr & Hn & _).
  exists before, props, params, (after ++ [a]).
  split; [by rewrite <- app_assoc|]. split; [done|]. cbn zeta.
  repeat (split; [done|]).
  replace (((before ++ PropsManager.CallStopEditing props params :: after) ++ [a])
             ++ [PropsManager.TimerFires])
    with ((before ++ [PropsManager.CallStopEditing props params]) ++
          ((after ++ [a]) ++ [PropsManager.TimerFires]))
    by (by rewrite <- !app_assoc).
  by rewrite run_app.
Qed.

(** What is pending, as a timeout or as a truthy [scheduleMove], was
    scheduled by a [stopEditing] call of the run. *)
Lemma pending_was_scheduled m0 actions :
  PropsManager.timer m0 = None ->
  truthyKey (PropsManager.scheduleMove m0) = None ->
  let m := fst (run actions m0) in
  (forall key, PropsManager.timer m = Some key -> scheduledBy m0 actions key) /\
  (forall key, truthyKey (PropsManager.scheduleMove m) = Some key ->
               scheduledBy m0 actions key).
Proof.
  intros Htimer Hmove. induction actions as [|a actions IH] using rev_ind.
  - cbn. split; intros key Hkey; congruence.
  - cbn zeta in *. rewrite run_snoc. cbn [fst].
    destruct IH as [IHtimer IHmove].
    set (m := fst (run actions m0)) in *.
    assert (forall m',
              PropsManager.timer m' = PropsManager.timer m ->
              PropsManager.scheduleMove m' = PropsManager.scheduleMove m ->
              (forall key, PropsManager.timer m' = Some key ->
                           scheduledBy m0 (actions ++ [a]) key) /\
              (forall key, truthyKey (PropsManager.scheduleMove m') = Some key ->
                           scheduledBy m0 (actions ++ [a]) key)) as Hframe.
    { intros m' -> ->. split; intros key Hkey; apply scheduledBy_snoc; auto. }
    destruct a as [props params | props params | ref | props | | |];
      cbn [PropsManager.step fst].
    + destruct (beginEditing_keeps_schedule props params m) as (? & _ & ? & _).
      by apply Hframe.
    + destruct (stopEditing_schedules props params m)
        as (Ht & _ & _ & [Hsame | (key & Hkey & Hset & Hs & Hr & Hn)]).
      { by apply Hframe. }
      split.
      * intros key' Hkey'. rewrite Ht in Hkey'. apply scheduledBy_snoc; auto.
      * intros key' Hkey'. rewrite Hset in Hkey'.
        assert (key' = key) as ->.
        { unfold truthyKey in Hkey'.
          destruct (String.eqb key ""); congruence. }
        exists actions, props, params, []. split; [done|]. split; [done|].
        cbn zeta. rewrite run_snoc. cbn [fst PropsManager.step]. fold m.
        repeat (split; [done|]).
        rewrite run_app. cbn [snd]. rewrite run_snoc. cbn [fst PropsManager.step].
        by fold m.
    + destruct (onRefMount_keeps_schedule ref m) as (? & _ & ? & _).
      by apply Hframe.
    + destruct (reconcile_keeps_schedule props m) as (? & _ & ? & _).
      by apply Hframe.
    + unfold PropsManager.scheduleEffect.
      destruct (negb (PropsManager.mounted m)); [by apply Hframe|].
      destruct (decide _); [by apply Hframe|]. cbn.
      split; intros key Hkey; apply scheduledBy_snoc; auto.
    + unfold PropsManager.timerFires.
      destruct (PropsManager.timer m) eqn:Hpending; cbn [fst]; [|by apply Hframe].
      cbn. split; intros key Hkey; congruence.
    + cbn. split; intros key Hkey; [congruence|]. apply scheduledBy_snoc; auto.
Qed.

(** Once the hook is torn down no timeout is pending, and none ever is
    again. *)
Lemma unmounted_stays_quiet actions m :
  PropsManager.mounted m = false ->
  PropsManager.timer m = None ->
  keyDowns (snd (run actions m)) = [] /\
  PropsManager.timer (fst (run actions m)) = None.
Proof.
  revert m. induction actions as [|a actions IH]; intros m Hm Ht; [done|].
  cbn [PropsManager.run].
  destruct (step a m) as [m1 e1] eqn:Hstep.
  assert (PropsManager.mounted m1 = false /\ PropsManager.timer m1 = None /\
          keyDowns e1 = []) as (Hm1 & Ht1 & He1).
  { destruct a as [props params | props params | ref | props | | |];
      cbn [PropsManager.step] in Hstep.
    - destruct (beginEditing_keeps_schedule props params m) as (? & ? & _ & ?).
      rewrite Hstep in *. cbn [fst snd] in *. repeat split; congruence.
    - destruct (stopEditing_schedules props params m) as (? & ? & _).
      pose proof (stopEditing_no_keyDown props params m).
      rewrite Hstep in *. cbn [fst snd] in *. repeat split; congruence.
    - destruct (onRefMount_keeps_schedule ref m) as (? & ? & _ & _ & ?).
      rewrite Hstep in *. cbn [fst snd] in *. repeat split; congruence.
    - destruct (reconcile_keeps_schedule props m) as (? & ? & _ & ?).
      rewrite Hstep in *. cbn [fst snd] in *. repeat split; congruence.
    - injection Hstep as <- <-. unfold PropsManager.scheduleEffect.
      by rewrite Hm.
    - unfold PropsManager.timerFires in Hstep. rewrite Ht in Hstep.
      by injection Hstep as <- <-.
    - by injection Hstep as <- <-. }
  destruct (IH m1 Hm1 Ht1) as [IHk IHt].
  destruct (run actions m1) as [m2 e2]. cbn [fst snd] in *.
  by rewrite keyDowns_app, He1, IHk.
Qed.

Lemma beginEditing_keeps_effect_key (props : PropsManager.EditorManagerProps)
    (params : BeginEditingParams) m :
  PropsManager.scheduleEffectKey
    (fst (PropsManager.beginEditing ROW_SELECTION_HEADER_ID props params m))
  = PropsManager.scheduleEffectKey m.
Proof.
  unfold PropsManager.beginEditing.
  destruct (sameCoords _ _); [done|].
  destruct (PropsManager.getColumnAt _ _); [|done].
  destruct (String.eqb _ _); [done|].
  destruct (isReadOnly _ _); [done|].
  by destruct (at_index _ _).
Qed.

Lemma reconcile_keeps_effect_key (props : PropsManager.EditorManagerProps) m :
  PropsManager.scheduleEffectKey (fst (PropsManager.reconcile props m))
  = PropsManager.scheduleEffectKey m.
Proof.
  unfold PropsManager.reconcile.
  destruct (PropsManager.editorNode m); [|done].
  destruct (PropsManager.state m) eqn:Hs; [|done].
  destruct (at_index _ _);
    [|by destruct (stopEditing_schedules props
                     (Some {| PropsManager.save := Some false;
                              PropsManager.keyPress := None |}) m) as (_ & _ & ? & _)].
  destruct (PropsManager.getColumnAt _ _);
    [|by destruct (stopEditing_schedules props
                     (Some {| PropsManager.save := Some false;
                              PropsManager.keyPress := None |}) m) as (_ & _ & ? & _)].
  destruct (Js.strict_eq _ _); [|done].
  by destruct (stopEditing_schedules props
                 (Some {| PropsManager.save := Some false;
                          PropsManager.keyPress := None |}) m) as (_ & _ & ? & _).
Qed.

(** A pending timeout belongs to a mounted hook, and dispatches the key its
    effect last ran with. *)
Lemma pending_timer_of_effect m0 actions key :
  PropsManager.timer m0 = None ->
  PropsManager.timer (fst (run actions m0)) = Some key ->
  PropsManager.mounted (fst (run actions m0)) = true /\
  PropsManager.scheduleEffectKey (fst (run actions m0)) = Some key.
Proof.
  intros Htimer. revert key.
  induction actions as [|a actions IH] using rev_ind; intros key.
  - cbn. congruence.
  - rewrite run_snoc. cbn [fst]. set (m := fst (run actions m0)) in *.
    destruct a as [props params | props params | ref | props | | |];
      cbn [PropsManager.step fst].
    + destruct (beginEditing_keeps_schedule props params m) as (-> & -> & _).
      rewrite beginEditing_keeps_effect_key. apply IH.
    + destruct (stopEditing_schedules props params m) as (-> & -> & -> & _).
      apply IH.
    + destruct (onRefMount_keeps_schedule ref m) as (-> & -> & _ & -> & _).
      apply IH.
    + destruct (reconcile_keeps_schedule props m) as (-> & -> & _).
      rewrite reconcile_keeps_effect_key. apply IH.
    + unfold PropsManager.scheduleEffect.
      destruct (negb (PropsManager.mounted m)) eqn:Hm; [apply IH|].
      apply negb_false_iff in Hm.
      destruct (decide _); [apply IH|]. cbn. intros Hkey. split; [done|].
      unfold truthyKey in Hkey. destruct (PropsManager.scheduleMove m) as [k|]; [|done].
      destruct (String.eqb k ""); congruence.
    + unfold PropsManager.timerFires.
      destruct (PropsManager.timer m) eqn:Hpending; cbn [fst];
        [cbn; congruence | intros ?; congruence].
    + cbn. congruence.
Qed.


(** The props-driven hook has no notifications: its [stopEditing] dispatches
    no event through a grid API. *)
Lemma propsManager_stopEditing_dispatches_nothing
    (props : PropsManager.EditorManagerProps)
    (params : option PropsManager.StopEditingParams) m (name : EventName) :
  dispatched name (snd (PropsManager.stopEditing props params m)) = [].
Proof.
  unfold PropsManager.stopEditing.
  destruct (PropsManager.state m); [|done].
  destruct (wantsSave _).
  - destruct (callGetValue _); [|done].
    destruct (Js.strict_eq _ _); [done|].
    destruct (negb (from_option _ _ _)); [done|].
    destruct (truthyKey _); cbn [snd]; rewrite ?dispatched_app;
      destruct (negb (Js.loose_eq _ _));
      rewrite ?callOnCellChange_dispatches_nothing; done.
  - by destruct (truthyKey _).
Qed.

End PropsManagerProperties.


(** The effects of that run, in order. *)
Example editThenMove_effects :
  snd (PropsManager.run Fixture.ROW_SELECTION_HEADER_ID
         (Fixture.editThenMove ++ [PropsManager.TimerFires]) PropsManager.initial)
  = [ CellChange {| coords := {| rowIndex := 3; colIndex := 1 |};
                    previousValue := Js.String "7";
                    newValue := Js.String "8" |};
      ConsoleWarn KeyPressedToNavigate;
      ConsoleLog "ArrowDown";
      KeyDown "ArrowDown" ].
Proof. vm_compute. reflexivity. Qed.

(** * Properties of the navigation state *)

Lemma isIndexOutOfBoundaries_spec (index min max : Z) :
  isIndexOutOfBoundaries index min max = true <-> index < min \/ index > max.
Proof. unfold isIndexOutOfBoundaries. rewrite orb_true_iff. lia. Qed.

Section NavigationProperties.

Variable regions : list Navigation.MergeRegion.
Variable bounds : Navigation.Bounds.

Lemma outside_false (c : NavigationCoords) :
  Navigation.outside bounds c = false <-> Navigation.inside bounds c.
Proof.
  unfold Navigation.outside, Navigation.inside, isIndexOutOfBoundaries.
  rewrite !orb_false_iff. lia.
Qed.

Lemma outside_true (c : NavigationCoords) :
  Navigation.outside bounds c = true <-> ~ Navigation.inside bounds c.
Proof.
  rewrite <- outside_false. destruct (Navigation.outside bounds c); split; congruence.
Qed.

(** A rejected target leaves the state as it is. *)
Lemma moveTo_rejects (target current : NavigationCoords) :
  ~ Navigation.inside bounds target ->
  Navigation.moveTo regions target bounds current = current.
Proof.
  intros Hout. unfold Navigation.moveTo.
  by apply outside_true in Hout as ->.
Qed.

(** The merge regions lie in the grid. *)
Hypothesis anchors_inside :
  Forall (fun r => Navigation.inside bounds (Navigation.anchor r)) regions.

Lemma resolveAnchor_inside (c : NavigationCoords) :
  Navigation.inside bounds c ->
  Navigation.inside bounds (Navigation.resolveAnchor regions c).
Proof.
  intros Hc. unfold Navigation.resolveAnchor.
  destruct (List.find _ regions) as [r|] eqn:Hfind; [|done].
  apply List.find_some in Hfind as [Hin _].
  rewrite Forall_forall in anchors_inside.
  apply anchors_inside. by apply list_elem_of_In.
Qed.

Lemma moveTo_inside (target current : NavigationCoords) :
  Navigation.inside bounds current ->
  Navigation.inside bounds (Navigation.moveTo regions target bounds current).
Proof.
  intros Hcur. unfold Navigation.moveTo.
  destruct (Navigation.outside bounds target) eqn:Hout; [done|].
  apply resolveAnchor_inside. by apply outside_false.
Qed.

Lemma execute_inside (c : Navigation.Command) (current : NavigationCoords) :
  Navigation.inside bounds current ->
  Navigation.inside bounds (Navigation.execute regions bounds current c).
Proof. destruct c; apply moveTo_inside. Qed.


End NavigationProperties.



(** The spec's scenario: (0,0) merged with (0,1) under the anchor (0,0);
    moving to (0,1) lands on (0,0). *)
Example moveTo_merged_cell :
  Navigation.moveTo Fixture.merged {| rowIndex := 0; colIndex := 1 |}
    Fixture.gridBounds {| rowIndex := 3; colIndex := 2 |}
  = {| rowIndex := 0; colIndex := 0 |}.
Proof. vm_compute. reflexivity. Qed.

Example moves_end :
  Navigation.executeAll Fixture.merged Fixture.gridBounds Fixture.moves
    {| rowIndex := 1; colIndex := 1 |}
  = {| rowIndex := 0; colIndex := 0 |}.
Proof. vm_compute. reflexivity. Qed.

(** * Runs on the small grid *)

(** The cell holds the number [5] and the editor returns the string ["5"]:
    strictly different, loosely equal, and nothing but the stop notification
    leaves the manager. *)
Example number_read_back_as_string :
  Js.strict_eq (Js.String "5") (Js.int 5) = false /\
  Js.loose_eq (Js.String "5") (Js.int 5) = true /\
  ApiManager.stopEditing Fixture.props None
    (Fixture.editing 0 1 None (Js.String "5"))
  = (ApiManager.idle,
     [DispatchEvent CELL_STOP_EDITING {| rowIndex := 0; colIndex := 1 |}]).
Proof. vm_compute. auto. Qed.

(** The cell holds the number [0] and the key ["9"] is typed: the editor is
    handed ["9"], and the session keeps [0] as its initial value. *)
Example zero_cell_with_default_key :
  ApiManager.state
    (fst (ApiManager.beginEditing Fixture.ROW_SELECTION_HEADER_ID Fixture.props
            (Fixture.at_cell 1 1 (Some "9")) ApiManager.idle))
  = Some {| IEditorState.node :=
              createElement NumericEditor
                {| EditorProps.anchorRef := "cell";
                   EditorProps.value := Js.String "9";
                   EditorProps.maxLength := Js.int 500;
                   EditorProps.validatorHook := None |};
            IEditorState.rowIndex := 1;
            IEditorState.colIndex := 1;
            IEditorState.initialValue := Js.int 0;
            IEditorState.targetElement := "cell";
            IEditorState.validatorHook := None;
            IEditorState.isPopup := false |}.
Proof. vm_compute. reflexivity. Qed.

(** A truthy cell value is followed by the key: the number [5] and ["9"]
    give ["59"]. *)
Example number_cell_with_default_key :
  bufferedValue (Js.int 5) (Some "9") = Js.String "59".
Proof. vm_compute. reflexivity. Qed.

(** A column with its own editor: the node is the factory's element. *)
Example picker_column_editor :
  ApiManager.editorNode
    (fst (ApiManager.beginEditing Fixture.ROW_SELECTION_HEADER_ID Fixture.pickerProps
            (Fixture.at_cell 0 0 None) ApiManager.idle))
  = Some (customElement "ColourPicker").
Proof. vm_compute. reflexivity. Qed.

(** * The two managers side by side *)

(** Both hooks close a session the same way and report the same changes;
    the API-driven one adds the stop notification, the props-driven one the
    key press it schedules. *)
Lemma variants_stopEditing (props : PropsManager.EditorManagerProps)
    (params : option PropsManager.StopEditingParams) (m : PropsManager.Manager) :
  refsOf (fst (PropsManager.stopEditing props params m))
  = fst (ApiManager.stopEditing (servedBy props) (saveOnly <$> params) (refsOf m)) /\
  cellChanges (snd (PropsManager.stopEditing props params m))
  = cellChanges (snd (ApiManager.stopEditing (servedBy props) (saveOnly <$> params)
                        (refsOf m))).
Proof.
  unfold PropsManager.stopEditing, ApiManager.stopEditing.
  cbn [refsOf ApiManager.state ApiManager.editorRef servedBy ApiManager.onCellChange].
  destruct (PropsManager.state m) as [s|]; [|done].
  assert (ApiManager.save <$> (saveOnly <$> params) = PropsManager.save <$> params)
    as -> by (by destruct params).
  destruct (wantsSave _).
  - destruct (callGetValue _); [|done].
    destruct (Js.strict_eq _ _); [done|].
    destruct (negb (from_option _ _ _)); [done|].
    destruct (truthyKey _); cbn [fst snd]; (split; [reflexivity|]);
      rewrite !cellChanges_app; unfold ApiManager.stopNotification;
      cbn [cellChanges]; by rewrite ?app_nil_r.
  - destruct (truthyKey _); split; reflexivity.
Qed.

(** Both reconcilers decide alike. *)
Lemma variants_reconcile (props : PropsManager.EditorManagerProps)
    (m : PropsManager.Manager) :
  refsOf (fst (PropsManager.reconcile props m))
  = fst (ApiManager.reconcile (servedBy props) (refsOf m)) /\
  cellChanges (snd (PropsManager.reconcile props m))
  = cellChanges (snd (ApiManager.reconcile (servedBy props) (refsOf m))).
Proof.
  pose proof (variants_stopEditing props
                (Some {| PropsManager.save := Some false;
                         PropsManager.keyPress := None |}) m) as Hstop.
  unfold PropsManager.reconcile, ApiManager.reconcile.
  cbn [refsOf ApiManager.state ApiManager.editorNode servedBy
       ApiManager.getRows ApiManager.getColumnAt].
  destruct (PropsManager.editorNode m); [|done].
  destruct (PropsManager.state m); [|done].
  destruct (at_index _ _); [|exact Hstop].
  destruct (PropsManager.getColumnAt _ _); [|exact Hstop].
  destruct (Js.strict_eq _ _); [exact Hstop|done].
Qed.

(** X19: in the props-driven hook the reconciler effect depends on [rows]
    as well: when the hook is rendered again with another [rows] array or
    another [getColumnAt] function, and the row of the active session is
    absent, or its column is absent, or the column's accessor yields
    [undefined] on the row, the session is closed without saving (refs and
    node are cleared, nothing is reported or logged); when the accessor
    yields anything but [undefined], and when neither [rows] nor
    [getColumnAt] is another object, the manager is left as it is. *)
Theorem propsManager_rerender_invalidates_session
    (previous next : PropsManager.Render) (m : PropsManager.Manager)
    (s : IEditorState.t) :
  PropsManager.state m = Some s ->
  PropsManager.editorNode m = Some (IEditorState.node s) ->
  let row :=
    at_index (PropsManager.rows (PropsManager.rendered next))
             (IEditorState.rowIndex s) in
  let column :=
    PropsManager.getColumnAt (PropsManager.rendered next) (IEditorState.colIndex s) in
  (PropsManager.rowsKey previous <> PropsManager.rowsKey next \/
   PropsManager.getColumnAtKey previous <> PropsManager.getColumnAtKey next ->
   (row = None \/ column = None \/
    (exists target c, row = Some target /\ column = Some c /\
                      prop target (Header.accessor c) = Js.Undefined) ->
    PropsManager.rerender previous next m = (PropsManager.clearSession m, [])) /\
   (forall target c,
       row = Some target -> column = Some c ->
       prop target (Header.accessor c) <> Js.Undefined ->
       PropsManager.rerender previous next m = (m, []))) /\
  (PropsManager.rowsKey previous = PropsManager.rowsKey next ->
   PropsManager.getColumnAtKey previous = PropsManager.getColumnAtKey next ->
   PropsManager.rerender previous next m = (m, [])).
Proof.
  intros Hs Hnode row column. split.
  - intros Hchanged.
    assert (PropsManager.rerender previous next m
            = PropsManager.reconcile (PropsManager.rendered next) m) as ->.
    { unfold PropsManager.rerender, PropsManager.reconcilerDependenciesChanged.
      destruct (Nat.eqb_spec (PropsManager.rowsKey previous)
                             (PropsManager.rowsKey next));
        destruct (Nat.eqb_spec (PropsManager.getColumnAtKey previous)
                               (PropsManager.getColumnAtKey next));
        try reflexivity.
      destruct Hchanged; contradiction. }
    assert (PropsManager.stopEditing (PropsManager.rendered next)
              (Some {| PropsManager.save := Some false;
                       PropsManager.keyPress := None |}) m
            = (PropsManager.clearSession m, [])) as Hstop.
    { unfold PropsManager.stopEditing. by rewrite Hs. }
    unfold PropsManager.reconcile. rewrite Hnode, Hs. fold row column. split.
    + intros [Hrow | [Hcol | (target & c & Hrow & Hcol & Hundef)]].
      * by rewrite Hrow.
      * rewrite Hcol. by destruct row.
      * by rewrite Hrow, Hcol, Hundef.
    + intros target c Hrow Hcol Hdefined. rewrite Hrow, Hcol.
      destruct (Js.strict_eq _ _) eqn:Heq; [|reflexivity].
      apply strict_eq_undefined in Heq. contradiction.
  - intros Hrows HgetColumnAt.
    unfold PropsManager.rerender, PropsManager.reconcilerDependenciesChanged.
    by rewrite Hrows, HgetColumnAt, !Nat.eqb_refl.
Qed.

(** The theorem at work: the quantity of row 3 is being edited when the host
    passes an empty array as the rows. *)
Lemma propsManager_rerender_invalidates_session_witness :
  let editing :=
    fst (PropsManager.run Fixture.ROW_SELECTION_HEADER_ID
           [ PropsManager.CallBeginEditing Fixture.propsOfHost (Fixture.at_cell 3 1 None);
             PropsManager.RefMount (Some {| getValue := Some (Js.String "8") |}) ]
           PropsManager.initial) in
  PropsManager.rerender Fixture.hostRenderedWithRows Fixture.hostRenderedWithoutRows
    editing
  = (PropsManager.clearSession editing, []).
Proof.
  refine (proj1 (proj1 (propsManager_rerender_invalidates_session
                          Fixture.hostRenderedWithRows Fixture.hostRenderedWithoutRows
                          (fst (PropsManager.run Fixture.ROW_SELECTION_HEADER_ID
                                  [ PropsManager.CallBeginEditing Fixture.propsOfHost
                                      (Fixture.at_cell 3 1 None);
                                    PropsManager.RefMount
                                      (Some {| getValue := Some (Js.String "8") |}) ]
                                  PropsManager.initial))
                          _ eq_refl eq_refl) _) _).
  - left. discriminate.
  - left. reflexivity.
Defined.

(** Both hooks accept and reject the same calls of [beginEditing], and
    select the same editor at the same coordinate; their sessions differ in
    the initial value only, which is the value handed to the editor in the
    props-driven hook; the API-driven hook adds the begin notification to
    the warnings both log. *)
Lemma variants_beginEditing (ROW_SELECTION_HEADER_ID : string)
    (props : PropsManager.EditorManagerProps) (params : BeginEditingParams)
    (m : PropsManager.Manager) :
  let ofProps := fst (PropsManager.beginEditing ROW_SELECTION_HEADER_ID props params m) in
  let ofApi :=
    fst (ApiManager.beginEditing ROW_SELECTION_HEADER_ID (servedBy props) params
           (refsOf m)) in
  PropsManager.editorNode ofProps = ApiManager.editorNode ofApi /\
  PropsManager.editorRef ofProps = ApiManager.editorRef ofApi /\
  sessionCoords <$> PropsManager.state ofProps = sessionCoords <$> ApiManager.state ofApi /\
  IEditorState.node <$> PropsManager.state ofProps
    = IEditorState.node <$> ApiManager.state ofApi /\
  (forall column row,
      ApiManager.accepted ROW_SELECTION_HEADER_ID (servedBy props) params (refsOf m)
        column row ->
      IEditorState.initialValue <$> PropsManager.state ofProps
        = Some (bufferedValue (prop row (Header.accessor column)) (defaultKey params))) /\
  IEditorState.targetElement <$> PropsManager.state ofProps
    = IEditorState.targetElement <$> ApiManager.state ofApi /\
  IEditorState.validatorHook <$> PropsManager.state ofProps
    = IEditorState.validatorHook <$> ApiManager.state ofApi /\
  IEditorState.isPopup <$> PropsManager.state ofProps
    = IEditorState.isPopup <$> ApiManager.state ofApi /\
  ((forall column row,
       ~ ApiManager.accepted ROW_SELECTION_HEADER_ID (servedBy props) params (refsOf m)
           column row) ->
   PropsManager.state ofProps = ApiManager.state ofApi /\
   PropsManager.state ofProps = PropsManager.state m) /\
  snd (ApiManager.beginEditing ROW_SELECTION_HEADER_ID (servedBy props) params (refsOf m))
  = snd (PropsManager.beginEditing ROW_SELECTION_HEADER_ID props params m)
    ++ (DispatchEvent CELL_BEGIN_EDITING
          <$> dispatched CELL_BEGIN_EDITING
                (snd (ApiManager.beginEditing ROW_SELECTION_HEADER_ID (servedBy props)
                        params (refsOf m)))).
Proof.
  unfold PropsManager.beginEditing, ApiManager.beginEditing, ApiManager.accepted.
  cbn [refsOf ApiManager.state ApiManager.editorRef ApiManager.editorNode servedBy
       ApiManager.getRows ApiManager.getColumnAt].
  destruct (sameCoords _ _) eqn:Hsame;
    [repeat split; try done; by intros ? ? (? & _)|].
  destruct (PropsManager.getColumnAt _ _) as [column|] eqn:Hcol;
    [|repeat split; try done; by intros ? ? (_ & ? & _)].
  destruct (String.eqb _ _) eqn:Hid;
    [repeat split; try done; intros ? ? (_ & [= <-] & ? & _); congruence|].
  destruct (isReadOnly _ _) eqn:Hro;
    [repeat split; try done; intros ? ? (_ & [= <-] & _ & ? & _); congruence|].
  destruct (at_index _ _) as [row|] eqn:Hrow;
    [|repeat split; try done; by intros ? ? (_ & _ & _ & _ & ?)].
  do 4 (split; [done|]).
  split; [by intros ? ? (_ & [= <-] & _ & _ & [= <-])|].
  do 3 (split; [done|]).
  split; [|done].
  intros Hnone. by destruct (Hnone column row).
Qed.

(** In the props-driven hook the session's initial value is the value handed
    to the editor, so the spec's scenario reports ["9"] as the previous
    value there. *)
Example propsManager_scenario :
  cellChanges
    (snd (PropsManager.run Fixture.ROW_SELECTION_HEADER_ID
            [ PropsManager.CallBeginEditing Fixture.propsOfHost
                (Fixture.at_cell 2 1 (Some "9"));
              PropsManager.RefMount (Some {| getValue := Some (Js.String "9x") |});
              PropsManager.CallStopEditing Fixture.propsOfHost
                (Some {| PropsManager.save := Some true;
                         PropsManager.keyPress := None |}) ]
            PropsManager.initial))
  = [{| coords := {| rowIndex := 2; colIndex := 1 |};
        previousValue := Js.String "9";
        newValue := Js.String "9x" |}].
Proof. vm_compute. reflexivity. Qed.

(** A key press given without [save] closes the editor without saving:
    [params.save] is then [undefined]. *)
Example propsManager_keyPress_without_save :
  snd (PropsManager.run Fixture.ROW_SELECTION_HEADER_ID
         [ PropsManager.CallBeginEditing Fixture.propsOfHost (Fixture.at_cell 3 1 None);
           PropsManager.RefMount (Some {| getValue := Some (Js.String "8") |});
           PropsManager.CallStopEditing Fixture.propsOfHost
             (Some {| PropsManager.save := None;
                      PropsManager.keyPress := Some "Tab" |}) ]
         PropsManager.initial)
  = [ConsoleWarn KeyPressedToNavigate; ConsoleLog "Tab"].
Proof. vm_compute. reflexivity. Qed.

(** * The keyboard helpers *)

Lemma includes_In (array : list Z) (x : Z) :
  Keyboard.includes array x = true <-> In x array.
Proof.
  unfold Keyboard.includes. rewrite existsb_exists. split.
  - intros (y & Hy & Heq). apply Z.eqb_eq in Heq. by subst.
  - intros Hx. exists x. split; [done | apply Z.eqb_refl].
Qed.

Lemma indexOfFrom_found (array : list Z) (x from : Z) :
  0 <= from ->
  (Keyboard.indexOfFrom array x from = -1 <-> ~ In x array) /\
  (Keyboard.indexOfFrom array x from = -1 \/
   from <= Keyboard.indexOfFrom array x from < from + Z.of_nat (length array)).
Proof.
  revert from. induction array as [|y array IH]; intros from Hfrom; cbn.
  - split; [tauto | by left].
  - destruct (Z.eqb_spec y x) as [-> | Hne].
    + split; [split; [lia | tauto] | right; lia].
    + destruct (IH (from + 1) ltac:(lia)) as [Habsent Hrange].
      split; [rewrite Habsent; tauto | lia].
Qed.

Lemma isMetaKey_In (keyCode : Z) :
  Keyboard.isMetaKey keyCode = true <-> In keyCode Keyboard.metaKeys.
Proof.
  unfold Keyboard.isMetaKey, Keyboard.indexOf.
  destruct (indexOfFrom_found Keyboard.metaKeys keyCode 0 ltac:(lia)) as [Habsent _].
  rewrite negb_true_iff, Z.eqb_neq, Habsent.
  destruct (in_dec Z.eq_dec keyCode Keyboard.metaKeys); tauto.
Qed.

(** X1: no key code is both a printable character and a meta key (arrows,
    Home, End, Delete, Backspace, the function keys, Tab, the page keys,
    Enter, Escape, Shift, Caps Lock, Alt). *)
Theorem printable_keys_are_not_meta_keys (keyCode : Z) :
  Keyboard.isPrintableChar keyCode && Keyboard.isMetaKey keyCode = false.
Proof.
  destruct (Keyboard.isMetaKey keyCode) eqn:Hmeta; [|apply andb_false_r].
  apply isMetaKey_In in Hmeta. unfold Keyboard.metaKeys in Hmeta.
  cbn [In] in Hmeta.
  repeat (destruct Hmeta as [<- | Hmeta]; [reflexivity|]).
  destruct Hmeta.
Qed.

(** X2: the ctrl and cmd key codes are neither printable characters nor
    meta keys. *)
Theorem ctrl_keys_are_neither_printable_nor_meta (keyCode : Z) :
  Keyboard.isCtrlMetaKey keyCode &&
    (Keyboard.isPrintableChar keyCode || Keyboard.isMetaKey keyCode) = false.
Proof.
  destruct (Keyboard.isCtrlMetaKey keyCode) eqn:Hctrl; [|reflexivity].
  apply includes_In in Hctrl. cbn [In] in Hctrl.
  repeat (destruct Hctrl as [<- | Hctrl]; [reflexivity|]).
  destruct Hctrl.
Qed.

(** X3: the platform's ctrl key is Control off the Mac and one of the
    three cmd keys on it: the two platforms never agree on a key, together
    they make up the ctrl and cmd keys of [isCtrlMetaKey], and an undefined
    [navigator] counts as not a Mac. *)
Theorem isCtrlKey_by_platform (mac other : Keyboard.Navigator) (keyCode : Z) :
  Keyboard.stringIncludes (Keyboard.platform mac) "Mac" = true ->
  Keyboard.stringIncludes (Keyboard.platform other) "Mac" = false ->
  Keyboard.isCtrlMetaKey keyCode
    = Keyboard.isCtrlKey (Some mac) keyCode || Keyboard.isCtrlKey (Some other) keyCode /\
  Keyboard.isCtrlKey (Some mac) keyCode && Keyboard.isCtrlKey (Some other) keyCode
    = false /\
  Keyboard.isCtrlKey (Some other) keyCode = (keyCode =? Keyboard.KEY_CODES.CONTROL) /\
  Keyboard.isCtrlKey None keyCode = Keyboard.isCtrlKey (Some other) keyCode.
Proof.
  intros Hmac Hother. unfold Keyboard.isCtrlKey, Keyboard.isCtrlMetaKey.
  cbn [from_option]. rewrite Hmac, Hother.
  unfold Keyboard.includes. cbn [existsb].
  cbv [Keyboard.KEY_CODES.CONTROL Keyboard.KEY_CODES.COMMAND_LEFT
       Keyboard.KEY_CODES.COMMAND_RIGHT Keyboard.KEY_CODES.COMMAND_FIREFOX].
  destruct (Z.eqb_spec keyCode 17), (Z.eqb_spec keyCode 91),
    (Z.eqb_spec keyCode 93), (Z.eqb_spec keyCode 224);
    repeat split; first [reflexivity | lia].
Qed.

(** The theorem at work: a Mac and a Windows machine, and the left cmd key. *)
Lemma isCtrlKey_by_platform_witness :
  Keyboard.isCtrlMetaKey 91
    = Keyboard.isCtrlKey (Some {| Keyboard.platform := "MacIntel" |}) 91 ||
      Keyboard.isCtrlKey (Some {| Keyboard.platform := "Win32" |}) 91.
Proof.
  refine (proj1 (isCtrlKey_by_platform {| Keyboard.platform := "MacIntel" |}
                   {| Keyboard.platform := "Win32" |} 91 _ _)); reflexivity.
Defined.

(** * The grid wrapper *)

(** X4: when the grid reports the rendered section while a cell is edited,
    the editor is closed without saving exactly when the cell's row is out
    of the rendered rows or its column out of the rendered columns, by the
    bounds test of the keyboard helpers; the stop notification is then the
    only effect.  Otherwise nothing happens. *)
Theorem onSectionRendered_closes_outside (props : ApiManager.EditorManagerProps)
    (params : GridWrapper.SectionRenderedParams) (m : ApiManager.Manager)
    (s : IEditorState.t) :
  ApiManager.state m = Some s ->
  GridWrapper.onSectionRendered props params m =
    if isIndexOutOfBoundaries (IEditorState.rowIndex s)
         (GridWrapper.rowStartIndex params) (GridWrapper.rowStopIndex params) ||
       isIndexOutOfBoundaries (IEditorState.colIndex s)
         (GridWrapper.columnStartIndex params) (GridWrapper.columnStopIndex params)
    then (ApiManager.idle, [DispatchEvent CELL_STOP_EDITING (sessionCoords s)])
    else (m, []).
Proof.
  intros Hs. unfold GridWrapper.onSectionRendered, ApiManager.getEditorState.
  rewrite Hs. unfold isIndexOutOfBoundaries.
  rewrite (stopEditing_without_saving props m s Hs).
  destruct (_ || _); [reflexivity|]. cbn [orb].
  by destruct (_ || _).
Qed.

Lemma isCellRowActive_elem (path : list NavigationCoords) (cell : NavigationCoords) :
  GridWrapper.isCellRowActive path cell = true <-> cell ∈ path.
Proof.
  unfold GridWrapper.isCellRowActive. rewrite existsb_exists. split.
  - intros (e & He & Heq). apply andb_true_iff in Heq as [Hr Hc].
    apply Z.eqb_eq in Hr, Hc. destruct e, cell; cbn in *; subst.
    by apply list_elem_of_In.
  - intros Hin. exists cell. split; [by apply list_elem_of_In|].
    by rewrite !Z.eqb_refl.
Qed.

Lemma temporaryRowCoordinates_elem {A : Type} (columns : list A) (rowIndex0 : Z)
    (cell : NavigationCoords) :
  cell ∈ GridWrapper.temporaryRowCoordinates columns rowIndex0 <->
  rowIndex cell = rowIndex0 /\ 0 <= colIndex cell < Z.of_nat (length columns).
Proof.
  unfold GridWrapper.temporaryRowCoordinates. rewrite elem_of_lookup_imap. split.
  - intros (i & x & -> & Hx). apply lookup_lt_Some in Hx. cbn. lia.
  - intros [Hr Hc]. destruct (lookup_lt_is_Some_2 columns (Z.to_nat (colIndex cell)))
      as [x Hx]; [lia|].
    exists (Z.to_nat (colIndex cell)), x. split; [|done].
    destruct cell; cbn in *. f_equal; lia.
Qed.

(** What [pushRowPath] makes of a list of cells: one entry or one warning
    per cell, and the path holds the unmerged cells and the parents of the
    merged ones. *)
Lemma pushRowPath_path (isMerged : option (NavigationCoords -> bool))
    (getMergeParentCoords : NavigationCoords -> option NavigationCoords)
    (temporary : list NavigationCoords) :
  let merged e := from_option (fun f => f e) false isMerged in
  let result := GridWrapper.pushRowPath isMerged getMergeParentCoords temporary in
  (length (fst result) + length (snd result) = length temporary)%nat /\
  (forall cell,
      cell ∈ fst result <->
      exists e, e ∈ temporary /\
                if merged e then getMergeParentCoords e = Some cell else cell = e) /\
  (forall e,
      GridWrapper.ParentNotFound e ∈ snd result <->
      e ∈ temporary /\ merged e = true /\ getMergeParentCoords e = None).
Proof.
  intros merged. induction temporary as [|e temporary IH]; cbn zeta.
  - cbn. split; [done|]. split.
    + intros cell. split; [by intros ?%elem_of_nil|].
      by intros (e & ?%elem_of_nil & _).
    + intros e. split; [by intros ?%elem_of_nil | by intros [?%elem_of_nil _]].
  - cbn [GridWrapper.pushRowPath].
    destruct (GridWrapper.pushRowPath isMerged getMergeParentCoords temporary)
      as [coordinates warnings].
    cbn [fst snd] in IH. destruct IH as (IHlen & IHpath & IHwarn).
    fold (merged e).
    destruct (merged e) eqn:Hmerged;
      [destruct (getMergeParentCoords e) as [parent|] eqn:Hparent|];
      cbn [fst snd length]; (split; [lia|]); split.
    + intros cell. rewrite elem_of_cons, IHpath. split.
      * intros [-> | (e' & He' & Hcell)].
        -- exists e. rewrite Hmerged. split; [left|done].
        -- exists e'. split; [by right|done].
      * intros (e' & [-> | He']%elem_of_cons & Hcell).
        -- rewrite Hmerged, Hparent in Hcell. left. congruence.
        -- right. by exists e'.
    + intros e'. rewrite IHwarn, elem_of_cons. split; [tauto|].
      intros ([-> | ?] & ? & ?); [congruence | tauto].
    + intros cell. rewrite IHpath. split.
      * intros (e' & He' & Hcell). exists e'. split; [by right|done].
      * intros (e' & [-> | He']%elem_of_cons & Hcell).
        -- rewrite Hmerged, Hparent in Hcell. done.
        -- by exists e'.
    + intros e'. rewrite !elem_of_cons, IHwarn. split.
      * intros [[= ->] | (? & ? & ?)]; tauto.
      * intros ([-> | ?] & ? & ?); [by left | right; tauto].
    + intros cell. rewrite elem_of_cons, IHpath. split.
      * intros [-> | (e' & He' & Hcell)].
        -- exists e. rewrite Hmerged. split; [left|done].
        -- exists e'. split; [by right|done].
      * intros (e' & [-> | He']%elem_of_cons & Hcell).
        -- rewrite Hmerged in Hcell. by left.
        -- right. by exists e'.
    + intros e'. rewrite IHwarn, elem_of_cons. split; [tauto|].
      intros ([-> | ?] & ? & ?); [congruence | tauto].
Qed.

(** X5: the active row path has one entry or one warning per column; a cell
    is on it exactly when it is an unmerged cell of the focused row, or the
    merge parent of a merged cell of the focused row (on whatever row the
    parent is); the warnings are the merged cells of the row without a
    parent. *)
Theorem activeRowPath_cells {A : Type} (columns : list A) (coords : NavigationCoords)
    (isMerged : option (NavigationCoords -> bool))
    (getMergeParentCoords : NavigationCoords -> option NavigationCoords) :
  let merged e := from_option (fun f => f e) false isMerged in
  let result :=
    GridWrapper.activeRowPathCoordinates columns coords isMerged getMergeParentCoords in
  let onRow e :=
    rowIndex e = rowIndex coords /\ 0 <= colIndex e < Z.of_nat (length columns) in
  (length (fst result) + length (snd result) = length columns)%nat /\
  (forall cell,
      GridWrapper.isCellRowActive (fst result) cell = true <->
      exists e, onRow e /\
                if merged e then getMergeParentCoords e = Some cell else cell = e) /\
  (forall e,
      GridWrapper.ParentNotFound e ∈ snd result <->
      onRow e /\ merged e = true /\ getMergeParentCoords e = None).
Proof.
  intros merged result onRow. subst result.
  unfold GridWrapper.activeRowPathCoordinates.
  destruct (pushRowPath_path isMerged getMergeParentCoords
              (GridWrapper.temporaryRowCoordinates columns (rowIndex coords)))
    as (Hlen & Hpath & Hwarn).
  split; [|split].
  - rewrite Hlen. unfold GridWrapper.temporaryRowCoordinates. apply length_imap.
  - intros cell. rewrite isCellRowActive_elem, Hpath.
    split; intros (e & He & Hcell); exists e; (split; [|done]);
      by apply temporaryRowCoordinates_elem.
  - intros e. rewrite Hwarn, temporaryRowCoordinates_elem. done.
Qed.

(** X6: with no merge predicate, or with no cell of the grid merged, the
    active row path is the focused row itself, without warnings: a cell is
    active exactly when it is on the focused row, in one of the columns. *)
Theorem activeRowPath_without_merges {A : Type} (columns : list A)
    (coords : NavigationCoords)
    (isMerged : option (NavigationCoords -> bool))
    (getMergeParentCoords : NavigationCoords -> option NavigationCoords) :
  (forall e, from_option (fun f => f e) false isMerged = false) ->
  GridWrapper.activeRowPathCoordinates columns coords isMerged getMergeParentCoords
    = (GridWrapper.temporaryRowCoordinates columns (rowIndex coords), []) /\
  forall cell,
    GridWrapper.isCellRowActive
      (fst (GridWrapper.activeRowPathCoordinates columns coords isMerged
              getMergeParentCoords)) cell = true <->
    rowIndex cell = rowIndex coords /\
    0 <= colIndex cell < Z.of_nat (length columns).
Proof.
  intros Hnone.
  assert (forall temporary,
            GridWrapper.pushRowPath isMerged getMergeParentCoords temporary
            = (temporary, [])) as Hsame.
  { induction temporary as [|e temporary IH]; [done|].
    cbn [GridWrapper.pushRowPath]. by rewrite IH, Hnone. }
  unfold GridWrapper.activeRowPathCoordinates. rewrite Hsame. split; [done|].
  intros cell. cbn [fst]. rewrite isCellRowActive_elem.
  apply temporaryRowCoordinates_elem.
Qed.

(** The theorem at work: three columns, the focus on row 2, no merges. *)
Lemma activeRowPath_without_merges_witness :
  GridWrapper.activeRowPathCoordinates Fixture.columns
    {| rowIndex := 2; colIndex := 1 |} None (fun _ => None)
  = ([ {| rowIndex := 2; colIndex := 0 |}; {| rowIndex := 2; colIndex := 1 |};
       {| rowIndex := 2; colIndex := 2 |} ], []).
Proof.
  refine (proj1 (activeRowPath_without_merges Fixture.columns
                   {| rowIndex := 2; colIndex := 1 |} None (fun _ => None) _)).
  reflexivity.
Defined.

(** The theorem at work: the editor at row 3 while rows 0 to 2 are rendered. *)
Lemma onSectionRendered_closes_outside_witness :
  GridWrapper.onSectionRendered Fixture.props
    {| GridWrapper.rowStartIndex := 0; GridWrapper.rowStopIndex := 2;
       GridWrapper.columnStartIndex := 0; GridWrapper.columnStopIndex := 2 |}
    (Fixture.editing 3 1 None (Js.String "8"))
  = (ApiManager.idle,
     [DispatchEvent CELL_STOP_EDITING {| rowIndex := 3; colIndex := 1 |}]).
Proof.
  refine (onSectionRendered_closes_outside Fixture.props _
            (Fixture.editing 3 1 None (Js.String "8")) _ eq_refl).
Defined.

(** * Runs of the API-driven manager *)

(** A call leaves no session, unless it throws; it then leaves the manager
    as it was. *)
Lemma stopEditing_leaves_no_session (props : ApiManager.EditorManagerProps)
    (params : option ApiManager.StopEditingParams) (m : ApiManager.Manager) :
  ApiManager.state (fst (ApiManager.stopEditing props params m)) = None \/
  ApiManager.stopEditing props params m = (m, [Throw getValueIsNotAFunction]).
Proof.
  unfold ApiManager.stopEditing.
  destruct (ApiManager.state m) as [s|] eqn:Hs; [|by left].
  destruct (wantsSave _); [|by left].
  destruct (callGetValue _); [|by right].
  destruct (Js.strict_eq _ _); [by left|].
  destruct (negb (from_option _ _ _)); by left.
Qed.

Lemma onSectionRendered_consistent (props : ApiManager.EditorManagerProps)
    (params : GridWrapper.SectionRenderedParams) (m : ApiManager.Manager) :
  ApiManager.consistent m ->
  ApiManager.consistent (fst (GridWrapper.onSectionRendered props params m)).
Proof.
  intros Hm. unfold GridWrapper.onSectionRendered.
  destruct (ApiManager.getEditorState m); [|done].
  destruct (_ || _); [by apply stopEditing_consistent|].
  destruct (_ || _); [by apply stopEditing_consistent|done].
Qed.

Section ApiTraceProperties.

Variable ROW_SELECTION_HEADER_ID : string.

Local Abbreviation run := (ApiTrace.run ROW_SELECTION_HEADER_ID).
Local Abbreviation step := (ApiTrace.step ROW_SELECTION_HEADER_ID).

Lemma apiRun_snoc (actions : list ApiTrace.Action) (a : ApiTrace.Action)
    (m : ApiManager.Manager) :
  run (actions ++ [a]) m =
    (fst (step a (fst (run actions m))),
     snd (run actions m) ++ snd (step a (fst (run actions m)))).
Proof.
  revert m. induction actions as [|b actions IH]; intros m.
  - cbn. destruct (step a m). cbn. by rewrite app_nil_r.
  - cbn [app ApiTrace.run]. destruct (step b m) as [m1 e1]. rewrite IH.
    destruct (run actions m1) as [m2 e2]. cbn [fst snd]. by rewrite app_assoc.
Qed.

Lemma step_consistent (a : ApiTrace.Action) (m : ApiManager.Manager) :
  ApiManager.consistent m -> ApiManager.consistent (fst (step a m)).
Proof.
  intros Hm. destruct a; cbn [ApiTrace.step fst].
  - by apply beginEditing_consistent.
  - by apply stopEditing_consistent.
  - by apply onRefMount_consistent.
  - by apply reconcile_consistent.
  - by apply onSectionRendered_consistent.
Qed.

(** X7: whatever sequence of [beginEditing], [stopEditing], editor mounts,
    reconciler runs and rendered sections reaches the manager from Idle,
    under whatever rows and columns, the editor node is there exactly while
    a session is, and it is the session's node: at most one editor is
    shown, and never one without a session. *)
Theorem editor_node_follows_session (actions : list ApiTrace.Action) :
  match ApiManager.state (fst (run actions ApiManager.idle)) with
  | Some s =>
      ApiManager.editorNode (fst (run actions ApiManager.idle))
        = Some (IEditorState.node s)
  | None => ApiManager.editorNode (fst (run actions ApiManager.idle)) = None
  end.
Proof.
  change (ApiManager.consistent (fst (run actions ApiManager.idle))).
  induction actions as [|a actions IH] using rev_ind; [done|].
  rewrite apiRun_snoc. cbn [fst]. by apply step_consistent.
Qed.

Lemma latestBegin_app (latest : option NavigationCoords) (e1 e2 : list Effect) :
  ApiTrace.latestBegin latest (e1 ++ e2)
  = ApiTrace.latestBegin (ApiTrace.latestBegin latest e1) e2.
Proof.
  unfold ApiTrace.latestBegin. rewrite dispatched_app.
  destruct (dispatched CELL_BEGIN_EDITING e2) as [|c l] eqn:H2 using rev_ind.
  - by rewrite app_nil_r.
  - rewrite app_assoc, !last_snoc. done.
Qed.

Lemma wellPaired_app (latest : option NavigationCoords) (e1 e2 : list Effect) :
  ApiTrace.wellPaired latest (e1 ++ e2) <->
  ApiTrace.wellPaired latest e1 /\
  ApiTrace.wellPaired (ApiTrace.latestBegin latest e1) e2.
Proof.
  revert latest. induction e1 as [|e e1 IH]; intros latest.
  - cbn. unfold ApiTrace.latestBegin. cbn. tauto.
  - change ((e :: e1) ++ e2) with (e :: (e1 ++ e2)).
    assert (forall l, ApiTrace.latestBegin latest (e :: e1)
                      = ApiTrace.latestBegin l e1 ->
                      (ApiTrace.wellPaired l (e1 ++ e2) <->
                       ApiTrace.wellPaired l e1 /\
                       ApiTrace.wellPaired
                         (ApiTrace.latestBegin latest (e :: e1)) e2)) as Hstep.
    { intros l ->. apply IH. }
    destruct e as [p | [|] c | w | k | k | x]; cbn [ApiTrace.wellPaired].
    + rewrite (Hstep latest); [tauto|]. reflexivity.
    + rewrite (Hstep (Some c)); [tauto|].
      change (DispatchEvent CELL_BEGIN_EDITING c :: e1)
        with ([DispatchEvent CELL_BEGIN_EDITING c] ++ e1).
      by rewrite latestBegin_app.
    + rewrite (Hstep latest); [tauto|]. reflexivity.
    + rewrite (Hstep latest); [tauto|]. reflexivity.
    + rewrite (Hstep latest); [tauto|]. reflexivity.
    + rewrite (Hstep latest); [tauto|]. reflexivity.
    + rewrite (Hstep latest); [tauto|]. reflexivity.
Qed.

(** One call keeps the pairing: what it emits is paired after a history
    whose latest begin is the session's coordinate, and the session it
    leaves is at the latest begin. *)
Lemma step_wellPaired (a : ApiTrace.Action) (m : ApiManager.Manager)
    (latest : option NavigationCoords) :
  (forall s, ApiManager.state m = Some s -> latest = Some (sessionCoords s)) ->
  ApiTrace.wellPaired latest (snd (step a m)) /\
  (forall s, ApiManager.state (fst (step a m)) = Some s ->
             ApiTrace.latestBegin latest (snd (step a m)) = Some (sessionCoords s)).
Proof.
  intros Hlatest.
  assert (forall props params,
            ApiTrace.wellPaired latest (snd (ApiManager.stopEditing props params m)) /\
            (forall s, ApiManager.state (fst (ApiManager.stopEditing props params m))
                         = Some s ->
                       ApiTrace.latestBegin latest
                         (snd (ApiManager.stopEditing props params m))
                       = Some (sessionCoords s))) as Hstop.
  { intros props params. split.
    - unfold ApiManager.stopEditing.
      destruct (ApiManager.state m) as [s|] eqn:Hs; [|done].
      specialize (Hlatest s eq_refl).
      destruct (wantsSave _); [|done].
      destruct (callGetValue _); [|done].
      destruct (Js.strict_eq _ _); [done|].
      destruct (negb (from_option _ _ _)); [done|].
      destruct (negb (Js.loose_eq _ _)); [|done].
      unfold callOnCellChange. by destruct (ApiManager.onCellChange props).
    - intros s.
      destruct (stopEditing_leaves_no_session props params m) as [-> | ->];
        [done|]. cbn [fst snd]. apply Hlatest. }
  destruct a as [props params | props params | ref | props | props params];
    cbn [ApiTrace.step fst snd].
  - unfold ApiManager.beginEditing.
    destruct (sameCoords _ _); [by split|].
    destruct (ApiManager.getColumnAt _ _); [|by split].
    destruct (String.eqb _ _); [by split|].
    destruct (isReadOnly _ _); [by split|].
    destruct (at_index _ _); [|by split].
    cbn. split; [done|]. intros s [= <-].
    unfold ApiTrace.latestBegin, sessionCoords. cbn.
    by destruct (begin_coords params).
  - apply Hstop.
  - unfold ApiManager.onRefMount, validateEditorRef.
    destruct ref as [r|]; [|by split].
    destruct (getValue r); (split; [done|]); apply Hlatest.
  - unfold ApiManager.reconcile.
    destruct (ApiManager.editorNode m); [|by split].
    destruct (ApiManager.state m) eqn:Hs; [|split; [done|]; cbn; congruence].
    destruct (at_index _ _); [|apply Hstop].
    destruct (ApiManager.getColumnAt _ _); [|apply Hstop].
    destruct (Js.strict_eq _ _); [apply Hstop|]. split; [done|].
    intros s. cbn. rewrite Hs. by intros [= <-]; apply Hlatest.
  - unfold GridWrapper.onSectionRendered, ApiManager.getEditorState.
    destruct (ApiManager.state m) eqn:Hs; [|split; [done|]; cbn; congruence].
    destruct (_ || _); [apply Hstop|].
    destruct (_ || _); [apply Hstop|]. split; [done|].
    intros s. cbn. rewrite Hs. by intros [= <-]; apply Hlatest.
Qed.

Lemma run_wellPaired (actions : list ApiTrace.Action) :
  ApiTrace.wellPaired None (snd (run actions ApiManager.idle)) /\
  (forall s, ApiManager.state (fst (run actions ApiManager.idle)) = Some s ->
             ApiTrace.latestBegin None (snd (run actions ApiManager.idle))
             = Some (sessionCoords s)).
Proof.
  induction actions as [|a actions [IHpaired IHlatest]] using rev_ind; [by split|].
  rewrite apiRun_snoc. cbn [fst snd].
  destruct (step_wellPaired a (fst (run actions ApiManager.idle)) _ IHlatest)
    as [Hpaired Hlatest].
  split; [by apply wellPaired_app|]. intros s Hs.
  rewrite latestBegin_app. by apply Hlatest.
Qed.

(** X8: in the effects of any run of the manager from Idle, every stop
    notification carries the coordinate of the latest begin notification
    before it, and so does every cell change: a stop or a change is never
    reported for a cell whose editing was not announced last. *)
Theorem notifications_follow_latest_begin (actions : list ApiTrace.Action)
    (before after : list Effect) (e : Effect) :
  snd (run actions ApiManager.idle) = before ++ e :: after ->
  (forall c, e = DispatchEvent CELL_STOP_EDITING c ->
             last (dispatched CELL_BEGIN_EDITING before) = Some c) /\
  (forall p, e = CellChange p ->
             last (dispatched CELL_BEGIN_EDITING before) = Some (coords p)).
Proof.
  intros Heffects. destruct (run_wellPaired actions) as [Hpaired _].
  rewrite Heffects in Hpaired. apply wellPaired_app in Hpaired as [_ Hpaired].
  unfold ApiTrace.latestBegin in Hpaired.
  split; intros x ->; cbn [ApiTrace.wellPaired] in Hpaired;
    destruct Hpaired as [Hlatest _];
    by destruct (last (dispatched CELL_BEGIN_EDITING before)).
Qed.

End ApiTraceProperties.

(** The theorem at work: a cell is edited and saved; the stop notification
    comes after the begin notification of the same cell. *)
Lemma notifications_follow_latest_begin_witness :
  last (dispatched CELL_BEGIN_EDITING
          [ DispatchEvent CELL_BEGIN_EDITING {| rowIndex := 3; colIndex := 1 |};
            CellChange {| coords := {| rowIndex := 3; colIndex := 1 |};
                          previousValue := Js.String "7";
                          newValue := Js.String "8" |} ])
  = Some {| rowIndex := 3; colIndex := 1 |}.
Proof.
  refine (proj1 (notifications_follow_latest_begin Fixture.ROW_SELECTION_HEADER_ID
                   [ ApiTrace.CallBeginEditing Fixture.props (Fixture.at_cell 3 1 None);
                     ApiTrace.RefMount (Some {| getValue := Some (Js.String "8") |});
                     ApiTrace.CallStopEditing Fixture.props None ]
                   _ [] _ _) _ eq_refl).
  reflexivity.
Defined.

(** * More on closing and opening *)

(** Every value but [NaN] is loosely equal to itself. *)
Lemma loose_eq_refl (v : Js.Value) : v <> Js.NaN -> Js.loose_eq v v = true.
Proof.
  intros Hv. destruct v as [| | b | | n | s]; cbn; try reflexivity.
  - by destruct b.
  - done.
  - apply Z.eqb_refl.
  - apply String.eqb_refl.
Qed.

(** An editor that returns what compares loosely equal to the initial value
    makes [stopEditing] report no change, whatever the parameters. *)
Lemma stopEditing_unchanged (props : ApiManager.EditorManagerProps)
    (params : option ApiManager.StopEditingParams) (m : ApiManager.Manager)
    (s : IEditorState.t) (r : EditorRef) (v : Js.Value) :
  ApiManager.state m = Some s ->
  ApiManager.editorRef m = Some r ->
  getValue r = Some v ->
  Js.loose_eq v (IEditorState.initialValue s) = true ->
  cellChanges (snd (ApiManager.stopEditing props params m)) = [].
Proof.
  intros Hs Hr Hv Heq. unfold ApiManager.stopEditing, callGetValue.
  rewrite Hs, Hr, Hv.
  destruct (wantsSave _); [|done].
  rewrite nullish_undefined.
  destruct (Js.isNullish v) eqn:Hnull; [done|].
  unfold Js.nullish. rewrite Hnull.
  destruct (negb (from_option _ _ _)); [done|].
  by rewrite Heq.
Qed.

(** The value handed to an editor opened without a key compares loosely
    equal to the session's initial value, whatever the cell holds but
    [NaN]. *)
Lemma untouched_value_equals_initial (cell : Js.Value) (key : option string) :
  truthyKey key = None ->
  cell <> Js.NaN ->
  Js.loose_eq (bufferedValue cell key) (Js.nullish cell (Js.String "")) = true.
Proof.
  intros Hkey Hcell. unfold bufferedValue. rewrite Hkey.
  destruct cell as [| | [|] | | n | s]; try reflexivity.
  - done.
  - cbn [Js.ToBoolean]. destruct (Z.eqb_spec (Js.toZ n) 0) as [Hn | Hn].
    + cbn. by rewrite Hn.
    + cbn. apply Z.eqb_refl.
  - cbn [Js.ToBoolean]. destruct (String.eqb_spec s "") as [-> | Hs]; [reflexivity|].
    cbn. apply String.eqb_refl.
Qed.

Section ClosingAndOpening.

Variable ROW_SELECTION_HEADER_ID : string.

(** X9: opening an editor without a default key and closing it with the
    value it was handed reports no change, whatever the cell holds but
    [NaN] ([undefined], [null], [false], [0] and the empty string
    included) and whether or not the close saves: from [beginEditing]
    through the mount of the editor, the reconciler effect on the new editor
    node and [stopEditing], the begin and the stop notification of the cell
    are all that leaves the manager.  (For an [undefined] cell it is the
    reconciler that closes the session.) *)
Theorem untouched_editor_reports_no_change (props : ApiManager.EditorManagerProps)
    (params : BeginEditingParams) (m : ApiManager.Manager)
    (column : Header.t) (row : Row) (stop : option ApiManager.StopEditingParams) :
  ApiManager.accepted ROW_SELECTION_HEADER_ID props params m column row ->
  truthyKey (defaultKey params) = None ->
  prop row (Header.accessor column) <> Js.NaN ->
  let handed := bufferedValue (prop row (Header.accessor column)) (defaultKey params) in
  ApiTrace.run ROW_SELECTION_HEADER_ID
    [ ApiTrace.CallBeginEditing props params;
      ApiTrace.RefMount (Some {| getValue := Some handed |});
      ApiTrace.Reconcile props;
      ApiTrace.CallStopEditing props stop ] m
  = (ApiManager.idle,
     [ DispatchEvent CELL_BEGIN_EDITING (begin_coords params);
       DispatchEvent CELL_STOP_EDITING (begin_coords params) ]).
Proof.
  intros Hacc Hkey Hcell handed.
  pose proof (untouched_value_equals_initial (prop row (Header.accessor column))
                (defaultKey params) Hkey Hcell) as Heq. fold handed in Heq.
  cbn [ApiTrace.run ApiTrace.step].
  rewrite (beginEditing_accepted _ _ _ _ _ _ Hacc).
  destruct Hacc as (_ & Hcol & _ & _ & Hrow).
  unfold ApiManager.onRefMount, validateEditorRef. cbn [getValue].
  unfold ApiManager.reconcile.
  cbn [ApiManager.editorNode ApiManager.state IEditorState.rowIndex
       IEditorState.colIndex].
  rewrite Hrow, Hcol.
  assert ({| rowIndex := rowIndex (begin_coords params);
             colIndex := colIndex (begin_coords params) |} = begin_coords params)
    as Hcoords by (by destruct (begin_coords params)).
  destruct (Js.strict_eq (prop row (Header.accessor column)) Js.Undefined) eqn:Hundef.
  - erewrite (stopEditing_without_saving props); [|reflexivity].
    unfold ApiManager.stopEditing. cbn [ApiManager.state ApiManager.idle].
    unfold ApiManager.stopNotification, sessionCoords.
    cbn [IEditorState.rowIndex IEditorState.colIndex]. rewrite Hcoords.
    reflexivity.
  - unfold ApiManager.stopEditing, callGetValue.
    cbn [ApiManager.state ApiManager.editorRef getValue
         IEditorState.initialValue IEditorState.validatorHook].
    unfold ApiManager.stopNotification, sessionCoords.
    cbn [IEditorState.rowIndex IEditorState.colIndex]. rewrite Hcoords.
    destruct (wantsSave _); [|reflexivity].
    destruct (Js.strict_eq (Js.nullish handed Js.Undefined) Js.Undefined);
      [reflexivity|].
    destruct (negb (from_option _ _ _)); [reflexivity|].
    fold handed.
    assert (Js.nullish handed Js.Undefined = handed) as Hdefined.
    { unfold Js.nullish. destruct handed; try reflexivity;
        cbn in Heq; destruct (prop row (Header.accessor column)); discriminate. }
    rewrite Hdefined, Heq. reflexivity.
Qed.

(** X10: [beginEditing] on another cell while a session is active moves the
    session without closing the first one: it dispatches the begin
    notification only (no stop notification, no change for the first cell)
    and keeps the editor handle.  Until the new editor mounts, a
    [stopEditing] that saves therefore reads the previous editor's value,
    validates it with the new column's hook and reports it at the new
    coordinate, against the new cell's value. *)
Theorem beginEditing_elsewhere_keeps_handle (props : ApiManager.EditorManagerProps)
    (params : BeginEditingParams) (m : ApiManager.Manager) (s : IEditorState.t)
    (r : EditorRef) (column : Header.t) (row : Row)
    (stop : option ApiManager.StopEditingParams) :
  ApiManager.state m = Some s ->
  ApiManager.editorRef m = Some r ->
  ApiManager.accepted ROW_SELECTION_HEADER_ID props params m column row ->
  let moved := fst (ApiManager.beginEditing ROW_SELECTION_HEADER_ID props params m) in
  let cell := Js.nullish (prop row (Header.accessor column)) (Js.String "") in
  snd (ApiManager.beginEditing ROW_SELECTION_HEADER_ID props params m)
    = [DispatchEvent CELL_BEGIN_EDITING (begin_coords params)] /\
  ApiManager.editorRef moved = Some r /\
  (forall held : Js.Value,
   getValue r = Some held ->
   wantsSave (ApiManager.save <$> stop) = true ->
   Js.isNullish held = false ->
   from_option (fun hook => hook held) true (Header.validatorHook column) = true ->
   ApiManager.onCellChange props = true ->
   Js.loose_eq held cell = false ->
   snd (ApiManager.stopEditing props stop moved)
   = [ CellChange {| coords := begin_coords params;
                     previousValue := cell;
                     newValue := held |};
       DispatchEvent CELL_STOP_EDITING (begin_coords params) ]).
Proof.
  intros Hs Hr Hacc moved cell. subst moved.
  rewrite (beginEditing_accepted _ _ _ _ _ _ Hacc). cbn [fst snd].
  split; [done|]. split; [done|].
  intros held Hheld Hsave Hdefined Hvalid Hsink Hdiff.
  match goal with
  | |- snd (ApiManager.stopEditing _ _ ?m') = _ =>
      rewrite (stopEditing_saves props stop m' _ r held eq_refl Hr Hheld Hsave
                 Hdefined Hvalid)
  end.
  cbn [snd IEditorState.initialValue]. fold cell. rewrite Hdiff, Hsink.
  unfold ApiManager.stopNotification, sessionCoords. cbn.
  by destruct (begin_coords params).
Qed.

End ClosingAndOpening.

(** X11: closing is idempotent: after a [stopEditing] that returns,
    whatever its parameters and outcome, a further [stopEditing], a
    reconciler run and a rendered section all leave the manager as it is and
    have no effect.  A [stopEditing] that throws (it is to save, and the
    editor handle has no [getValue] function) closes nothing: the manager is
    as it was, and the same call throws again. *)
Theorem closing_is_idempotent (props props' : ApiManager.EditorManagerProps)
    (params params' : option ApiManager.StopEditingParams)
    (section : GridWrapper.SectionRenderedParams) (m : ApiManager.Manager) :
  let closed := fst (ApiManager.stopEditing props params m) in
  (thrown (snd (ApiManager.stopEditing props params m)) = [] ->
   ApiManager.stopEditing props' params' closed = (closed, []) /\
   ApiManager.reconcile props' closed = (closed, []) /\
   GridWrapper.onSectionRendered props' section closed = (closed, [])) /\
  (thrown (snd (ApiManager.stopEditing props params m)) <> [] ->
   closed = m /\
   ApiManager.stopEditing props' params closed = (m, [Throw getValueIsNotAFunction])).
Proof.
  intros closed. split.
  - intros Hreturns.
    assert (ApiManager.state closed = None) as Hnone.
    { subst closed.
      destruct (stopEditing_leaves_no_session props params m) as [Hnone | Hthrow];
        [done|].
      rewrite Hthrow in Hreturns. discriminate Hreturns. }
    unfold ApiManager.stopEditing at 1, ApiManager.reconcile,
      GridWrapper.onSectionRendered, ApiManager.getEditorState.
    rewrite Hnone. repeat split. by destruct (ApiManager.editorNode closed).
  - intros Hthrows. subst closed.
    destruct (stopEditing_throws props params m) as [Hwhen Hthrow].
    rewrite (Hthrow Hthrows). cbn [fst]. split; [reflexivity|].
    apply Hwhen in Hthrows as ([s Hs] & Hsave & Hcall).
    unfold ApiManager.stopEditing. by rewrite Hs, Hsave, Hcall.
Qed.

(** The theorem at work: the editor holding ["8"] is closed; a second close
    does nothing. *)
Lemma closing_is_idempotent_witness :
  ApiManager.stopEditing Fixture.props None
    (fst (ApiManager.stopEditing Fixture.props None
            (Fixture.editing 3 1 None (Js.String "8"))))
  = (fst (ApiManager.stopEditing Fixture.props None
            (Fixture.editing 3 1 None (Js.String "8"))), []).
Proof.
  refine (proj1 (proj1 (closing_is_idempotent Fixture.props Fixture.props None None
                          {| GridWrapper.rowStartIndex := 0;
                             GridWrapper.rowStopIndex := 4;
                             GridWrapper.columnStartIndex := 0;
                             GridWrapper.columnStopIndex := 2 |}
                          (Fixture.editing 3 1 None (Js.String "8"))) _)).
  reflexivity.
Defined.

(** X12: a parameter object without [save] does not save, in both hooks:
    the call behaves as with [save: false] and reports no change, whatever
    the editor holds; only a call without parameters saves by default.  In
    the props-driven hook this is the case of a call that only names a key
    press. *)
Theorem omitted_save_does_not_save (props : ApiManager.EditorManagerProps)
    (m : ApiManager.Manager) (props' : PropsManager.EditorManagerProps)
    (m' : PropsManager.Manager) (key : option string) :
  ApiManager.stopEditing props (Some {| ApiManager.save := None |}) m
    = ApiManager.stopEditing props (Some {| ApiManager.save := Some false |}) m /\
  cellChanges
    (snd (ApiManager.stopEditing props (Some {| ApiManager.save := None |}) m)) = [] /\
  PropsManager.stopEditing props'
    (Some {| PropsManager.save := None; PropsManager.keyPress := key |}) m'
    = PropsManager.stopEditing props'
        (Some {| PropsManager.save := Some false; PropsManager.keyPress := key |}) m' /\
  cellChanges
    (snd (PropsManager.stopEditing props'
            (Some {| PropsManager.save := None; PropsManager.keyPress := key |}) m'))
    = [].
Proof.
  split; [reflexivity|]. split.
  - unfold ApiManager.stopEditing. by destruct (ApiManager.state m).
  - split; [reflexivity|]. unfold PropsManager.stopEditing.
    destruct (PropsManager.state m'); [|done]. cbn.
    by destruct (truthyKey key).
Qed.

(** The theorem at work: the quantity cell holds [0]; the editor is opened
    without a key, is handed the empty string and returns it. *)
Lemma untouched_editor_reports_no_change_witness :
  ApiTrace.run Fixture.ROW_SELECTION_HEADER_ID
    [ ApiTrace.CallBeginEditing Fixture.props (Fixture.at_cell 1 1 None);
      ApiTrace.RefMount (Some {| getValue := Some (Js.String "") |});
      ApiTrace.Reconcile Fixture.props;
      ApiTrace.CallStopEditing Fixture.props None ]
    ApiManager.idle
  = (ApiManager.idle,
     [ DispatchEvent CELL_BEGIN_EDITING {| rowIndex := 1; colIndex := 1 |};
       DispatchEvent CELL_STOP_EDITING {| rowIndex := 1; colIndex := 1 |} ]).
Proof.
  refine (untouched_editor_reports_no_change Fixture.ROW_SELECTION_HEADER_ID
            Fixture.props (Fixture.at_cell 1 1 None) ApiManager.idle
            Fixture.qtyColumn (Fixture.row "bob" (Js.int 0)) None _ _ _).
  - repeat split; reflexivity.
  - reflexivity.
  - discriminate.
Defined.

(** A cell that holds [NaN] is the exception: the editor is handed the empty
    string, the session keeps [NaN] as its initial value, and [NaN] is
    loosely equal to nothing, so closing the untouched editor reports a
    change from [NaN] to the empty string. *)
Example untouched_editor_on_NaN_cell :
  ApiTrace.run Fixture.ROW_SELECTION_HEADER_ID
    [ ApiTrace.CallBeginEditing Fixture.notANumberProps (Fixture.at_cell 0 1 None);
      ApiTrace.RefMount (Some {| getValue := Some (Js.String "") |});
      ApiTrace.Reconcile Fixture.notANumberProps;
      ApiTrace.CallStopEditing Fixture.notANumberProps None ]
    ApiManager.idle
  = (ApiManager.idle,
     [ DispatchEvent CELL_BEGIN_EDITING {| rowIndex := 0; colIndex := 1 |};
       CellChange {| coords := {| rowIndex := 0; colIndex := 1 |};
                     previousValue := Js.NaN;
                     newValue := Js.String "" |};
       DispatchEvent CELL_STOP_EDITING {| rowIndex := 0; colIndex := 1 |} ]).
Proof. vm_compute. reflexivity. Qed.

(** The theorem at work: while the quantity of row 3 is edited and the
    editor holds ["8"], editing begins on the name of row 0 and is stopped
    before a new editor mounts: ["8"] is reported as the new name. *)
Lemma beginEditing_elsewhere_keeps_handle_witness :
  snd (ApiManager.stopEditing Fixture.props None
         (fst (ApiManager.beginEditing Fixture.ROW_SELECTION_HEADER_ID Fixture.props
                 (Fixture.at_cell 0 0 None)
                 (Fixture.editing 3 1 None (Js.String "8")))))
  = [ CellChange {| coords := {| rowIndex := 0; colIndex := 0 |};
                    previousValue := Js.String "ada";
                    newValue := Js.String "8" |};
      DispatchEvent CELL_STOP_EDITING {| rowIndex := 0; colIndex := 0 |} ].
Proof.
  refine (proj2 (proj2 (beginEditing_elsewhere_keeps_handle
                          Fixture.ROW_SELECTION_HEADER_ID Fixture.props
                          (Fixture.at_cell 0 0 None)
                          (Fixture.editing 3 1 None (Js.String "8")) _
                          {| getValue := Some (Js.String "8") |} Fixture.nameColumn
                          (Fixture.row "ada" (Js.int 5)) None eq_refl eq_refl _))
                (Js.String "8") _ _ _ _ _ _); try reflexivity.
  repeat split; reflexivity.
Defined.

(** * More on the props-driven hook *)

Section KeyPressProperties.

Variable ROW_SELECTION_HEADER_ID : string.

Local Abbreviation run := (PropsManager.run ROW_SELECTION_HEADER_ID).
Local Abbreviation step := (PropsManager.step ROW_SELECTION_HEADER_ID).

(** X13: in the props-driven hook, a [stopEditing] that is asked to save
    and discards (the candidate is [undefined], or the validator hook
    returns [false]) returns before the key press is looked at: the session
    is closed, nothing is reported or logged, and the key press the call
    named is not scheduled. *)
Theorem discarded_save_drops_key_press (props : PropsManager.EditorManagerProps)
    (params : option PropsManager.StopEditingParams) (m : PropsManager.Manager)
    (s : IEditorState.t) :
  PropsManager.state m = Some s ->
  wantsSave (PropsManager.save <$> params) = true ->
  forall value : Js.Value,
  callGetValue (PropsManager.editorRef m) = Some value ->
  let candidate := Js.nullish value Js.Undefined in
  candidate = Js.Undefined \/
  (exists hook, IEditorState.validatorHook s = Some hook /\ hook candidate = false) ->
  PropsManager.stopEditing props params m = (PropsManager.clearSession m, []) /\
  PropsManager.scheduleMove (fst (PropsManager.stopEditing props params m))
    = PropsManager.scheduleMove m /\
  PropsManager.timer (PropsManager.scheduleEffect
                        (fst (PropsManager.stopEditing props params m)))
    = PropsManager.timer (PropsManager.scheduleEffect m).
Proof.
  intros Hs Hsave value Hvalue candidate Hbad.
  assert (PropsManager.stopEditing props params m = (PropsManager.clearSession m, []))
    as ->.
  { unfold PropsManager.stopEditing. rewrite Hs, Hsave, Hvalue. fold candidate.
    destruct (Js.strict_eq candidate Js.Undefined) eqn:Hundef; [reflexivity|].
    destruct Hbad as [Hbad | (hook & Hhook & Hfalse)].
    - apply strict_eq_undefined in Hbad. congruence.
    - rewrite Hhook. cbn [from_option]. by rewrite Hfalse. }
  split; [done|]. split; [done|]. cbn [fst].
  unfold PropsManager.scheduleEffect, PropsManager.clearSession.
  cbn [PropsManager.mounted PropsManager.scheduleMove PropsManager.scheduleEffectKey].
  destruct (negb (PropsManager.mounted m)); [done|].
  by destruct (decide _).
Qed.

Lemma callsWithKeyPress_cons (a : PropsManager.Action)
    (actions : list PropsManager.Action) :
  callsWithKeyPress (a :: actions)
  = (callsWithKeyPress [a] + callsWithKeyPress actions)%nat.
Proof.
  destruct a; try reflexivity. cbn [callsWithKeyPress].
  by destruct (truthyKey _).
Qed.

(** One step dispatches a key press only by using up a pending one, and
    makes one pending only in a call that names a key press. *)
Lemma step_key_press_budget (a : PropsManager.Action) (m : PropsManager.Manager) :
  (length (keyDowns (snd (step a m))) + keyPressPending (fst (step a m))
   <= keyPressPending m + callsWithKeyPress [a])%nat.
Proof.
  destruct a as [props params | props params | ref | props | | |];
    cbn [PropsManager.step fst snd callsWithKeyPress].
  - destruct (beginEditing_keeps_schedule ROW_SELECTION_HEADER_ID props params m)
      as (Ht & _ & Hm & Hk).
    unfold keyPressPending. rewrite Ht, Hm, Hk. cbn. lia.
  - destruct (stopEditing_schedules props params m)
      as (Ht & _ & _ & [Hsame | (key & Hkey & Hset & _)]);
      rewrite stopEditing_no_keyDown; unfold keyPressPending; rewrite Ht.
    + rewrite Hsame. cbn. lia.
    + rewrite Hkey, Hset.
      destruct (PropsManager.timer m), (truthyKey (Some key)),
        (truthyKey (PropsManager.scheduleMove m)); cbn; lia.
  - unfold keyPressPending, PropsManager.onRefMount, validateEditorRef.
    destruct ref as [r|]; [destruct (getValue r)|]; cbn; lia.
  - destruct (reconcile_keeps_schedule props m) as (Ht & _ & Hm & Hk).
    unfold keyPressPending. rewrite Ht, Hm, Hk. cbn. lia.
  - unfold PropsManager.scheduleEffect, keyPressPending.
    destruct (negb (PropsManager.mounted m)); [cbn; lia|].
    destruct (decide _); [cbn; lia|].
    cbn [PropsManager.timer PropsManager.scheduleMove].
    destruct (PropsManager.timer m), (truthyKey (PropsManager.scheduleMove m));
      cbn; lia.
  - unfold PropsManager.timerFires, keyPressPending.
    destruct (PropsManager.timer m) eqn:Ht,
      (truthyKey (PropsManager.scheduleMove m)) eqn:Hm; cbn;
      rewrite ?Ht, ?Hm; lia.
  - unfold keyPressPending. cbn [PropsManager.unmount PropsManager.timer
                                 PropsManager.scheduleMove].
    destruct (PropsManager.timer m), (truthyKey (PropsManager.scheduleMove m));
      cbn; lia.
Qed.

(** X14: in any run of the props-driven hook, the key presses dispatched,
    together with the one still pending at the end, are at most the
    [stopEditing] calls that named a key press, plus the one pending at the
    start: no key press is replayed twice, and none is dispatched that no
    call asked for.  From the hook as mounted, the key presses dispatched
    are at most the calls that named one. *)
Theorem key_presses_dispatched_at_most_once (actions : list PropsManager.Action)
    (m : PropsManager.Manager) :
  (length (keyDowns (snd (run actions m))) + keyPressPending (fst (run actions m))
   <= keyPressPending m + callsWithKeyPress actions)%nat /\
  (length (keyDowns (snd (run actions PropsManager.initial)))
   <= callsWithKeyPress actions)%nat.
Proof.
  assert (forall m0,
            (length (keyDowns (snd (run actions m0)))
             + keyPressPending (fst (run actions m0))
             <= keyPressPending m0 + callsWithKeyPress actions)%nat) as Hbudget.
  { induction actions as [|a actions IH]; intros m0; [cbn; lia|].
    rewrite callsWithKeyPress_cons. cbn [PropsManager.run].
    pose proof (step_key_press_budget a m0) as Hstep.
    destruct (step a m0) as [m1 e1]. specialize (IH m1).
    destruct (run actions m1) as [m2 e2]. cbn [fst snd] in *.
    rewrite keyDowns_app, length_app. lia. }
  split; [apply Hbudget|].
  specialize (Hbudget PropsManager.initial). cbn in Hbudget. lia.
Qed.

End KeyPressProperties.

(** The theorem at work: the name column only accepts strings, the editor
    returns a number, and the call names the Tab key. *)
Lemma discarded_save_drops_key_press_witness :
  PropsManager.scheduleMove
    (fst (PropsManager.run Fixture.ROW_SELECTION_HEADER_ID
            [ PropsManager.CallBeginEditing Fixture.propsOfHost (Fixture.at_cell 0 0 None);
              PropsManager.RefMount (Some {| getValue := Some (Js.int 3) |});
              PropsManager.CallStopEditing Fixture.propsOfHost
                (Some {| PropsManager.save := Some true;
                         PropsManager.keyPress := Some "Tab" |}) ]
            PropsManager.initial))
  = None.
Proof.
  refine (proj1 (proj2 (discarded_save_drops_key_press Fixture.propsOfHost
                          (Some {| PropsManager.save := Some true;
                                   PropsManager.keyPress := Some "Tab" |})
                          (fst (PropsManager.run Fixture.ROW_SELECTION_HEADER_ID
                                  [ PropsManager.CallBeginEditing Fixture.propsOfHost
                                      (Fixture.at_cell 0 0 None);
                                    PropsManager.RefMount
                                      (Some {| getValue := Some (Js.int 3) |}) ]
                                  PropsManager.initial))
                          _ eq_refl eq_refl (Js.int 3) eq_refl _))).
  right. exists Fixture.onlyStrings. split; reflexivity.
Defined.

(** X15: the two hooks close a session alike: on the same refs, rows,
    columns and sink, [stopEditing] and the reconciler of the props-driven
    hook leave the refs and the node that those of the API-driven hook
    leave, and report the same cell changes; they differ in the stop
    notification of the one and the key press of the other. *)
Theorem hooks_close_alike (props : PropsManager.EditorManagerProps)
    (params : option PropsManager.StopEditingParams) (m : PropsManager.Manager) :
  (refsOf (fst (PropsManager.stopEditing props params m))
   = fst (ApiManager.stopEditing (servedBy props) (saveOnly <$> params) (refsOf m)) /\
   cellChanges (snd (PropsManager.stopEditing props params m))
   = cellChanges (snd (ApiManager.stopEditing (servedBy props) (saveOnly <$> params)
                         (refsOf m)))) /\
  (refsOf (fst (PropsManager.reconcile props m))
   = fst (ApiManager.reconcile (servedBy props) (refsOf m)) /\
   cellChanges (snd (PropsManager.reconcile props m))
   = cellChanges (snd (ApiManager.reconcile (servedBy props) (refsOf m)))).
Proof.
  split.
  - apply variants_stopEditing.
  - apply variants_reconcile.
Qed.

(** X21: the two hooks mount an editor and throw alike: [onRefMount] of
    either ignores a missing ref and stores any other handle, warning about
    one without a [getValue] function; and [stopEditing] of the props-driven
    hook throws exactly when that of the API-driven hook does, leaving the
    hook as it was: the session open, and the key press the call named
    neither logged nor scheduled. *)
Theorem hooks_mount_and_throw_alike (props : PropsManager.EditorManagerProps)
    (params : option PropsManager.StopEditingParams) (ref : option EditorRef)
    (m : PropsManager.Manager) :
  (refsOf (fst (PropsManager.onRefMount ref m))
   = fst (ApiManager.onRefMount ref (refsOf m)) /\
   snd (PropsManager.onRefMount ref m) = snd (ApiManager.onRefMount ref (refsOf m)) /\
   snd (PropsManager.onRefMount ref m)
   = match ref with
     | Some {| getValue := None |} => [ConsoleWarn GetValueInvalid]
     | _ => []
     end /\
   PropsManager.editorRef (fst (PropsManager.onRefMount ref m))
   = match ref with
     | Some r => Some r
     | None => PropsManager.editorRef m
     end) /\
  thrown (snd (PropsManager.stopEditing props params m))
  = thrown (snd (ApiManager.stopEditing (servedBy props) (saveOnly <$> params)
                   (refsOf m))) /\
  (thrown (snd (PropsManager.stopEditing props params m)) <> [] ->
   PropsManager.stopEditing props params m = (m, [Throw getValueIsNotAFunction])).
Proof.
  assert (ApiManager.save <$> (saveOnly <$> params) = PropsManager.save <$> params)
    as Hsaves by (by destruct params).
  assert (thrown (snd (PropsManager.stopEditing props params m))
          = thrown (snd (ApiManager.stopEditing (servedBy props) (saveOnly <$> params)
                           (refsOf m)))) as Halike.
  { unfold PropsManager.stopEditing, ApiManager.stopEditing.
    cbn [refsOf ApiManager.state ApiManager.editorRef servedBy
         ApiManager.onCellChange].
    destruct (PropsManager.state m) as [s|]; [|done].
    rewrite Hsaves.
    destruct (wantsSave _); [|by destruct (truthyKey _)].
    destruct (callGetValue _); [|done].
    destruct (Js.strict_eq _ _); [done|].
    destruct (negb (from_option _ _ _)); [done|].
    destruct (truthyKey _); cbn [snd]; rewrite !thrown_app;
      destruct (negb (Js.loose_eq _ _)); try done;
      by destruct (PropsManager.onCellChange props). }
  split; [|split; [exact Halike|]].
  - unfold PropsManager.onRefMount, ApiManager.onRefMount, validateEditorRef.
    destruct ref as [[[v|]]|]; done.
  - rewrite Halike. intros Hthrows.
    apply (stopEditing_throws (servedBy props) (saveOnly <$> params) (refsOf m))
      in Hthrows as ([s Hs] & Hsave & Hcall).
    rewrite Hsaves in Hsave.
    cbn [refsOf ApiManager.state ApiManager.editorRef] in Hs, Hcall.
    unfold PropsManager.stopEditing. by rewrite Hs, Hsave, Hcall.
Qed.

(** The theorem at work: the props-driven hook edits the name of row 0, the
    editor mounts with a handle without [getValue], and [stopEditing] is
    called with a key press. *)
Lemma hooks_mount_and_throw_alike_witness :
  let mounted :=
    fst (PropsManager.run Fixture.ROW_SELECTION_HEADER_ID
           [ PropsManager.CallBeginEditing Fixture.propsOfHost (Fixture.at_cell 0 0 None);
             PropsManager.RefMount (Some {| getValue := None |}) ]
           PropsManager.initial) in
  PropsManager.stopEditing Fixture.propsOfHost
    (Some {| PropsManager.save := Some true; PropsManager.keyPress := Some "Tab" |})
    mounted
  = (mounted, [Throw getValueIsNotAFunction]).
Proof.
  refine (proj2 (proj2 (hooks_mount_and_throw_alike Fixture.propsOfHost
                          (Some {| PropsManager.save := Some true;
                                   PropsManager.keyPress := Some "Tab" |})
                          None
                          (fst (PropsManager.run Fixture.ROW_SELECTION_HEADER_ID
                                  [ PropsManager.CallBeginEditing Fixture.propsOfHost
                                      (Fixture.at_cell 0 0 None);
                                    PropsManager.RefMount
                                      (Some {| getValue := None |}) ]
                                  PropsManager.initial)))) _).
  discriminate.
Defined.

(** X16: the two hooks open a session alike: [beginEditing] accepts and
    rejects the same calls in both (a rejected call leaves the session of
    each as it was, and both log the same warnings, the API-driven hook
    adding the begin notification of an accepted call), and an accepted call
    gives the same editor node and the same session in both (coordinate,
    node, target element, validator hook and popup flag), but for the
    initial value: in the props-driven hook it is the value handed to the
    editor, in the API-driven hook the cell value, or the empty string for
    [undefined] and [null]. *)
Theorem hooks_open_alike (ROW_SELECTION_HEADER_ID : string)
    (props : PropsManager.EditorManagerProps) (params : BeginEditingParams)
    (m : PropsManager.Manager) :
  let ofProps := fst (PropsManager.beginEditing ROW_SELECTION_HEADER_ID props params m) in
  let ofApi :=
    fst (ApiManager.beginEditing ROW_SELECTION_HEADER_ID (servedBy props) params
           (refsOf m)) in
  PropsManager.editorNode ofProps = ApiManager.editorNode ofApi /\
  PropsManager.editorRef ofProps = ApiManager.editorRef ofApi /\
  sessionCoords <$> PropsManager.state ofProps = sessionCoords <$> ApiManager.state ofApi /\
  IEditorState.node <$> PropsManager.state ofProps
    = IEditorState.node <$> ApiManager.state ofApi /\
  IEditorState.targetElement <$> PropsManager.state ofProps
    = IEditorState.targetElement <$> ApiManager.state ofApi /\
  IEditorState.validatorHook <$> PropsManager.state ofProps
    = IEditorState.validatorHook <$> ApiManager.state ofApi /\
  IEditorState.isPopup <$> PropsManager.state ofProps
    = IEditorState.isPopup <$> ApiManager.state ofApi /\
  (forall column row,
      ApiManager.accepted ROW_SELECTION_HEADER_ID (servedBy props) params (refsOf m)
        column row ->
      IEditorState.initialValue <$> PropsManager.state ofProps
        = Some (bufferedValue (prop row (Header.accessor column)) (defaultKey params)) /\
      IEditorState.initialValue <$> ApiManager.state ofApi
        = Some (Js.nullish (prop row (Header.accessor column)) (Js.String ""))) /\
  ((forall column row,
       ~ ApiManager.accepted ROW_SELECTION_HEADER_ID (servedBy props) params (refsOf m)
           column row) ->
   PropsManager.state ofProps = ApiManager.state ofApi /\
   PropsManager.state ofProps = PropsManager.state m) /\
  snd (ApiManager.beginEditing ROW_SELECTION_HEADER_ID (servedBy props) params (refsOf m))
  = snd (PropsManager.beginEditing ROW_SELECTION_HEADER_ID props params m)
    ++ (DispatchEvent CELL_BEGIN_EDITING
          <$> dispatched CELL_BEGIN_EDITING
                (snd (ApiManager.beginEditing ROW_SELECTION_HEADER_ID (servedBy props)
                        params (refsOf m)))).
Proof.
  intros ofProps ofApi.
  destruct (variants_beginEditing ROW_SELECTION_HEADER_ID props params m)
    as (Hnode & Href & Hcoords & Hnodes & Hinitial & Htarget & Hhook & Hpopup
        & Hrejected & Heffects).
  fold ofProps ofApi in Hnode, Href, Hcoords, Hnodes, Hinitial, Htarget, Hhook,
    Hpopup, Hrejected.
  repeat (split; [done|]).
  split; [|by split].
  intros column row Hacc. split; [by apply Hinitial|].
  subst ofApi. by rewrite (beginEditing_accepted _ _ _ _ _ _ Hacc).
Qed.

(** The theorem at work: both hooks, idle, begin editing the quantity of
    row 1, which holds [0], with the key ["9"]: the props-driven session
    starts from ["9"], the API-driven one from [0]. *)
Lemma hooks_open_alike_witness :
  IEditorState.initialValue
    <$> PropsManager.state
          (fst (PropsManager.beginEditing Fixture.ROW_SELECTION_HEADER_ID
                  Fixture.propsOfHost (Fixture.at_cell 1 1 (Some "9"))
                  PropsManager.initial))
  = Some (Js.String "9") /\
  IEditorState.initialValue
    <$> ApiManager.state
          (fst (ApiManager.beginEditing Fixture.ROW_SELECTION_HEADER_ID
                  (servedBy Fixture.propsOfHost) (Fixture.at_cell 1 1 (Some "9"))
                  (refsOf PropsManager.initial)))
  = Some (Js.int 0).
Proof.
  refine (proj1 (proj2 (proj2 (proj2 (proj2 (proj2 (proj2 (proj2
           (hooks_open_alike Fixture.ROW_SELECTION_HEADER_ID Fixture.propsOfHost
              (Fixture.at_cell 1 1 (Some "9")) PropsManager.initial))))))))
            Fixture.qtyColumn (Fixture.row "bob" (Js.int 0)) _).
  repeat split; reflexivity.
Defined.

(** * Counting the notifications *)

Section CountingProperties.

Variable ROW_SELECTION_HEADER_ID : string.

Local Abbreviation run := (ApiTrace.run ROW_SELECTION_HEADER_ID).
Local Abbreviation step := (ApiTrace.step ROW_SELECTION_HEADER_ID).

(** What one call adds: a change only with a stop notification, and a stop
    notification only by closing the session that was open. *)
Lemma step_counts (a : ApiTrace.Action) (m : ApiManager.Manager) :
  (length (cellChanges (snd (step a m)))
   <= length (dispatched CELL_STOP_EDITING (snd (step a m))))%nat /\
  (length (dispatched CELL_STOP_EDITING (snd (step a m)))
   + length (option_list (ApiManager.state (fst (step a m))))
   <= length (option_list (ApiManager.state m))
      + length (dispatched CELL_BEGIN_EDITING (snd (step a m))))%nat.
Proof.
  assert (forall props params,
    (length (cellChanges (snd (ApiManager.stopEditing props params m)))
     <= length (dispatched CELL_STOP_EDITING
                  (snd (ApiManager.stopEditing props params m))))%nat /\
    (length (dispatched CELL_STOP_EDITING (snd (ApiManager.stopEditing props params m)))
     + length (option_list
                 (ApiManager.state (fst (ApiManager.stopEditing props params m))))
     <= length (option_list (ApiManager.state m))
        + length (dispatched CELL_BEGIN_EDITING
                    (snd (ApiManager.stopEditing props params m))))%nat) as Hstop.
  { intros props params. unfold ApiManager.stopEditing.
    destruct (ApiManager.state m) as [s|] eqn:Hs; [|cbn; rewrite Hs; cbn; lia].
    destruct (wantsSave _); [|cbn; lia].
    destruct (callGetValue _); [|cbn; rewrite Hs; cbn; lia].
    destruct (Js.strict_eq _ _); [cbn; lia|].
    destruct (negb (from_option _ _ _)); [cbn; lia|].
    cbn [fst snd]. rewrite cellChanges_app, !dispatched_app.
    destruct (negb (Js.loose_eq _ _)); [|cbn; lia].
    destruct (ApiManager.onCellChange props); cbn; lia. }
  destruct a as [props params | props params | ref | props | props params];
    cbn [ApiTrace.step fst snd].
  - unfold ApiManager.beginEditing.
    destruct (sameCoords _ _); [cbn; lia|].
    destruct (ApiManager.getColumnAt _ _); [|cbn; lia].
    destruct (String.eqb _ _); [cbn; lia|].
    destruct (isReadOnly _ _); [cbn; lia|].
    destruct (at_index _ _); [|cbn; lia].
    cbn. destruct (ApiManager.state m); cbn; lia.
  - apply Hstop.
  - unfold ApiManager.onRefMount, validateEditorRef.
    destruct ref as [r|]; [destruct (getValue r)|]; cbn; lia.
  - unfold ApiManager.reconcile.
    destruct (ApiManager.editorNode m); [|cbn; lia].
    destruct (ApiManager.state m) eqn:Hs; [|cbn; rewrite Hs; cbn; lia].
    destruct (at_index _ _); [|apply Hstop].
    destruct (ApiManager.getColumnAt _ _); [|apply Hstop].
    destruct (Js.strict_eq _ _); [apply Hstop|].
    cbn. rewrite Hs. cbn. lia.
  - unfold GridWrapper.onSectionRendered, ApiManager.getEditorState.
    destruct (ApiManager.state m) eqn:Hs; [|cbn; rewrite Hs; cbn; lia].
    destruct (_ || _); [apply Hstop|].
    destruct (_ || _); [apply Hstop|].
    cbn. rewrite Hs. cbn. lia.
Qed.

(** X17: in any run of the manager from Idle, the cell changes reported are
    at most the stop notifications, and the stop notifications, together
    with the session still open at the end, are at most the begin
    notifications: every editing announced is stopped at most once and
    yields at most one change, and nothing is stopped or changed that was
    not announced. *)
Theorem changes_and_stops_are_bounded_by_begins (actions : list ApiTrace.Action) :
  let effects := snd (run actions ApiManager.idle) in
  let final := fst (run actions ApiManager.idle) in
  (length (cellChanges effects) <= length (dispatched CELL_STOP_EDITING effects))%nat /\
  (length (dispatched CELL_STOP_EDITING effects)
   + length (option_list (ApiManager.state final))
   <= length (dispatched CELL_BEGIN_EDITING effects))%nat.
Proof.
  assert (forall m,
    (length (cellChanges (snd (run actions m)))
     <= length (dispatched CELL_STOP_EDITING (snd (run actions m))))%nat /\
    (length (dispatched CELL_STOP_EDITING (snd (run actions m)))
     + length (option_list (ApiManager.state (fst (run actions m))))
     <= length (option_list (ApiManager.state m))
        + length (dispatched CELL_BEGIN_EDITING (snd (run actions m))))%nat) as Hall.
  { induction actions as [|a actions IH]; intros m; [cbn; lia|].
    cbn [ApiTrace.run]. pose proof (step_counts a m) as [Hc Hs].
    destruct (step a m) as [m1 e1]. destruct (IH m1) as [IHc IHs].
    destruct (run actions m1) as [m2 e2]. cbn [fst snd] in *.
    rewrite cellChanges_app, !dispatched_app, !length_app. lia. }
  cbn zeta. destruct (Hall ApiManager.idle) as [Hc Hs]. cbn in Hs. split; lia.
Qed.

End CountingProperties.
